(** * air_hockey.py: the two network modules and the experiment driver

    A shallow embedding of [src/air_hockey.py].  The script defines two
    three-layer perceptrons ([CriticNetwork], [ActorNetwork]) and one
    driver function ([experiment]) that wires them into an external
    reinforcement-learning framework.

    Conventions.
    - Tensors are a shape plus row-major data, as in the numerical library.
    - Tensor entries range over an arbitrary scalar type with the
      operations the perceptrons use; the instance on [Z] stands for the
      integer-valued floats of small magnitude, on which float32
      arithmetic is exact; the instance on [unit] keeps the shapes alone,
      which decide whether a forward pass raises.
    - Code that can raise returns a [Result]; code that touches state
      (the random generator, the file system, the agent) threads it
      through the monad [M]. *)

From Stdlib Require Import ZArith NArith QArith Lia.
From stdpp Require Import base option list strings gmap.

Local Open Scope nat_scope.

(* ===================================================================== *)
(** ** Exceptions and the state-and-error monad                           *)
(* ===================================================================== *)

Inductive Exn : Type :=
  | IndexError
  | RuntimeError
  | ValueError
  | ZeroDivisionError
  | KeyError
  | NotImplementedError
  | AssertionError
  | TypeError.

Inductive Result (A : Type) : Type :=
  | Ok (a : A)
  | Raise (e : Exn).
Arguments Ok {A} a.
Arguments Raise {A} e.

(** Stateful code that may raise: the state reached is returned in both
    cases, since an exception does not undo earlier effects. *)
Definition M (S A : Type) : Type := S -> Result A * S.

Definition ret {S A} (a : A) : M S A := fun s => (Ok a, s).
Definition raise {S A} (e : Exn) : M S A := fun s => (Raise e, s).
Definition bind {S A B} (m : M S A) (k : A -> M S B) : M S B :=
  fun s =>
    match m s with
    | (Ok a, s') => k a s'
    | (Raise e, s') => (Raise e, s')
    end.
Definition lift {S A} (r : Result A) : M S A := fun s => (r, s).
Definition get {S} : M S S := fun s => (Ok s, s).
Definition modify {S} (f : S -> S) : M S unit := fun s => (Ok tt, f s).

Declare Scope monad_scope.
Delimit Scope monad_scope with monad.
Notation "'do' x <- m ; k" := (bind m (fun x => k))
  (at level 10, x name, m at level 100, k at level 200) : monad_scope.
Notation "m ;; k" := (bind m (fun _ => k))
  (at level 100, k at level 200, right associativity) : monad_scope.
Local Open Scope monad_scope.

(* ===================================================================== *)
(** ** Tensors                                                            *)
(* ===================================================================== *)

(** The arithmetic a perceptron needs from its scalars. *)
Class Scalar (F : Type) : Type := {
  szero : F;
  sadd : F -> F -> F;
  smul : F -> F -> F;
  srelu : F -> F
}.

#[export] Instance Z_scalar : Scalar Z := {
  szero := 0%Z;
  sadd := Z.add;
  smul := Z.mul;
  srelu := Z.max 0
}.

Record Tensor (F : Type) : Type := mkTensor {
  shape : list nat;
  data : list F
}.
Arguments mkTensor {F} shape data.
Arguments shape {F} t.
Arguments data {F} t.

Definition numel (sh : list nat) : nat := foldr Nat.mul 1 sh.

(** A tensor holds as many entries as its shape says. *)
Definition tensor_wf {F} (t : Tensor F) : Prop :=
  length (data t) = numel (shape t).

(** The first [n] consecutive blocks of [k] entries of a flat list. *)
Fixpoint rows {A} (k n : nat) (l : list A) : list (list A) :=
  match n with
  | 0 => []
  | S n' => take k l :: rows k n' (drop k l)
  end.

Section TorchOps.
Context {F : Type} `{Scalar F}.

(** [t.float()]: a change of element type only; shape and order of the
    entries stay as they are. *)
Definition float (t : Tensor F) : Tensor F := t.

(** [torch.cat((a, b), dim=1)].  A tensor without dimensions cannot be
    concatenated.  Both tensors need at least two dimensions and must
    agree on every dimension but the second; the library skips a
    one-dimensional empty tensor. *)
Definition cat1 (a b : Tensor F) : Result (Tensor F) :=
  match shape a, shape b with
  | [], _ | _, [] => Raise RuntimeError
  | [0], [0] => Ok (mkTensor [0] [])
  | [0], _ :: _ :: _ => Ok b
  | _ :: _ :: _, [0] => Ok a
  | n :: da :: ra, m :: db :: rb =>
      if decide (n = m /\ ra = rb) then
        Ok (mkTensor (n :: (da + db) :: ra)
              (concat (zip_with app
                         (rows (da * numel ra) n (data a))
                         (rows (db * numel rb) n (data b)))))
      else Raise RuntimeError
  | _ :: _ :: _, _ | _, _ :: _ :: _ => Raise RuntimeError
  | _, _ => Raise IndexError
  end.

(** [torch.squeeze(t)]: every dimension of size one is removed. *)
Definition squeeze (t : Tensor F) : Tensor F :=
  mkTensor (filter (fun d => d <> 1) (shape t)) (data t).

(** [torch.squeeze(t, d)]: dimension [d] is removed when its size is
    one, the tensor is returned as it is otherwise; a [d] beyond the
    last dimension raises. *)
Definition squeeze_dim (t : Tensor F) (d : nat) : Result (Tensor F) :=
  match shape t !! d with
  | Some 1 => Ok (mkTensor (delete d (shape t)) (data t))
  | Some _ => Ok t
  | None => Raise IndexError
  end.

(** [F.relu(t)]. *)
Definition relu (t : Tensor F) : Tensor F :=
  mkTensor (shape t) (srelu <$> data t).

Definition dot (w x : list F) : F :=
  foldr sadd szero (zip_with smul w x).

(** One row through an affine layer: [W x + b]. *)
Definition affine (W : list (list F)) (b x : list F) : list F :=
  zip_with (fun w bi => sadd (dot w x) bi) W b.
End TorchOps.

(** [nn.Linear]: the layer's two parameter tensors, generic in how a
  parameter is represented. *)
Record Linear (P : Type) : Type := mkLinear {
in_features : nat;
out_features : nat;
weight : P;
bias : P
}.
Arguments mkLinear {P} in_features out_features weight bias.
Arguments in_features {P} l.
Arguments out_features {P} l.
Arguments weight {P} l.
Arguments bias {P} l.

(** The parameters of a layer have the shapes of its widths. *)
Definition Linear_wf {F} (l : Linear (Tensor F)) : Prop :=
  shape (weight l) = [out_features l; in_features l] /\
  tensor_wf (weight l) /\
  shape (bias l) = [out_features l] /\
  tensor_wf (bias l).

Section LinearForward.
Context {F : Type} `{Scalar F}.

(** Calling a linear layer: the last dimension of the input must be
    [in_features]; every row along it goes through [affine]. *)
Definition Linear_call (l : Linear (Tensor F)) (x : Tensor F)
  : Result (Tensor F) :=
  match last (shape x) with
  | Some d =>
      if decide (d = in_features l) then
        let lead := removelast (shape x) in
        let W := rows (in_features l) (out_features l) (data (weight l)) in
        Ok (mkTensor (lead ++ [out_features l])
              (concat (affine W (data (bias l))
                         <$> rows (in_features l) (numel lead) (data x))))
      else Raise RuntimeError
  | None => Raise RuntimeError
  end.
End LinearForward.

(** The library's global random generator: the number of samples drawn
    from it so far. *)
Record Generator : Type := mkGenerator { offset : N }.

Definition Torch (A : Type) : Type := M Generator A.

(* ===================================================================== *)
(** ** Parameter initialisation                                           *)
(* ===================================================================== *)

(** What a parameter tensor was last filled from.  Every initialiser the
    script reaches samples a centred uniform law [U(-a, a)]; its bound is
    a square root, so the law is recorded by [a * a], which is rational.
    A gain is recorded by its square in the same way. *)
Inductive Law : Type :=
  | Empty
  | Uniform (bound_sq : Q).

(** A parameter as its constructor leaves it: shape and law. *)
Record Param : Type := mkParam { pshape : list nat; plaw : Law }.

(** [torch.empty(shape)]: allocated, not written. *)
Definition empty (sh : list nat) : Param := mkParam sh Empty.

(** [tensor.uniform_(-a, a)]: every entry is drawn from the generator. *)
Definition uniform_ (p : Param) (bound_sq : Q) : Torch Param :=
  modify (fun g => mkGenerator (offset g + N.of_nat (numel (pshape p))));;
  ret (mkParam (pshape p) (Uniform bound_sq)).

Definition _calculate_fan_in_and_fan_out (p : Param) : Result (nat * nat) :=
  match pshape p with
  | n_out :: n_in :: rest => Ok (n_in * numel rest, n_out * numel rest)
  | _ => Raise ValueError
  end.

Definition Qnat (n : nat) : Q := inject_Z (Z.of_nat n).

(** [nn.init.calculate_gain(nonlinearity)] with its default parameter;
    the result is the square of the gain. *)
Definition calculate_gain (nonlinearity : string) : Result Q :=
  if decide (nonlinearity ∈ ["linear"; "conv1d"; "conv2d"; "conv3d";
                             "conv_transpose1d"; "conv_transpose2d";
                             "conv_transpose3d"; "sigmoid"]%string)
  then Ok 1%Q
  else if decide (nonlinearity = "tanh"%string) then Ok (25 # 9)%Q
  else if decide (nonlinearity = "relu"%string) then Ok 2%Q
  else if decide (nonlinearity = "leaky_relu"%string) then Ok (20000 # 10001)%Q
  else if decide (nonlinearity = "selu"%string) then Ok (9 # 16)%Q
  else Raise ValueError.

(** [nn.init.kaiming_uniform_(p, a)] in its default fan-in mode, [a_sq]
    being the square of the slope [a]: a tensor without entries is left
    alone; otherwise the bound is [sqrt 3 * sqrt (2 / (1 + a * a)) /
    sqrt fan_in]. *)
Definition kaiming_uniform_ (p : Param) (a_sq : Q) : Torch Param :=
  if decide (0 ∈ pshape p) then ret p
  else
    do fans <- lift (_calculate_fan_in_and_fan_out p);
    uniform_ p (6 / ((1 + a_sq) * Qnat (fst fans)))%Q.

(** [nn.init.xavier_uniform_(p, gain)]: the bound is
    [sqrt 3 * gain * sqrt (2 / (fan_in + fan_out))]. *)
Definition xavier_uniform_ (p : Param) (gain_sq : Q) : Torch Param :=
  do fans <- lift (_calculate_fan_in_and_fan_out p);
  if decide (fst fans + snd fans = 0) then raise ZeroDivisionError
  else uniform_ p (6 * gain_sq / Qnat (fst fans + snd fans))%Q.

(** [nn.Linear(n_in, n_out)]: both parameters are allocated, then the
    layer resets them: the weight by [kaiming_uniform_] with slope
    [sqrt 5], the bias uniformly within [1 / sqrt fan_in]. *)
Definition nn_Linear (n_in n_out : nat) : Torch (Linear Param) :=
  let weight := empty [n_out; n_in] in
  let bias := empty [n_out] in
  do weight <- kaiming_uniform_ weight 5;
  do fans <- lift (_calculate_fan_in_and_fan_out weight);
  let bound_sq := if decide (0 < fst fans) then (1 / Qnat (fst fans))%Q else 0%Q in
  do bias <- uniform_ bias bound_sq;
  ret (mkLinear n_in n_out weight bias).

(** [law_is l q]: the law is the uniform one whose squared bound is [q];
    [law_is l 0] says the parameter is zero. *)
Definition law_is (l : Law) (q : Q) : Prop :=
  match l with
  | Uniform b => (b == q)%Q
  | Empty => False
  end.

(** A layer's weight and bias follow the laws with squared bounds [q]. *)
Definition laws_are (l : Law * Law) (q : Q * Q) : Prop :=
  law_is l.1 q.1 /\ law_is l.2 q.2.

(** The laws of a layer's weight and bias. *)
Definition layer_laws (l : Linear Param) : Law * Law :=
  (plaw (weight l), plaw (bias l)).

(** Writing a layer's weight in place. *)
Definition set_weight {P} (l : Linear P) (w : P) : Linear P :=
  mkLinear (in_features l) (out_features l) w (bias l).

(** [shape[-1]] and [shape[0]] on a tuple. *)
Definition getitem_last (sh : list nat) : Result nat :=
  match last sh with
  | Some n => Ok n
  | None => Raise IndexError
  end.

Definition getitem_0 (sh : list nat) : Result nat :=
  match sh !! 0 with
  | Some n => Ok n
  | None => Raise IndexError
  end.

(* ===================================================================== *)
(** ** The network modules                                                *)
(* ===================================================================== *)

Module CriticNetwork.
Record t (P : Type) : Type := mk { _h1 : Linear P; _h2 : Linear P; _h3 : Linear P }.
Arguments mk {P} _ _ _.
Arguments _h1 {P} _.
Arguments _h2 {P} _.
Arguments _h3 {P} _.

(** The keyword arguments beyond [n_features] are accepted and unused. *)
Definition __init__ (input_shape output_shape : list nat) (n_features : nat)
  : Torch (t Param) :=
  do n_input <- lift (getitem_last input_shape);
  do n_output <- lift (getitem_0 output_shape);
  do h1 <- nn_Linear n_input n_features;
  do h2 <- nn_Linear n_features n_features;
  do h3 <- nn_Linear n_features n_output;
  do g1 <- lift (calculate_gain "relu");
  do w1 <- xavier_uniform_ (weight h1) g1;
  do g2 <- lift (calculate_gain "relu");
  do w2 <- xavier_uniform_ (weight h2) g2;
  do g3 <- lift (calculate_gain "linear");
  do w3 <- xavier_uniform_ (weight h3) g3;
  ret (mk (set_weight h1 w1) (set_weight h2 w2) (set_weight h3 w3)).

Definition laws (self : t Param) : list (Law * Law) :=
  [layer_laws (_h1 self); layer_laws (_h2 self); layer_laws (_h3 self)].

(** Input and output width of the three layers, in order. *)
Definition widths {P} (self : t P) : list (nat * nat) :=
  [(in_features (_h1 self), out_features (_h1 self));
   (in_features (_h2 self), out_features (_h2 self));
   (in_features (_h3 self), out_features (_h3 self))].

Section Forward.
Context {F : Type} `{Scalar F}.

Definition forward (self : t (Tensor F)) (state action : Tensor F)
  : Torch (Tensor F) :=
  do state_action <- lift (cat1 (float state) (float action));
  do a1 <- lift (Linear_call (_h1 self) state_action);
  let features1 := relu a1 in
  do a2 <- lift (Linear_call (_h2 self) features1);
  let features2 := relu a2 in
  do q <- lift (Linear_call (_h3 self) features2);
  ret (squeeze q).
End Forward.
End CriticNetwork.

Module ActorNetwork.
Record t (P : Type) : Type := mk { _h1 : Linear P; _h2 : Linear P; _h3 : Linear P }.
Arguments mk {P} _ _ _.
Arguments _h1 {P} _.
Arguments _h2 {P} _.
Arguments _h3 {P} _.

(** The keyword arguments beyond [n_features] are accepted and unused. *)
Definition __init__ (input_shape output_shape : list nat) (n_features : nat)
  : Torch (t Param) :=
  do n_input <- lift (getitem_last input_shape);
  do n_output <- lift (getitem_0 output_shape);
  do h1 <- nn_Linear n_input n_features;
  do h2 <- nn_Linear n_features n_features;
  do h3 <- nn_Linear n_features n_output;
  do g1 <- lift (calculate_gain "relu");
  do w1 <- xavier_uniform_ (weight h1) g1;
  do g2 <- lift (calculate_gain "relu");
  do w2 <- xavier_uniform_ (weight h2) g2;
  do g3 <- lift (calculate_gain "linear");
  do w3 <- xavier_uniform_ (weight h3) g3;
  ret (mk (set_weight h1 w1) (set_weight h2 w2) (set_weight h3 w3)).

Definition laws (self : t Param) : list (Law * Law) :=
  [layer_laws (_h1 self); layer_laws (_h2 self); layer_laws (_h3 self)].

(** Input and output width of the three layers, in order. *)
Definition widths {P} (self : t P) : list (nat * nat) :=
  [(in_features (_h1 self), out_features (_h1 self));
   (in_features (_h2 self), out_features (_h2 self));
   (in_features (_h3 self), out_features (_h3 self))].

Section Forward.
Context {F : Type} `{Scalar F}.

Definition forward (self : t (Tensor F)) (state : Tensor F)
  : Torch (Tensor F) :=
  do s <- lift (squeeze_dim state 1);
  do a1 <- lift (Linear_call (_h1 self) (float s));
  let features1 := relu a1 in
  do a2 <- lift (Linear_call (_h2 self) features1);
  let features2 := relu a2 in
  do a <- lift (Linear_call (_h3 self) features2);
  ret a.
End Forward.
End ActorNetwork.

(* ===================================================================== *)
(** ** Shapes alone                                                       *)
(* ===================================================================== *)

(** Whether a forward pass raises is decided by shapes.  Over the scalar
    type with a single value a tensor is its shape and nothing else, and
    the [forward] methods above run on it as on any other. *)
#[export] Instance unit_scalar : Scalar unit := {
  szero := tt;
  sadd := fun _ _ => tt;
  smul := fun _ _ => tt;
  srelu := fun _ => tt
}.

Definition of_shape (sh : list nat) : Tensor unit :=
  mkTensor sh (replicate (numel sh) tt).

Definition Linear_of_shape (l : Linear Param) : Linear (Tensor unit) :=
  mkLinear (in_features l) (out_features l)
    (of_shape (pshape (weight l))) (of_shape (pshape (bias l))).

Definition ActorNetwork_of_shape (net : ActorNetwork.t Param)
  : ActorNetwork.t (Tensor unit) :=
  ActorNetwork.mk (Linear_of_shape (ActorNetwork._h1 net))
    (Linear_of_shape (ActorNetwork._h2 net))
    (Linear_of_shape (ActorNetwork._h3 net)).

Definition CriticNetwork_of_shape (net : CriticNetwork.t Param)
  : CriticNetwork.t (Tensor unit) :=
  CriticNetwork.mk (Linear_of_shape (CriticNetwork._h1 net))
    (Linear_of_shape (CriticNetwork._h2 net))
    (Linear_of_shape (CriticNetwork._h3 net)).

(* ===================================================================== *)
(** ** The external framework                                             *)
(* ===================================================================== *)

(** The two simulated environments and the one algorithm the script
    imports. *)
Inductive EnvKind : Type := AirHockeyHit | AirHockeyDefend.

Inductive Alg : Type := SAC.

Definition __name__ (alg : Alg) : string :=
  match alg with SAC => "SAC" end.

(** [mdp.info]: the declared shapes of the observation and action
    spaces, the discount factor and the horizon. *)
Record MDPInfo : Type := mkMDPInfo {
  observation_space_shape : list nat;
  action_space_shape : list nat;
  info_gamma : Q;
  info_horizon : nat
}.

(** Values stored in the configuration dictionaries. *)
Inductive NetworkClass : Type := ActorNetworkClass | CriticNetworkClass.

#[warnings="-register-all"] Inductive PyVal : Type :=
  | VNetwork (c : NetworkClass)
  | VAdam
  | VMseLoss
  | VNat (n : nat)
  | VFloat (q : Q)
  | VShape (sh : list nat)
  | VBool (b : bool)
  | VDict (d : gmap string PyVal).

(** An instantiated network of either class. *)
Inductive Net : Type :=
  | NActor (net : ActorNetwork.t Param)
  | NCritic (net : CriticNetwork.t Param).

(** What the script only passes through is a parameter of the model: the
    simulator and its state [Sim], the declared shapes of the two
    environments, the agent's parameter values and optimiser state
    [Weights], one environment step under the current policy, a run of
    whole episodes, the training update computed from the replay buffer,
    the states a dataset went through, and the statistics of a
    dataset. *)
Class Framework : Type := {
  Sample : Type;
  State : Type;
  Metric : Type;
  Sim : Type;
  Weights : Type;
  observation_shape : EnvKind -> list nat;
  action_shape : EnvKind -> list nat;
  sim_reset : EnvKind -> Sim;
  step : Weights -> Sim -> Sample * Sim;
  episodes : nat -> Weights -> Sim -> list Sample * Sim;
  init_weights : Generator -> list Net -> Weights;
  update : bool -> gmap N Sample -> Weights -> Weights;
  states : list Sample -> list State;
  compute_J : list Sample -> option Q -> list Metric;
  np_mean : list Metric -> Metric;
  entropy : Weights -> list State -> Metric
}.

Section Driver.
Context `{FW : Framework}.

(** *** The replay buffer *)

(** Modelled from the spec: the replay buffer of the external framework,
    which is not among the sources.  A fixed-capacity store of past
    transitions with a minimum threshold ([initial_size]); a warm-up
    that fills it to the threshold makes no update, so training starts
    once the store holds more than that.  At capacity the oldest entries
    are overwritten. *)
Record ReplayMemory : Type := mkReplayMemory {
  initial_size : N;
  max_size : N;
  idx : N;
  full : bool;
  storage : gmap N Sample
}.

Definition ReplayMemory_new (initial_size max_size : N) : ReplayMemory :=
  mkReplayMemory initial_size max_size 0 false ∅.

Definition ReplayMemory_add1 (rm : ReplayMemory) (s : Sample) : ReplayMemory :=
  let storage' := <[idx rm := s]> (storage rm) in
  if (idx rm + 1 =? max_size rm)%N
  then mkReplayMemory (initial_size rm) (max_size rm) 0 true storage'
  else mkReplayMemory (initial_size rm) (max_size rm) (idx rm + 1) (full rm)
         storage'.

Definition ReplayMemory_add (rm : ReplayMemory) (dataset : list Sample)
  : ReplayMemory :=
  foldl ReplayMemory_add1 rm dataset.

(** The number of stored transitions. *)
Definition ReplayMemory_size (rm : ReplayMemory) : N :=
  if full rm then max_size rm else idx rm.

(** Training may start once the buffer holds more than its minimum. *)
Definition ReplayMemory_initialized (rm : ReplayMemory) : bool :=
  (initial_size rm <? ReplayMemory_size rm)%N.

(** *** The agent *)

(** The arguments the driver passes to the algorithm's constructor. *)
Record AlgArgs : Type := mkAlgArgs {
  arg_mdp_info : MDPInfo;
  arg_actor_mu_params : gmap string PyVal;
  arg_actor_sigma_params : gmap string PyVal;
  arg_actor_optimizer : gmap string PyVal;
  arg_critic_params : gmap string PyVal;
  arg_batch_size : N;
  arg_initial_replay_size : N;
  arg_max_replay_size : N;
  arg_warmup_transitions : N;
  arg_tau : Q;
  arg_lr_alpha : Q;
  arg_critic_fit_params : option (gmap string PyVal)
}.

Record Agent : Type := mkAgent {
  agent_args : AlgArgs;
  critic_approximator : Net;
  mu_approximator : Net;
  sigma_approximator : Net;
  weights : Weights;
  replay_memory : ReplayMemory
}.

(** Modelled from the spec: the external agent constructor, which is not
    among the sources, instantiates the configured network class with
    the configured input shape, output shape and feature width. *)
Definition instantiate (params : gmap string PyVal) : Torch Net :=
  match params !! "network"%string, params !! "input_shape"%string,
        params !! "output_shape"%string, params !! "n_features"%string with
  | Some (VNetwork c), Some (VShape input_shape), Some (VShape output_shape),
    Some (VNat n_features) =>
      match c with
      | ActorNetworkClass =>
          do net <- ActorNetwork.__init__ input_shape output_shape n_features;
          ret (NActor net)
      | CriticNetworkClass =>
          do net <- CriticNetwork.__init__ input_shape output_shape n_features;
          ret (NCritic net)
      end
  | _, _, _, _ => raise KeyError
  end.

(** One network of the policy called on a state: the policy passes one
    argument, which the critic's [forward] does not accept.  The pass is
    followed on shapes alone. *)
Definition policy_forward (net : Net) (state : Tensor unit) : Torch unit :=
  match net with
  | NActor net =>
      ActorNetwork.forward (ActorNetwork_of_shape net) state;;
      ret tt
  | NCritic _ => raise TypeError
  end.

(** The critic called on states and actions: the agent passes two
    arguments, which an actor's [forward] does not accept. *)
Definition critic_forward (net : Net) (state action : Tensor unit)
  : Torch unit :=
  match net with
  | NCritic net =>
      CriticNetwork.forward (CriticNetwork_of_shape net) state action;;
      ret tt
  | NActor _ => raise TypeError
  end.

(** Modelled from the spec: the policy of the external agent, which is
    not among the sources, draws an action by running its mean network
    and then its standard-deviation network on the current observation,
    given as a batch of one; a forward pass that raises ends the run
    (sections 4.1, 7 and 9).  What the environment makes of an action of
    the wrong length is not modelled. *)
Definition draw_action (agent : Agent) (mdp_info : MDPInfo) : Torch unit :=
  let state := of_shape (1 :: observation_space_shape mdp_info) in
  policy_forward (mu_approximator agent) state;;
  policy_forward (sigma_approximator agent) state.

(** Modelled from the spec: a training update consumes a batch of
    [batch_size] stored transitions: the policy's networks run on the
    batch of states and the critic on the batches of states and actions,
    of the shapes the agent was constructed for; a forward pass that
    raises ends the run. *)
Definition fit_forward (agent : Agent) : Torch unit :=
  let args := agent_args agent in
  let batch_size := N.to_nat (arg_batch_size args) in
  let state :=
    of_shape (batch_size :: observation_space_shape (arg_mdp_info args)) in
  let action :=
    of_shape (batch_size :: action_space_shape (arg_mdp_info args)) in
  policy_forward (mu_approximator agent) state;;
  policy_forward (sigma_approximator agent) state;;
  critic_forward (critic_approximator agent) state action.

(** Modelled from the spec: [agent.fit(dataset)] of the external agent,
    which is not among the sources.  It appends the transitions to the
    replay buffer and makes a training update only once the buffer is
    past its minimum threshold; the policy is part of the update only
    after [warmup_transitions] transitions.  What the update does to the
    parameter values is a parameter of the model. *)
Definition SAC_fit (agent : Agent) (dataset : list Sample) : Torch Agent :=
  let rm := ReplayMemory_add (replay_memory agent) dataset in
  if ReplayMemory_initialized rm
  then
    fit_forward agent;;
    ret (mkAgent (agent_args agent) (critic_approximator agent)
           (mu_approximator agent) (sigma_approximator agent)
           (update (arg_warmup_transitions (agent_args agent)
                      <? ReplayMemory_size rm)%N
              (storage rm) (weights agent))
           rm)
  else
    ret (mkAgent (agent_args agent) (critic_approximator agent)
           (mu_approximator agent) (sigma_approximator agent)
           (weights agent) rm).

(** [parse_dataset(dataset)], of which the script uses the states: the
    framework asserts that the dataset is not empty before it splits
    it. *)
Definition parse_dataset (dataset : list Sample) : Result (list State) :=
  match dataset with
  | [] => Raise AssertionError
  | _ :: _ => Ok (states dataset)
  end.

(** *** The world the script runs in *)

Inductive Budget : Type :=
  | Steps (n : N)
  | Episodes (n : nat).

(** The calls the script makes to the outside, as they happen. *)
Inductive Event : Type :=
  | Ev_seed
  | Ev_Logger (name : string)
  | Ev_strong_line
  | Ev_info (msg : string)
  | Ev_epoch_info (epoch : nat) (J R E : Metric)
  | Ev_mdp (kind : EnvKind) (n_intermediate_steps : nat) (gamma : Q)
      (horizon : nat)
  | Ev_cuda
  | Ev_alg (alg : Alg) (args : AlgArgs)
  | Ev_load (path : string)
  | Ev_Core
  | Ev_evaluate (b : Budget) (render quiet : bool)
  | Ev_learn (n_steps n_steps_per_fit : N) (quiet : bool)
  | Ev_save (path : string) (full_save : bool)
  | Ev_input.

Record World : Type := mkWorld {
  trace : list Event;
  files : gmap string Agent;
  cuda : bool;
  generator : Generator
}.

Definition Driver (A : Type) : Type := M World A.

Definition emit (e : Event) : Driver unit :=
  modify (fun w => mkWorld (trace w ++ [e]) (files w) (cuda w) (generator w)).

(** Library code runs on the world's generator. *)
Definition torch {A} (m : Torch A) : Driver A :=
  fun w =>
    let (r, g) := m (generator w) in
    (r, mkWorld (trace w) (files w) (cuda w) g).

Record Mdp : Type := mkMdp {
  mdp_kind : EnvKind;
  info : MDPInfo;
  sim : Sim
}.

(** [AirHockeyHit(...)] and [AirHockeyDefend(...)]. *)
Definition AirHockey (kind : EnvKind) (n_intermediate_steps : nat) (gamma : Q)
    (horizon : nat) : Driver Mdp :=
  emit (Ev_mdp kind n_intermediate_steps gamma horizon);;
  ret (mkMdp kind
         (mkMDPInfo (observation_shape kind) (action_shape kind) gamma
            horizon)
         (sim_reset kind)).

(** Modelled from the spec: [alg(mdp.info, ...)], the external agent
    constructor: the three configured networks are instantiated and the
    replay buffer starts empty with the configured sizes. *)
Definition alg_new (alg : Alg) (args : AlgArgs) : Driver Agent :=
  emit (Ev_alg alg args);;
  do critic <- torch (instantiate (arg_critic_params args));
  do mu <- torch (instantiate (arg_actor_mu_params args));
  do sigma <- torch (instantiate (arg_actor_sigma_params args));
  do w <- get;
  ret (mkAgent args critic mu sigma
         (init_weights (generator w) [critic; mu; sigma])
         (ReplayMemory_new (arg_initial_replay_size args)
            (arg_max_replay_size args))).

(** Modelled from the spec: [agent.load(path)] reads back the agent
    state stored in the checkpoint; a missing file is fatal, and the
    framework's loader reports a path that does not exist as
    ValueError. *)
Definition Agent_load (path : string) : Driver Agent :=
  emit (Ev_load path);;
  do w <- get;
  match files w !! path with
  | Some agent => ret agent
  | None => raise ValueError
  end.

(** Modelled from the spec: [agent.save(path, full_save)] writes a
    snapshot of the agent state to the checkpoint. *)
Definition Agent_save (agent : Agent) (path : string) (full_save : bool)
  : Driver unit :=
  emit (Ev_save path full_save);;
  modify (fun w =>
    mkWorld (trace w) (<[path := agent]> (files w)) (cuda w) (generator w)).

(** *** The trainer *)

(** [Core(agent, mdp)] holds the agent and the environment; the script's
    [agent] and [core.agent] are one object, read here through [core]. *)
Record Core : Type := mkCore {
  core_agent : Agent;
  core_mdp : Mdp
}.

Definition Core_new (agent : Agent) (mdp : Mdp) : Driver Core :=
  emit Ev_Core;;
  ret (mkCore agent mdp).

Definition with_sim (mdp : Mdp) (s : Sim) : Mdp :=
  mkMdp (mdp_kind mdp) (info mdp) s.

(** The state of one run of the trainer's loop: the trainer, the
    transitions collected since the last fit, and their count. *)
Record Run : Type := mkRun {
  run_core : Core;
  run_dataset : list Sample;
  run_counter : N
}.

(** Whether a budget asks for any step at all. *)
Definition has_step (b : Budget) : bool :=
  match b with
  | Steps n => negb (n =? 0)%N
  | Episodes n => negb (n =? 0)
  end.

(** Modelled from the spec: the trainer's loop has the agent draw an
    action before every step.  Neither the agent's networks nor the
    declared shapes change while the loop runs, so the pass is followed
    once, when there is a step to make. *)
Definition first_action (core : Core) (b : Budget) : Driver unit :=
  if has_step b
  then torch (draw_action (core_agent core) (info (core_mdp core)))
  else ret tt.

(** Modelled from the spec: one step of [core.learn] of the external
    trainer, which is not among the sources: the environment moves under
    the current policy, the transition is collected, and every
    [n_steps_per_fit] transitions the agent is fitted on the collected
    ones. *)
Definition learn_step (n_steps_per_fit : N) (r : Run) : Torch Run :=
  let core := run_core r in
  let (sample, s') := step (weights (core_agent core)) (sim (core_mdp core)) in
  let dataset := run_dataset r ++ [sample] in
  let counter := (run_counter r + 1)%N in
  if (n_steps_per_fit <=? counter)%N
  then
    do agent <- SAC_fit (core_agent core) dataset;
    ret (mkRun (mkCore agent (with_sim (core_mdp core) s')) [] 0)
  else
    ret (mkRun (mkCore (core_agent core) (with_sim (core_mdp core) s'))
           dataset counter).

(** [n] rounds of a loop body that threads the loop's variables; the
    loop ends at the first round that raises. *)
Definition iterate {S A} (n : N) (body : A -> M S A) (a : A) : M S A :=
  N.iter n (fun m => bind m body) (ret a).

(** [core.learn(n_steps, n_steps_per_fit, quiet)]. *)
Definition Core_learn (core : Core) (n_steps n_steps_per_fit : N)
    (quiet : bool) : Driver Core :=
  emit (Ev_learn n_steps n_steps_per_fit quiet);;
  first_action core (Steps n_steps);;
  do r <- torch (iterate n_steps (learn_step n_steps_per_fit)
                   (mkRun core [] 0));
  ret (run_core r).

(** Modelled from the spec: one step of [core.evaluate]: as in
    [core.learn], without any fit. *)
Definition evaluate_step (r : Run) : Run :=
  let core := run_core r in
  let (sample, s') := step (weights (core_agent core)) (sim (core_mdp core)) in
  mkRun (mkCore (core_agent core) (with_sim (core_mdp core) s'))
    (run_dataset r ++ [sample]) (run_counter r + 1)%N.

(** [core.evaluate(n_steps=.. | n_episodes=.., render, quiet)]: the
    collected dataset, and the trainer with its environment moved on. *)
Definition Core_evaluate (core : Core) (b : Budget) (render quiet : bool)
  : Driver (list Sample * Core) :=
  emit (Ev_evaluate b render quiet);;
  first_action core b;;
  match b with
  | Steps n =>
      let r := N.iter n evaluate_step (mkRun core [] 0) in
      ret (run_dataset r, run_core r)
  | Episodes n =>
      let (dataset, s') :=
        episodes n (weights (core_agent core)) (sim (core_mdp core)) in
      ret (dataset, mkCore (core_agent core) (with_sim (core_mdp core) s'))
  end.

(** *** Console and library calls *)

Definition np_random_seed : Driver unit := emit Ev_seed.

Definition Logger (name : string) : Driver unit := emit (Ev_Logger name).

Definition logger_strong_line : Driver unit := emit Ev_strong_line.

Definition logger_info (msg : string) : Driver unit := emit (Ev_info msg).

Definition logger_epoch_info (epoch : nat) (J R E : Metric) : Driver unit :=
  emit (Ev_epoch_info epoch J R E).

Definition torch_cuda_is_available : Driver bool :=
  emit Ev_cuda;;
  do w <- get;
  ret (cuda w).

Definition input : Driver unit := emit Ev_input.

(** [for n in range(count)], threading the loop's variables. *)
Fixpoint for_range {S A} (start count : nat) (body : nat -> A -> M S A)
    (a : A) : M S A :=
  match count with
  | 0 => ret a
  | Datatypes.S count' =>
      do a' <- body start a;
      for_range (Datatypes.S start) count' body a'
  end.

(* ===================================================================== *)
(** ** The experiment driver                                              *)
(* ===================================================================== *)

(** The approximator configuration of [experiment], as functions of the
    values it is built from. *)
Definition actor_params (n_features : nat) (actor_input_shape : list nat)
    (mdp_info : MDPInfo) (use_cuda : bool) : gmap string PyVal :=
  {[ "network"%string := VNetwork ActorNetworkClass;
     "n_features"%string := VNat n_features;
     "input_shape"%string := VShape actor_input_shape;
     "output_shape"%string := VShape (action_space_shape mdp_info);
     "use_cuda"%string := VBool use_cuda ]}.

Definition actor_optimizer : gmap string PyVal :=
  {[ "class"%string := VAdam;
     "params"%string := VDict {[ "lr"%string := VFloat (5 # 10000) ]} ]}.

Definition critic_params (n_features : nat) (critic_input_shape : list nat)
    (use_cuda : bool) : gmap string PyVal :=
  {[ "network"%string := VNetwork CriticNetworkClass;
     "optimizer"%string :=
       VDict {[ "class"%string := VAdam;
                "params"%string := VDict {[ "lr"%string := VFloat (5 # 10000) ]} ]};
     "loss"%string := VMseLoss;
     "n_features"%string := VNat n_features;
     "input_shape"%string := VShape critic_input_shape;
     "output_shape"%string := VShape [1];
     "use_cuda"%string := VBool use_cuda ]}.

Definition checkpoint_initial (env_type : string) : string :=
  "agents/air_hockey_" +:+ env_type +:+ "_initial.msh".

Definition checkpoint_final (env_type : string) : string :=
  "agents/air_hockey_" +:+ env_type +:+ ".msh".

(** Lines 70 to 136: the environment, the settings, the approximators,
    the agent (loaded from [agent_path] when there is one) and the
    trainer. *)
Definition experiment_setup (alg : Alg) (env_type : string)
    (agent_path : option string) : Driver Core :=
  np_random_seed;;
  Logger (__name__ alg);;
  logger_strong_line;;
  logger_info ("Experiment Algorithm: " +:+ __name__ alg);;
  (* MDP *)
  let horizon := 120 in
  let gamma := (99 # 100)%Q in
  do mdp <-
    (if decide (env_type = "hit"%string)
     then AirHockey AirHockeyHit 4 gamma horizon
     else if decide (env_type = "defend"%string)
     then AirHockey AirHockeyDefend 4 gamma horizon
     else raise NotImplementedError);
  (* Settings *)
  let initial_replay_size := 5000%N in
  let max_replay_size := 200000%N in
  let batch_size := 64%N in
  let n_features := 128 in
  let warmup_transitions := 10000%N in
  let tau := (1 # 1000)%Q in
  let lr_alpha := (3 # 10000)%Q in
  do use_cuda <- torch_cuda_is_available;
  (* Approximator *)
  let actor_input_shape := observation_space_shape (info mdp) in
  let actor_mu_params :=
    actor_params n_features actor_input_shape (info mdp) use_cuda in
  let actor_sigma_params :=
    actor_params n_features actor_input_shape (info mdp) use_cuda in
  do n_obs <- lift (getitem_0 actor_input_shape);
  do n_act <- lift (getitem_0 (action_space_shape (info mdp)));
  let critic_input_shape := [n_obs + n_act] in
  let critic_params := critic_params n_features critic_input_shape use_cuda in
  (* Agent *)
  do agent <-
    alg_new alg
      (mkAlgArgs (info mdp) actor_mu_params actor_sigma_params
         actor_optimizer critic_params batch_size initial_replay_size
         max_replay_size warmup_transitions tau lr_alpha None);
  (* Only Evaluate *)
  do agent <-
    match agent_path with
    | Some path => Agent_load path
    | None => ret agent
    end;
  (* Algorithm *)
  Core_new agent mdp.

(** Lines 157 to 166: one epoch. *)
Definition epoch (n_steps n_steps_test : N) (n : nat) (core : Core)
  : Driver Core :=
  do core <- Core_learn core n_steps 1 true;
  do r <- Core_evaluate core (Steps n_steps_test) false true;
  let dataset := r.1 in
  let core := r.2 in
  do s <- lift (parse_dataset dataset);
  let J := np_mean (compute_J dataset (Some (info_gamma (info (core_mdp core))))) in
  let R := np_mean (compute_J dataset None) in
  let E := entropy (weights (core_agent core)) s in
  logger_epoch_info (n + 1) J R E;;
  ret core.

(** Lines 143 to 172: the training run. *)
Definition experiment_run (core : Core) (env_type : string) (n_epochs : nat)
    (n_steps n_steps_test : N) : Driver unit :=
  let initial_replay_size := 5000%N in
  do r <- Core_evaluate core (Steps n_steps_test) true false;
  let dataset := r.1 in
  let core := r.2 in
  do s <- lift (parse_dataset dataset);
  let J := np_mean (compute_J dataset (Some (info_gamma (info (core_mdp core))))) in
  let R := np_mean (compute_J dataset None) in
  let E := entropy (weights (core_agent core)) s in
  logger_epoch_info 0 J R E;;
  Agent_save (core_agent core) (checkpoint_initial env_type) true;;
  do core <- Core_learn core initial_replay_size initial_replay_size true;
  do core <- for_range 0 n_epochs (epoch n_steps n_steps_test) core;
  Agent_save (core_agent core) (checkpoint_final env_type) true;;
  logger_info "Press a button to visualize";;
  input;;
  do _ <- Core_evaluate core (Episodes 5) true false;
  ret tt.

Definition experiment (alg : Alg) (env_type : string) (n_epochs : nat)
    (n_steps n_steps_test : N) (agent_path : option string) : Driver unit :=
  do core <- experiment_setup alg env_type agent_path;
  match agent_path with
  | Some _ =>
      do _ <- Core_evaluate core (Episodes 20) true false;
      ret tt
  | None => experiment_run core env_type n_epochs n_steps n_steps_test
  end.

(** The entry point. *)
Definition main : Driver unit :=
  let alg := SAC in
  let env_type := "defend"%string in
  experiment alg env_type 100 4000 3000 (Some "agents/air_hockey_defend.msh"%string).

(* ===================================================================== *)
(** ** Observations on a run                                              *)
(* ===================================================================== *)

Definition is_learn (e : Event) : bool :=
  match e with Ev_learn _ _ _ => true | _ => false end.

Definition is_save (e : Event) : bool :=
  match e with Ev_save _ _ => true | _ => false end.

Definition is_epoch_info (e : Event) : bool :=
  match e with Ev_epoch_info _ _ _ _ => true | _ => false end.

(** The events of training: a learn call, logged epoch metrics, a
    written checkpoint. *)
Definition trains (e : Event) : bool :=
  is_learn e || is_epoch_info e || is_save e.

(** [silent P m]: whatever [m] returns or raises, it writes no file and
    none of its events satisfies [P]. *)
Definition silent {A} (P : Event -> bool) (m : Driver A) : Prop :=
  forall w,
    files (m w).2 = files w /\
    exists evs, trace (m w).2 = trace w ++ evs /\
                Forall (fun e => P e = false) evs.

(** [quiet m]: [m] writes no file and none of its events is one of
    training. *)
Definition quiet {A} (m : Driver A) : Prop := silent trains m.

(** [unseen P m]: whatever [m] returns or raises, and whatever it writes,
    none of its events satisfies [P]. *)
Definition unseen {A} (P : Event -> bool) (m : Driver A) : Prop :=
  forall w,
    exists evs, trace (m w).2 = trace w ++ evs /\
                Forall (fun e => P e = false) evs.

(** The three networks of an agent. *)
Definition approximators (agent : Agent) : Net * Net * Net :=
  (critic_approximator agent, mu_approximator agent,
   sigma_approximator agent).

(** The trainer's agent accepts the observations of the trainer's
    environment: drawing an action raises nothing. *)
Definition ready (core : Core) : Prop :=
  forall g,
    draw_action (core_agent core) (info (core_mdp core)) g = (Ok tt, g).

(** The agent's networks accept the batches of a training update. *)
Definition fit_ready (agent : Agent) : Prop :=
  forall g, fit_forward agent g = (Ok tt, g).

Definition is_mdp (e : Event) : bool :=
  match e with Ev_mdp _ _ _ _ => true | _ => false end.

Definition is_evaluate (e : Event) : bool :=
  match e with Ev_evaluate _ _ _ => true | _ => false end.

Definition is_load (e : Event) : bool :=
  match e with Ev_load _ => true | _ => false end.

(** The events of constructing anything: an environment, the query for
    an accelerator that opens the network configuration, an agent, a
    trainer. *)
Definition constructs (e : Event) : bool :=
  match e with
  | Ev_mdp _ _ _ _ | Ev_cuda | Ev_alg _ _ | Ev_load _ | Ev_Core => true
  | _ => false
  end.

(** The events of the epoch loop. *)
Definition loop_event (e : Event) : bool :=
  is_learn e || is_evaluate e || is_epoch_info e.

(** The environment names the driver knows. *)
Definition recognised (env_type : string) (kind : EnvKind) : Prop :=
  (env_type = "hit"%string /\ kind = AirHockeyHit) \/
  (env_type = "defend"%string /\ kind = AirHockeyDefend).

(** Some event satisfying [p] is followed, later in the list, by one
    satisfying [q]. *)
Fixpoint before (p q : Event -> bool) (l : list Event) : bool :=
  match l with
  | [] => false
  | e :: l' => (p e && existsb q l') || before p q l'
  end.

Definition is_save_to (path : string) (e : Event) : bool :=
  match e with
  | Ev_save p _ => bool_decide (p = path)
  | _ => false
  end.

(** The learn calls and checkpoint writes of a run, in order. *)
Definition learns_and_saves (evs : list Event) : list Event :=
  List.filter (fun e => is_save e || is_learn e) evs.

(** The agent's three networks have the widths of a perceptron from
    [n_in] inputs to [n_act] outputs (actors) and from [n_obs + n_act]
    inputs to one output (critic). *)
Definition sized_for (agent : Agent) (n_in n_obs n_act n_features : nat)
  : Prop :=
  exists critic mu sigma,
    critic_approximator agent = NCritic critic /\
    mu_approximator agent = NActor mu /\
    sigma_approximator agent = NActor sigma /\
    CriticNetwork.widths critic =
      [(n_obs + n_act, n_features); (n_features, n_features);
       (n_features, 1)] /\
    ActorNetwork.widths mu =
      [(n_in, n_features); (n_features, n_features); (n_features, n_act)] /\
    ActorNetwork.widths sigma =
      [(n_in, n_features); (n_features, n_features); (n_features, n_act)].

(** The warm-up call of the driver. *)
Definition is_warmup (e : Event) : bool :=
  match e with
  | Ev_learn n_steps n_steps_per_fit _ =>
      bool_decide (n_steps = 5000%N /\ n_steps_per_fit = 5000%N)
  | _ => false
  end.

End Driver.

Section RunObservations.
Context `{FW : Framework}.

(** The epoch an event logs metrics for, if it does. *)
Definition epoch_index (e : Event) : option nat :=
  match e with
  | Ev_epoch_info epoch _ _ _ => Some epoch
  | _ => None
  end.

Definition is_input (e : Event) : bool :=
  match e with Ev_input => true | _ => false end.
End RunObservations.

Section SampleWise.
Context {F : Type} `{Scalar F}.

(** One sample through a linear layer, and through the three layers of a
    perceptron with the activations between them. *)
Definition Linear_row (l : Linear (Tensor F)) (r : list F) : list F :=
  affine (rows (in_features l) (out_features l) (data (weight l)))
    (data (bias l)) r.

Definition perceptron_row (h1 h2 h3 : Linear (Tensor F)) (r : list F)
  : list F :=
  Linear_row h3 (srelu <$> Linear_row h2 (srelu <$> Linear_row h1 r)).
End SampleWise.

(* ===================================================================== *)
(** ** Reordering features, and small concrete networks                   *)
(* ===================================================================== *)

(** [reorder p row] lists the entries of [row] in the order of the
    indices [p]. *)
Definition reorder {A} (p : list nat) (row : list A) : list A :=
  omap (fun i => row !! i) p.

(** The same reordering applied to every feature vector of a batch. *)
Definition permute_features {F} (p : list nat) (t : Tensor F) : Tensor F :=
  mkTensor (shape t)
    (concat (reorder p <$>
       rows (default 0 (last (shape t))) (numel (removelast (shape t)))
         (data t))).

Module Examples.
Local Open Scope Z_scope.

Definition lin (n_in n_out : nat) (w b : list Z) : Linear (Tensor Z) :=
  mkLinear n_in n_out (mkTensor [n_out; n_in] w) (mkTensor [n_out] b).

(** A critic for two observation and two action features, width one. *)
Definition critic : CriticNetwork.t (Tensor Z) :=
  CriticNetwork.mk (lin 4 1 [1; 0; 2; 0] [0]) (lin 1 1 [1] [0])
    (lin 1 1 [1] [0]).

(** The same layout with every weight and bias at zero. *)
Definition critic_zero : CriticNetwork.t (Tensor Z) :=
  CriticNetwork.mk (lin 4 1 [0; 0; 0; 0] [0]) (lin 1 1 [0] [0])
    (lin 1 1 [0] [0]).

(** An actor for two observation and two action features, width one. *)
Definition actor : ActorNetwork.t (Tensor Z) :=
  ActorNetwork.mk (lin 2 1 [1; 0] [0]) (lin 1 1 [1] [0])
    (lin 1 2 [1; 1] [0; 0]).

(** An actor for a single observation feature. *)
Definition actor_obs1 : ActorNetwork.t (Tensor Z) :=
  ActorNetwork.mk (lin 1 1 [1] [0]) (lin 1 1 [1] [0]) (lin 1 1 [1] [0]).

(** Batches of two: states [(1, 0)], actions [(0, 1)]. *)
Definition state : Tensor Z := mkTensor [2; 2]%nat [1; 0; 1; 0].
Definition action : Tensor Z := mkTensor [2; 2]%nat [0; 1; 0; 1].

(** A batch of one. *)
Definition state1 : Tensor Z := mkTensor [1; 2]%nat [1; 0].
Definition action1 : Tensor Z := mkTensor [1; 2]%nat [0; 1].

Definition g0 : Generator := mkGenerator 0.

Local Close Scope Z_scope.

(** A framework small enough to run: transitions carry nothing, the
    simulator counts its steps, the weights count the updates made, and
    both environments declare six observation and three action
    features. *)
Definition framework : Framework := {|
  Sample := unit;
  State := unit;
  Metric := unit;
  Sim := N;
  Weights := N;
  observation_shape := fun _ => [6];
  action_shape := fun _ => [3];
  sim_reset := fun _ => 0%N;
  step := fun _ s => (tt, N.succ s);
  episodes := fun n _ s => (replicate n tt, (s + N.of_nat n)%N);
  init_weights := fun _ _ => 0%N;
  update := fun _ _ w => N.succ w;
  states := fun dataset => dataset;
  compute_J := fun dataset _ => dataset;
  np_mean := fun _ => tt;
  entropy := fun _ _ => tt
|}.

(** A world with nothing in it, on that framework. *)
Definition world : @World framework := mkWorld [] ∅ false g0.

(** An agent with networks of width two for [n_obs] observation and
    [n_act] action features. *)
Definition layer (n_in n_out : nat) : Linear Param :=
  mkLinear n_in n_out (mkParam [n_out; n_in] Empty) (mkParam [n_out] Empty).

Definition agent_for (n_obs n_act : nat) : @Agent framework :=
  mkAgent
    (mkAlgArgs (mkMDPInfo [n_obs] [n_act] (99 # 100) 120) ∅ ∅ ∅ ∅ 64 5000
       200000 10000 (1 # 1000) (3 # 10000) None)
    (NCritic (CriticNetwork.mk (layer (n_obs + n_act) 2) (layer 2 2)
                (layer 2 1)))
    (NActor (ActorNetwork.mk (layer n_obs 2) (layer 2 2) (layer 2 n_act)))
    (NActor (ActorNetwork.mk (layer n_obs 2) (layer 2 2) (layer 2 n_act)))
    (7%N : @Weights framework) (ReplayMemory_new 5000 200000).

(** An agent that fits the environments of the small framework, and a
    world where it is stored as the checkpoint the entry point names. *)
Definition stored_agent : @Agent framework := agent_for 6 3.

Definition world_with_checkpoint : @World framework :=
  mkWorld [] {[ "agents/air_hockey_defend.msh"%string := stored_agent ]}
    false g0.

(** A world where that checkpoint holds an agent for four observation
    features. *)
Definition world_with_other_checkpoint : @World framework :=
  mkWorld [] {[ "agents/air_hockey_defend.msh"%string := agent_for 4 3 ]}
    false g0.

(** A training run without epochs, and a call that names an unknown
    environment together with a checkpoint path. *)
Definition training_run : Result unit * @World framework :=
  experiment SAC "hit" 0 7 3 None world.

Definition unknown_env_run : Result unit * @World framework :=
  experiment SAC "foo" 100 4000 3000
    (Some "agents/air_hockey_defend.msh"%string) world_with_checkpoint.
End Examples.

(* ===================================================================== *)
(** * Properties                                                          *)
(* ===================================================================== *)

(** ** Running the monad *)

Lemma bind_ok {S A B} (m : M S A) (k : A -> M S B) (s s' : S) (a : A) :
  m s = (Ok a, s') -> bind m k s = k a s'.
Proof. intros E. unfold bind. now rewrite E. Qed.

Lemma bind_ret {S A B} (a : A) (k : A -> M S B) (s : S) :
  bind (ret a) k s = k a s.
Proof. reflexivity. Qed.

Lemma bind_lift_ok {S A B} (a : A) (k : A -> M S B) (s : S) :
  bind (lift (Ok a)) k s = k a s.
Proof. reflexivity. Qed.

Lemma bind_assoc {S A B C} (m : M S A) (k : A -> M S B) (h : B -> M S C)
    (s : S) :
  bind (bind m k) h s = bind m (fun a => bind (k a) h) s.
Proof. unfold bind. destruct (m s) as [[a|e] s']; reflexivity. Qed.

Lemma bind_modify {S B} (f : S -> S) (k : unit -> M S B) (s : S) :
  bind (modify f) k s = k tt (f s).
Proof. reflexivity. Qed.

(** ** Shapes through the layers *)

Section ShapeLemmas.
Context {F : Type} `{Scalar F}.

Lemma Linear_call_shape (l : Linear (Tensor F)) (x : Tensor F) :
  last (shape x) = Some (in_features l) ->
  exists out, Linear_call l x = Ok out /\
    shape out = removelast (shape x) ++ [out_features l].
Proof.
  intros Hlast. unfold Linear_call. rewrite Hlast.
  rewrite decide_True by reflexivity. eexists. split; reflexivity.
Qed.

Lemma squeeze_dim_keep (t : Tensor F) (d n : nat) :
  shape t !! d = Some n -> n <> 1 -> squeeze_dim t d = Ok t.
Proof.
  intros Hd Hn. unfold squeeze_dim. rewrite Hd.
  destruct n as [|[|n]]; [reflexivity | congruence | reflexivity].
Qed.

Lemma squeeze_dim_drop (t : Tensor F) (d : nat) :
  shape t !! d = Some 1 ->
  squeeze_dim t d = Ok (mkTensor (delete d (shape t)) (data t)).
Proof. intros Hd. unfold squeeze_dim. now rewrite Hd. Qed.

(** The three layers in a row, as both [forward] methods run them. *)
Lemma perceptron_shape (h1 h2 h3 : Linear (Tensor F)) (x : Tensor F)
    (n_in n_feat n_out : nat) (g : Generator) :
  [(in_features h1, out_features h1); (in_features h2, out_features h2);
   (in_features h3, out_features h3)]
    = [(n_in, n_feat); (n_feat, n_feat); (n_feat, n_out)] ->
  last (shape x) = Some n_in ->
  exists out,
    (do a1 <- lift (Linear_call h1 x);
     do a2 <- lift (Linear_call h2 (relu a1));
     lift (Linear_call h3 (relu a2))) g = (Ok out, g) /\
    shape out = removelast (shape x) ++ [n_out].
Proof.
  intros Hw Hx. injection Hw as Hi1 Ho1 Hi2 Ho2 Hi3 Ho3.
  destruct (Linear_call_shape h1 x) as (a1 & E1 & S1); [congruence|].
  destruct (Linear_call_shape h2 (relu a1)) as (a2 & E2 & S2).
  { simpl. rewrite S1, last_snoc. congruence. }
  destruct (Linear_call_shape h3 (relu a2)) as (a3 & E3 & S3).
  { simpl. rewrite S2, last_snoc. congruence. }
  exists a3. unfold bind, lift. rewrite E1, E2, E3. split; [reflexivity|].
  rewrite S3. simpl. rewrite S2, removelast_last. simpl.
  rewrite S1, removelast_last. congruence.
Qed.
End ShapeLemmas.

(** ** Output shapes of the two networks *)

Section ForwardShapes.
Context {F : Type} `{Scalar F}.

Lemma actor_forward_shape (actor : ActorNetwork.t (Tensor F))
    (state s : Tensor F) (obs_dim feature_width action_dim : nat)
    (g : Generator) :
  ActorNetwork.widths actor =
    [(obs_dim, feature_width); (feature_width, feature_width);
     (feature_width, action_dim)] ->
  squeeze_dim state 1 = Ok s ->
  last (shape s) = Some obs_dim ->
  exists out, ActorNetwork.forward actor state g = (Ok out, g) /\
    shape out = removelast (shape s) ++ [action_dim].
Proof.
  intros Hw Hs Hlast.
  destruct (perceptron_shape _ _ _ (float s) _ _ _ g Hw Hlast)
    as (out & E & S).
  exists out. split; [|exact S].
  unfold ActorNetwork.forward, bind, lift, ret in *. rewrite Hs.
  destruct (Linear_call (ActorNetwork._h1 actor) (float s)); [|discriminate].
  destruct (Linear_call (ActorNetwork._h2 actor) (relu a)); [|discriminate].
  destruct (Linear_call (ActorNetwork._h3 actor) (relu a0)); congruence.
Qed.

Lemma critic_forward_shape (critic : CriticNetwork.t (Tensor F))
    (batch_size obs_dim feature_width action_dim : nat)
    (ds da : list F) (g : Generator) :
  CriticNetwork.widths critic =
    [(obs_dim + action_dim, feature_width); (feature_width, feature_width);
     (feature_width, 1)] ->
  exists out,
    CriticNetwork.forward critic (mkTensor [batch_size; obs_dim] ds)
      (mkTensor [batch_size; action_dim] da) g = (Ok out, g) /\
    shape out = filter (fun d => d <> 1) [batch_size; 1].
Proof.
  intros Hw.
  set (sa := mkTensor [batch_size; obs_dim + action_dim]
               (concat (zip_with app
                  (rows (obs_dim * numel []) batch_size ds)
                  (rows (action_dim * numel []) batch_size da)))).
  assert (Hcat : cat1 (float (mkTensor [batch_size; obs_dim] ds))
                   (float (mkTensor [batch_size; action_dim] da)) = Ok sa).
  { unfold cat1, float. simpl.
    destruct batch_size; rewrite decide_True by done; reflexivity. }
  destruct (perceptron_shape _ _ _ sa _ _ _ g Hw eq_refl) as (q & E & S).
  exists (squeeze q). split; [|simpl; rewrite S; reflexivity].
  unfold CriticNetwork.forward, bind, lift, ret in *. rewrite Hcat.
  destruct (Linear_call (CriticNetwork._h1 critic) sa); [|discriminate].
  destruct (Linear_call (CriticNetwork._h2 critic) (relu a)); [|discriminate].
  destruct (Linear_call (CriticNetwork._h3 critic) (relu a0)); congruence.
Qed.
Lemma length_rows {A} (k n : nat) (l : list A) : length (rows k n l) = n.
Proof.
  revert l. induction n as [|n IH]; intros l; [reflexivity|].
  cbn [rows length]. now rewrite IH.
Qed.

Lemma numel_app (a b : list nat) : numel (a ++ b) = numel a * numel b.
Proof.
  unfold numel. induction a as [|d a IH]; cbn [app foldr]; [lia|].
  rewrite IH. lia.
Qed.

Lemma numel_squeeze (sh : list nat) :
  numel (filter (fun d => d <> 1) sh) = numel sh.
Proof.
  unfold numel. induction sh as [|d sh IH]; [reflexivity|].
  destruct (decide (d = 1)) as [->|Hd].
  - rewrite filter_cons_False by (intros Hn; now apply Hn).
    cbn [foldr]. lia.
  - rewrite filter_cons_True by exact Hd. cbn [foldr]. now rewrite IH.
Qed.

Lemma length_concat_const {A} (ls : list (list A)) (k : nat) :
  Forall (fun r => length r = k) ls -> length (concat ls) = length ls * k.
Proof.
  induction 1 as [|r ls Hr _ IH]; [reflexivity|].
  cbn [concat length]. rewrite length_app, IH, Hr. lia.
Qed.

(** A layer with well-formed parameters returns a well-formed tensor. *)
Lemma Linear_call_wf (l : Linear (Tensor F)) (x out : Tensor F) :
  Linear_wf l -> Linear_call l x = Ok out -> tensor_wf out.
Proof.
  intros (_ & _ & Hbs & Hb) E. unfold Linear_call in E.
  destruct (last (shape x)) as [d|]; [|discriminate].
  case_decide; [|discriminate]. injection E as <-.
  unfold tensor_wf in *. cbn [data shape].
  rewrite numel_app.
  rewrite (length_concat_const _ (out_features l)).
  - rewrite length_fmap, length_rows. cbn. lia.
  - apply Forall_fmap, Forall_forall. intros r _. cbn.
    unfold affine. rewrite length_zip_with, length_rows, Hb, Hbs. cbn. lia.
Qed.

Lemma actor_forward_wf (actor : ActorNetwork.t (Tensor F))
    (state out : Tensor F) (g g' : Generator) :
  Linear_wf (ActorNetwork._h3 actor) ->
  ActorNetwork.forward actor state g = (Ok out, g') -> tensor_wf out.
Proof.
  intros Hwf E. unfold ActorNetwork.forward, bind, lift, ret in E.
  destruct (squeeze_dim state 1); [|discriminate].
  destruct (Linear_call (ActorNetwork._h1 actor) _); [|discriminate].
  destruct (Linear_call (ActorNetwork._h2 actor) _); [|discriminate].
  destruct (Linear_call (ActorNetwork._h3 actor) _) as [q|] eqn:E3;
    [|discriminate].
  injection E as <- _. eapply Linear_call_wf; eassumption.
Qed.

Lemma critic_forward_wf (critic : CriticNetwork.t (Tensor F))
    (state action out : Tensor F) (g g' : Generator) :
  Linear_wf (CriticNetwork._h3 critic) ->
  CriticNetwork.forward critic state action g = (Ok out, g') -> tensor_wf out.
Proof.
  intros Hwf E. unfold CriticNetwork.forward, bind, lift, ret in E.
  destruct (cat1 _ _); [|discriminate].
  destruct (Linear_call (CriticNetwork._h1 critic) _); [|discriminate].
  destruct (Linear_call (CriticNetwork._h2 critic) _); [|discriminate].
  destruct (Linear_call (CriticNetwork._h3 critic) _) as [q|] eqn:E3;
    [|discriminate].
  injection E as <- _. apply (Linear_call_wf _ _ _ Hwf) in E3.
  unfold tensor_wf in *. cbn [squeeze data shape].
  now rewrite numel_squeeze.
Qed.
End ForwardShapes.

(** C1 (amended).  With layers sized for [obs_dim], [feature_width] and
    [action_dim], the actor maps a batch of shape
    [(batch_size, 1, obs_dim)], and one of shape [(batch_size, obs_dim)]
    when [obs_dim] is not 1, to shape [(batch_size, action_dim)]; the
    critic maps batches of shapes [(batch_size, obs_dim)] and
    [(batch_size, action_dim)] to shape [(batch_size,)] when
    [batch_size] is not 1, and to the empty shape when it is 1.  With a
    well-formed output layer each result holds as many entries as its
    shape says. *)
Theorem forward_output_shapes {F : Type} `{Scalar F}
    (actor : ActorNetwork.t (Tensor F)) (critic : CriticNetwork.t (Tensor F))
    (batch_size obs_dim action_dim feature_width : nat)
    (ds da : list F) (g : Generator) :
  ActorNetwork.widths actor =
    [(obs_dim, feature_width); (feature_width, feature_width);
     (feature_width, action_dim)] ->
  CriticNetwork.widths critic =
    [(obs_dim + action_dim, feature_width); (feature_width, feature_width);
     (feature_width, 1)] ->
  (obs_dim <> 1 ->
   exists out,
     ActorNetwork.forward actor (mkTensor [batch_size; obs_dim] ds) g
       = (Ok out, g) /\
     shape out = [batch_size; action_dim] /\
     (Linear_wf (ActorNetwork._h3 actor) -> tensor_wf out)) /\
  (exists out,
     ActorNetwork.forward actor (mkTensor [batch_size; 1; obs_dim] ds) g
       = (Ok out, g) /\
     shape out = [batch_size; action_dim] /\
     (Linear_wf (ActorNetwork._h3 actor) -> tensor_wf out)) /\
  (exists out,
     CriticNetwork.forward critic (mkTensor [batch_size; obs_dim] ds)
       (mkTensor [batch_size; action_dim] da) g = (Ok out, g) /\
     shape out = (if decide (batch_size = 1) then [] else [batch_size]) /\
     (Linear_wf (CriticNetwork._h3 critic) -> tensor_wf out)).
Proof.
  intros Ha Hc. split; [|split].
  - intros Hobs.
    destruct (actor_forward_shape actor (mkTensor [batch_size; obs_dim] ds)
                (mkTensor [batch_size; obs_dim] ds)
                obs_dim feature_width action_dim g Ha) as (out & E & S);
      [now apply squeeze_dim_keep with (n := obs_dim) | reflexivity |].
    exists out. split; [exact E|]. split; [exact S|].
    intros Hwf. eapply actor_forward_wf; eassumption.
  - destruct (actor_forward_shape actor
                (mkTensor [batch_size; 1; obs_dim] ds)
                (mkTensor [batch_size; obs_dim] ds)
                obs_dim feature_width action_dim g Ha) as (out & E & S);
      [now rewrite squeeze_dim_drop | reflexivity |].
    exists out. split; [exact E|]. split; [exact S|].
    intros Hwf. eapply actor_forward_wf; eassumption.
  - destruct (critic_forward_shape critic batch_size obs_dim feature_width
                action_dim ds da g Hc) as (out & E & S).
    exists out. split; [exact E|]. split.
    + rewrite S. case_decide as Hb.
      * subst. reflexivity.
      * rewrite filter_cons_True by exact Hb.
        now rewrite filter_cons_False by (intros Hn; now apply Hn).
    + intros Hwf. eapply critic_forward_wf; eassumption.
Qed.

(** The theorem at a batch of two, two observation features, two action
    features and width one. *)
Lemma forward_output_shapes_witness :
  (2 <> 1 ->
   exists out,
     ActorNetwork.forward Examples.actor Examples.state Examples.g0
       = (Ok out, Examples.g0) /\ shape out = [2; 2] /\
     (Linear_wf (ActorNetwork._h3 Examples.actor) -> tensor_wf out)) /\
  (exists out,
     ActorNetwork.forward Examples.actor
       (mkTensor [2; 1; 2] [1; 0; 1; 0]%Z) Examples.g0
       = (Ok out, Examples.g0) /\ shape out = [2; 2] /\
     (Linear_wf (ActorNetwork._h3 Examples.actor) -> tensor_wf out)) /\
  (exists out,
     CriticNetwork.forward Examples.critic Examples.state Examples.action
       Examples.g0 = (Ok out, Examples.g0) /\ shape out = [2] /\
     (Linear_wf (CriticNetwork._h3 Examples.critic) -> tensor_wf out)).
Proof.
  apply (forward_output_shapes Examples.actor Examples.critic
           2 2 2 1 [1; 0; 1; 0]%Z [0; 1; 0; 1]%Z Examples.g0);
    reflexivity.
Defined.

(** C1 (as stated) fails in two places: a batch of one leaves the critic
    with the empty shape instead of [(1,)], and a batch of shape
    [(batch_size, 1)], a single observation feature, makes the actor
    raise. *)
Lemma forward_output_shapes_counterexample :
  (exists out,
     CriticNetwork.forward Examples.critic Examples.state1 Examples.action1
       Examples.g0 = (Ok out, Examples.g0) /\
     shape out = [] /\ shape out <> [1]) /\
  ActorNetwork.forward Examples.actor_obs1 (mkTensor [2; 1] [1; 1]%Z)
    Examples.g0 = (Raise RuntimeError, Examples.g0).
Proof.
  split; [|reflexivity].
  eexists. split; [reflexivity|]. split; [reflexivity|discriminate].
Qed.

(** ** Inference reads and writes no random state *)

(** C9.  Both [forward] methods leave the random generator as they found
    it, and their result does not depend on it: with the parameters and
    the input fixed, any two evaluations agree. *)
Theorem forward_deterministic {F : Type} `{Scalar F}
    (actor : ActorNetwork.t (Tensor F)) (critic : CriticNetwork.t (Tensor F))
    (state action : Tensor F) (g1 g2 : Generator) :
  (ActorNetwork.forward actor state g1).1
    = (ActorNetwork.forward actor state g2).1 /\
  (ActorNetwork.forward actor state g1).2 = g1 /\
  (CriticNetwork.forward critic state action g1).1
    = (CriticNetwork.forward critic state action g2).1 /\
  (CriticNetwork.forward critic state action g1).2 = g1.
Proof.
  unfold ActorNetwork.forward, CriticNetwork.forward, bind, lift, ret.
  repeat split;
    repeat match goal with
           | |- context [match ?r with Ok _ => _ | Raise _ => _ end] =>
               destruct r
           end; reflexivity.
Qed.

(** ** The critic and the order of its input features *)

Lemma dot_zero (n : nat) (x : list Z) : dot (replicate n 0%Z) x = 0%Z.
Proof.
  revert x. induction n as [|n IH]; intros [|a x]; try reflexivity.
  unfold dot in *. cbn. now rewrite IH.
Qed.

(** With zero weights and bias the first layer forgets its input: the
    result depends on the input's shape only. *)
Lemma zero_first_layer (x : Tensor Z) :
  Linear_call (Examples.lin 4 1 [0; 0; 0; 0]%Z [0%Z]) x =
    match last (shape x) with
    | Some d =>
        if decide (d = 4)
        then Ok (mkTensor (removelast (shape x) ++ [1])
                   (concat (replicate (numel (removelast (shape x)))
                              [0%Z])))
        else Raise RuntimeError
    | None => Raise RuntimeError
    end.
Proof.
  unfold Linear_call, Examples.lin. cbn [in_features out_features weight bias
    data rows take drop].
  destruct (last (shape x)) as [d|]; [|reflexivity].
  case_decide; [|reflexivity]. do 3 f_equal.
  generalize (data x) as l.
  induction (numel (removelast (shape x))) as [|n IH]; intros l;
    [reflexivity|].
  cbn [rows fmap list_fmap replicate]. f_equal; [|apply IH].
  unfold affine. cbn [zip_with].
  pose proof (dot_zero 4 (take 4 l)) as Hd. cbn [replicate] in Hd.
  now rewrite Hd.
Qed.

Lemma zero_first_layer_shape (x y : Tensor Z) :
  shape x = shape y ->
  Linear_call (Examples.lin 4 1 [0; 0; 0; 0]%Z [0%Z]) x
  = Linear_call (Examples.lin 4 1 [0; 0; 0; 0]%Z [0%Z]) y.
Proof. intros Hs. rewrite !zero_first_layer. now rewrite Hs. Qed.

(** Concatenating in either order succeeds with the same shape or
    raises the same exception. *)
Lemma cat1_swap {F} (a b : Tensor F) :
  (exists x y, cat1 a b = Ok x /\ cat1 b a = Ok y /\ shape x = shape y) \/
  (exists e, cat1 a b = Raise e /\ cat1 b a = Raise e).
Proof.
  unfold cat1.
  destruct a as [sa xa], b as [sb xb]. cbn [shape data].
  destruct sa as [|n [|da ra]], sb as [|m [|db rb]];
    try destruct n as [|n]; try destruct m as [|m];
    repeat match goal with
           | |- context [decide ?P] => destruct (decide P)
           end;
    try (right; eexists; split; reflexivity);
    try (left; eexists _, _; split; [reflexivity|];
         split; [reflexivity|]; cbn [shape];
         try reflexivity;
         repeat match goal with H : _ /\ _ |- _ => destruct H end;
         f_equal; try congruence; f_equal; try congruence; lia);
    exfalso;
    repeat match goal with H : _ /\ _ |- _ => destruct H end;
    match goal with H : ~ _ |- _ => apply H; split; congruence end.
Qed.

(** The critic with zero parameters cannot tell the two concatenation
    orders apart. *)
Lemma critic_zero_swap (state action : Tensor Z) (g : Generator) :
  CriticNetwork.forward Examples.critic_zero action state g
  = CriticNetwork.forward Examples.critic_zero state action g.
Proof.
  unfold CriticNetwork.forward, float.
  destruct (cat1_swap state action)
    as [(x & y & -> & -> & Hs)|(e & -> & ->)]; [|reflexivity].
  rewrite !bind_lift_ok. cbn [Examples.critic_zero CriticNetwork._h1].
  now rewrite (zero_first_layer_shape y x).
Qed.

(** C8 (amended).  For fixed parameters the critic's output depends on
    state and action through their concatenation only, state features
    first.  It is not invariant under reordering features: there are
    parameters and a batch for which exchanging the two features of the
    state alone changes the output, for which exchanging the two features
    of the action alone changes it, and for which feeding the action block
    first changes it. *)
Theorem critic_feature_order :
  (forall (F : Type) (SF : Scalar F) (critic : CriticNetwork.t (Tensor F))
          (state action state' action' : Tensor F) (g : Generator),
     cat1 (float state) (float action) = cat1 (float state') (float action') ->
     CriticNetwork.forward critic state action g
       = CriticNetwork.forward critic state' action' g) /\
  (exists (critic : CriticNetwork.t (Tensor Z)) (state action : Tensor Z)
          (p : list nat) (g : Generator),
     shape state = [2; 2] /\ shape action = [2; 2] /\ p ≡ₚ seq 0 2 /\
     (CriticNetwork.forward critic (permute_features p state) action g).1
       <> (CriticNetwork.forward critic state action g).1 /\
     (CriticNetwork.forward critic state (permute_features p action) g).1
       <> (CriticNetwork.forward critic state action g).1 /\
     (CriticNetwork.forward critic action state g).1
       <> (CriticNetwork.forward critic state action g).1).
Proof.
  split.
  - intros F SF critic state action state' action' g Hcat.
    unfold CriticNetwork.forward. now rewrite Hcat.
  - exists Examples.critic, Examples.state, Examples.action, [1; 0],
      Examples.g0.
    split; [reflexivity|]. split; [reflexivity|].
    split; [apply Permutation_swap|].
    repeat split; vm_compute; discriminate.
Qed.

(** The first part of the theorem on two ways of cutting the same
    concatenated batch into a state and an action. *)
Lemma critic_feature_order_witness :
  CriticNetwork.forward Examples.critic Examples.state Examples.action
    Examples.g0
  = CriticNetwork.forward Examples.critic (mkTensor [2; 1] [1; 1]%Z)
      (mkTensor [2; 3] [0; 0; 1; 0; 0; 1]%Z) Examples.g0.
Proof.
  apply (proj1 critic_feature_order Z Z_scalar Examples.critic).
  reflexivity.
Defined.

(** C8 (as stated) fails in both halves: exchanging the two state
    features changes the output of one critic, and for the critic with
    zero weights no input tells the two concatenation orders apart. *)
Lemma critic_feature_order_counterexample :
  [1; 0] ≡ₚ seq 0 2 /\
  (CriticNetwork.forward Examples.critic
     (permute_features [1; 0] Examples.state) Examples.action Examples.g0).1
    = Ok (mkTensor [2] [0; 0]%Z) /\
  (CriticNetwork.forward Examples.critic Examples.state Examples.action
     Examples.g0).1 = Ok (mkTensor [2] [1; 1]%Z) /\
  (forall (state action : Tensor Z) (g : Generator),
     CriticNetwork.forward Examples.critic_zero action state g
     = CriticNetwork.forward Examples.critic_zero state action g).
Proof.
  split; [apply Permutation_swap|]. split; [reflexivity|].
  split; [reflexivity|]. apply critic_zero_swap.
Qed.

(** ** Initialisation at construction *)

Lemma nn_Linear_run (n_in n_out : nat) (g : Generator) :
  0 < n_in -> 0 < n_out ->
  exists g',
    nn_Linear n_in n_out g =
      (Ok (mkLinear n_in n_out
             (mkParam [n_out; n_in]
                (Uniform (6 / ((1 + 5) * Qnat (n_in * 1)))))
             (mkParam [n_out] (Uniform (1 / Qnat (n_in * 1))))), g').
Proof.
  intros Hin Hout. unfold nn_Linear, kaiming_uniform_. cbn [pshape empty].
  rewrite decide_False by (rewrite !elem_of_cons, elem_of_nil; lia).
  unfold uniform_, bind, lift, modify, ret, _calculate_fan_in_and_fan_out.
  cbn [pshape empty fst snd numel foldr].
  rewrite decide_True by lia. eexists. reflexivity.
Qed.

Lemma xavier_uniform__run (n_in n_out : nat) (l : Law) (gain_sq : Q)
    (g : Generator) :
  0 < n_in ->
  exists g',
    xavier_uniform_ (mkParam [n_out; n_in] l) gain_sq g =
      (Ok (mkParam [n_out; n_in]
             (Uniform (6 * gain_sq / Qnat (n_in * 1 + n_out * 1)))), g').
Proof.
  intros Hin.
  unfold xavier_uniform_, uniform_, bind, lift, modify, ret,
    _calculate_fan_in_and_fan_out.
  cbn [pshape fst snd numel foldr].
  rewrite decide_False by lia. eexists. reflexivity.
Qed.

Lemma bias_bound_nonzero (n : nat) : 0 < n -> ~ (1 / Qnat n == 0)%Q.
Proof.
  intros Hn. unfold Qnat, Qdiv, Qinv, Qmult, Qeq, inject_Z. simpl.
  destruct (Z.of_nat n) eqn:E; simpl; lia.
Qed.

Lemma gain_relu : calculate_gain "relu" = Ok 2%Q.
Proof. reflexivity. Qed.

Lemma gain_linear : calculate_gain "linear" = Ok 1%Q.
Proof. reflexivity. Qed.

(** The squared bounds the constructors leave behind, layer by layer:
    weight first, bias second. *)
Lemma expected_laws_hold (n_input n_features n_output : nat)
    (w1 w2 w3 b1 b2 b3 : Law) :
  0 < n_input -> 0 < n_features ->
  w1 = Uniform (6 * 2 / Qnat (n_input * 1 + n_features * 1)) ->
  w2 = Uniform (6 * 2 / Qnat (n_features * 1 + n_features * 1)) ->
  w3 = Uniform (6 * 1 / Qnat (n_features * 1 + n_output * 1)) ->
  b1 = Uniform (1 / Qnat (n_input * 1)) ->
  b2 = Uniform (1 / Qnat (n_features * 1)) ->
  b3 = Uniform (1 / Qnat (n_features * 1)) ->
  Forall2 laws_are [(w1, b1); (w2, b2); (w3, b3)]
    [((6 * 2 / Qnat (n_input + n_features))%Q, (1 / Qnat n_input)%Q);
     ((6 * 2 / Qnat (n_features + n_features))%Q, (1 / Qnat n_features)%Q);
     ((6 * 1 / Qnat (n_features + n_output))%Q, (1 / Qnat n_features)%Q)] /\
  Forall (fun l => ~ law_is l.2 0) [(w1, b1); (w2, b2); (w3, b3)].
Proof.
  intros Hin Hf -> -> -> -> -> ->. rewrite !Nat.mul_1_r. split.
  - repeat constructor; simpl; reflexivity.
  - repeat constructor; simpl; now apply bias_bound_nonzero.
Qed.

Ltac run_init :=
  repeat first
    [ rewrite gain_relu | rewrite gain_linear
    | match goal with
      | E : ?m ?s = (Ok ?a, ?s') |- context [bind ?m _ ?s] =>
          rewrite (bind_ok m _ s s' a E)
      end
    | progress change (bind (lift (Ok ?a)) ?k ?s) with (k a s); cbv beta ].

(** C2 (amended).  Constructing either network for positive widths
    succeeds and leaves every weight with the Xavier-uniform law: squared
    bound [6 * gain^2 / (fan_in + fan_out)], with the relu gain
    ([gain^2 = 2]) on the two hidden layers and the linear gain
    ([gain^2 = 1]) on the output layer.  The biases are not written by
    the constructors: each keeps the law its linear layer gave it,
    uniform with squared bound [1 / fan_in], which is not zero. *)
Theorem init_laws (input_shape output_shape : list nat)
    (n_input n_features n_output : nat) (g : Generator) :
  last input_shape = Some n_input ->
  output_shape !! 0 = Some n_output ->
  0 < n_input -> 0 < n_features -> 0 < n_output ->
  let expected :=
    [((6 * 2 / Qnat (n_input + n_features))%Q, (1 / Qnat n_input)%Q);
     ((6 * 2 / Qnat (n_features + n_features))%Q, (1 / Qnat n_features)%Q);
     ((6 * 1 / Qnat (n_features + n_output))%Q, (1 / Qnat n_features)%Q)] in
  exists critic actor g1 g2,
    CriticNetwork.__init__ input_shape output_shape n_features g
      = (Ok critic, g1) /\
    ActorNetwork.__init__ input_shape output_shape n_features g
      = (Ok actor, g2) /\
    Forall2 laws_are (CriticNetwork.laws critic) expected /\
    Forall2 laws_are (ActorNetwork.laws actor) expected /\
    Forall (fun l => ~ law_is l.2 0) (CriticNetwork.laws critic) /\
    Forall (fun l => ~ law_is l.2 0) (ActorNetwork.laws actor).
Proof.
  intros Hlast Hhead Hin Hf Hout expected.
  destruct (nn_Linear_run n_input n_features g Hin Hf) as (ga & Ea).
  destruct (nn_Linear_run n_features n_features ga Hf Hf) as (gb & Eb).
  destruct (nn_Linear_run n_features n_output gb Hf Hout) as (gc & Ec).
  destruct (xavier_uniform__run n_input n_features
              (Uniform (6 / ((1 + 5) * Qnat (n_input * 1)))) 2 gc Hin)
    as (gd & Ed).
  destruct (xavier_uniform__run n_features n_features
              (Uniform (6 / ((1 + 5) * Qnat (n_features * 1)))) 2 gd Hf)
    as (ge & Ee).
  destruct (xavier_uniform__run n_features n_output
              (Uniform (6 / ((1 + 5) * Qnat (n_features * 1)))) 1 ge Hf)
    as (gf & Ef).
  eexists _, _, gf, gf.
  unfold CriticNetwork.__init__, ActorNetwork.__init__, getitem_last,
    getitem_0.
  rewrite Hlast, Hhead.
  split; [|split].
  - run_init. cbn [weight]. run_init. reflexivity.
  - run_init. cbn [weight]. run_init. reflexivity.
  - unfold CriticNetwork.laws, ActorNetwork.laws, layer_laws, set_weight.
    cbn [CriticNetwork._h1 CriticNetwork._h2 CriticNetwork._h3
         ActorNetwork._h1 ActorNetwork._h2 ActorNetwork._h3
         weight bias plaw].
    pose proof (expected_laws_hold n_input n_features n_output _ _ _ _ _ _
                  Hin Hf eq_refl eq_refl eq_refl eq_refl eq_refl eq_refl)
      as [Hl Hb].
    repeat split; assumption.
Qed.

(** Construction succeeds for any widths, a positive feature width
    given; the layers have the widths asked for. *)
Lemma nn_Linear_ok (n_in n_out : nat) (g : Generator) :
  exists l g',
    nn_Linear n_in n_out g = (Ok l, g') /\
    in_features l = n_in /\ out_features l = n_out /\
    pshape (weight l) = [n_out; n_in].
Proof.
  unfold nn_Linear, kaiming_uniform_. cbn [pshape empty].
  unfold uniform_, bind, lift, modify, ret, _calculate_fan_in_and_fan_out.
  case_decide; cbn [pshape empty fst snd]; eexists _, _;
    (split; [reflexivity|]); repeat split.
Qed.

Lemma xavier_uniform__ok (p : Param) (n_in n_out : nat) (gain_sq : Q)
    (g : Generator) :
  pshape p = [n_out; n_in] -> 0 < n_in + n_out ->
  exists p' g', xavier_uniform_ p gain_sq g = (Ok p', g').
Proof.
  intros Hp Hpos.
  unfold xavier_uniform_, uniform_, bind, lift, modify, ret,
    _calculate_fan_in_and_fan_out.
  rewrite Hp. cbn [fst snd numel foldr].
  rewrite decide_False by lia. eexists _, _. reflexivity.
Qed.

Ltac init_ok_tac Hlast Hhead Hf :=
  let g := match goal with g : Generator |- _ => g end in
  let n_input := match type of Hlast with _ = Some ?n => n end in
  let n_output := match type of Hhead with _ = Some ?n => n end in
  let n_features := match type of Hf with 0 < ?n => n end in
  destruct (nn_Linear_ok n_input n_features g)
    as (h1 & ga & Ea & Hi1 & Ho1 & Hs1);
  destruct (nn_Linear_ok n_features n_features ga)
    as (h2 & gb & Eb & Hi2 & Ho2 & Hs2);
  destruct (nn_Linear_ok n_features n_output gb)
    as (h3 & gc & Ec & Hi3 & Ho3 & Hs3);
  destruct (xavier_uniform__ok (weight h1) n_input n_features 2 gc Hs1)
    as (w1 & gd & Ed); [lia|];
  destruct (xavier_uniform__ok (weight h2) n_features n_features 2 gd Hs2)
    as (w2 & ge & Ee); [lia|];
  destruct (xavier_uniform__ok (weight h3) n_features n_output 1 ge Hs3)
    as (w3 & gf & Ef); [lia|];
  eexists _, gf;
  rewrite Hlast, Hhead;
  split; [run_init; reflexivity|].

Lemma CriticNetwork_init_ok (input_shape output_shape : list nat)
    (n_input n_features n_output : nat) (g : Generator) :
  last input_shape = Some n_input ->
  output_shape !! 0 = Some n_output ->
  0 < n_features ->
  exists net g',
    CriticNetwork.__init__ input_shape output_shape n_features g
      = (Ok net, g') /\
    CriticNetwork.widths net =
      [(n_input, n_features); (n_features, n_features);
       (n_features, n_output)].
Proof.
  intros Hlast Hhead Hf.
  unfold CriticNetwork.__init__, getitem_last, getitem_0.
  init_ok_tac Hlast Hhead Hf.
  unfold CriticNetwork.widths. simpl. congruence.
Qed.

Lemma ActorNetwork_init_ok (input_shape output_shape : list nat)
    (n_input n_features n_output : nat) (g : Generator) :
  last input_shape = Some n_input ->
  output_shape !! 0 = Some n_output ->
  0 < n_features ->
  exists net g',
    ActorNetwork.__init__ input_shape output_shape n_features g
      = (Ok net, g') /\
    ActorNetwork.widths net =
      [(n_input, n_features); (n_features, n_features);
       (n_features, n_output)].
Proof.
  intros Hlast Hhead Hf.
  unfold ActorNetwork.__init__, getitem_last, getitem_0.
  init_ok_tac Hlast Hhead Hf.
  unfold ActorNetwork.widths. simpl. congruence.
Qed.

(** ** The driver *)

Section DriverProperties.
Context `{FW : Framework}.

Section Silent.
Variable P : Event -> bool.

Lemma silent_ret {A} (a : A) : silent P (ret a).
Proof. intros w. split; [reflexivity|]. exists []. now rewrite app_nil_r. Qed.

Lemma silent_raise {A} (e : Exn) : silent P (raise (A := A) e).
Proof. intros w. split; [reflexivity|]. exists []. now rewrite app_nil_r. Qed.

Lemma silent_lift {A} (r : Result A) : silent P (lift r).
Proof. intros w. split; [reflexivity|]. exists []. now rewrite app_nil_r. Qed.

Lemma silent_get : silent P get.
Proof. intros w. split; [reflexivity|]. exists []. now rewrite app_nil_r. Qed.

Lemma silent_emit (e : Event) : P e = false -> silent P (emit e).
Proof.
  intros He w. split; [reflexivity|]. exists [e]. split; [reflexivity|].
  now constructor.
Qed.

Lemma silent_torch {A} (m : Torch A) : silent P (torch m).
Proof.
  intros w. unfold torch. destruct (m (generator w)) as [r g].
  split; [reflexivity|]. exists []. now rewrite app_nil_r.
Qed.

Lemma silent_bind {A B} (m : Driver A) (k : A -> Driver B) :
  silent P m -> (forall a, silent P (k a)) -> silent P (bind m k).
Proof.
  intros Hm Hk w. unfold bind.
  destruct (Hm w) as (Hf & evs & Ht & Hq).
  destruct (m w) as [[a|e] w1]; simpl in *.
  - destruct (Hk a w1) as (Hf' & evs' & Ht' & Hq'). split; [congruence|].
    exists (evs ++ evs'). split.
    + now rewrite Ht', Ht, app_assoc.
    + now apply Forall_app.
  - split; [assumption|]. now exists evs.
Qed.
End Silent.

(** Decides [silent P m] for a concrete [P] by walking through [m]. *)
Ltac silent_tac :=
  repeat first
    [ apply silent_ret | apply silent_raise | apply silent_lift
    | apply silent_get | apply silent_torch
    | apply silent_emit; reflexivity
    | apply silent_bind; [|intros ?]
    | match goal with
      | |- silent _ (match ?x with _ => _ end) => destruct x
      end
    | progress unfold AirHockey, alg_new, Agent_load, Core_new, Core_evaluate,
        first_action, np_random_seed, Logger, logger_strong_line,
        logger_info, torch_cuda_is_available, input ].

Lemma quiet_experiment_setup alg env_type agent_path :
  quiet (experiment_setup alg env_type agent_path).
Proof. unfold quiet, experiment_setup. silent_tac. Qed.

Section Unseen.
Variable P : Event -> bool.

Lemma silent_unseen {A} (m : Driver A) : silent P m -> unseen P m.
Proof. intros Hm w. destruct (Hm w) as (_ & evs & Ht & Hq). now exists evs. Qed.

Lemma unseen_emit (e : Event) : P e = false -> unseen P (emit e).
Proof. intros He. now apply silent_unseen, silent_emit. Qed.

(** Writing a file adds no event. *)
Lemma unseen_write (f : World -> World) :
  (forall w, trace (f w) = trace w) -> unseen P (modify f).
Proof.
  intros Hf w. exists []. cbn. rewrite Hf, app_nil_r. split; [reflexivity|].
  constructor.
Qed.

Lemma unseen_bind {A B} (m : Driver A) (k : A -> Driver B) :
  unseen P m -> (forall a, unseen P (k a)) -> unseen P (bind m k).
Proof.
  intros Hm Hk w. unfold bind.
  destruct (Hm w) as (evs & Ht & Hq).
  destruct (m w) as [[a|e] w1]; simpl in *.
  - destruct (Hk a w1) as (evs' & Ht' & Hq').
    exists (evs ++ evs'). split.
    + now rewrite Ht', Ht, app_assoc.
    + now apply Forall_app.
  - now exists evs.
Qed.

Lemma unseen_for_range {A} (body : nat -> A -> Driver A) (count : nat) :
  (forall n a, unseen P (body n a)) ->
  forall start a, unseen P (for_range start count body a).
Proof.
  intros Hbody. induction count as [|count IH]; intros start a.
  - apply silent_unseen, silent_ret.
  - cbn [for_range]. apply unseen_bind; [apply Hbody|]. intros a'. apply IH.
Qed.
End Unseen.

(** Decides [unseen P m] for a concrete [P] by walking through [m]. *)
Ltac unseen_tac :=
  repeat first
    [ apply unseen_emit; reflexivity
    | apply unseen_write; intros ?; reflexivity
    | apply unseen_for_range; intros ? ?
    | apply silent_unseen;
      first [ apply silent_ret | apply silent_raise | apply silent_lift
            | apply silent_get | apply silent_torch ]
    | apply unseen_bind; [|intros ?]
    | match goal with
      | |- unseen _ (match ?x with _ => _ end) => destruct x
      end
    | progress unfold Core_evaluate, Core_learn, Agent_save, first_action,
        epoch, logger_info, logger_epoch_info, input ].

(** *** Stepping through the driver *)

Lemma bind_emit {A} (e : Event) (k : unit -> Driver A) (w : World) :
  bind (emit e) k w =
    k tt (mkWorld (trace w ++ [e]) (files w) (cuda w) (generator w)).
Proof. reflexivity. Qed.

Ltac drive :=
  repeat first
    [ rewrite bind_assoc
    | rewrite bind_emit; cbv beta
    | rewrite bind_modify; cbv beta
    | rewrite bind_ret
    | progress cbn [trace files cuda generator fst snd] ].

Lemma last_of_nonempty (sh : list nat) (n : nat) :
  sh !! 0 = Some n -> exists m, last sh = Some m.
Proof.
  intros Hn. destruct sh as [|a sh]; [discriminate|].
  apply last_is_Some. discriminate.
Qed.

Lemma instantiate_actor (n_features : nat) (input_shape : list nat)
    (mdp_info : MDPInfo) (use_cuda : bool) (n_in n_out : nat) (g : Generator) :
  last input_shape = Some n_in ->
  action_space_shape mdp_info !! 0 = Some n_out ->
  0 < n_features ->
  exists net g',
    instantiate (actor_params n_features input_shape mdp_info use_cuda) g
      = (Ok (NActor net), g') /\
    ActorNetwork.widths net =
      [(n_in, n_features); (n_features, n_features); (n_features, n_out)].
Proof.
  intros Hlast Hhead Hf.
  destruct (ActorNetwork_init_ok input_shape (action_space_shape mdp_info)
              n_in n_features n_out g Hlast Hhead Hf) as (net & g' & E & W).
  exists net, g'. split; [|exact W].
  unfold instantiate.
  change (actor_params n_features input_shape mdp_info use_cuda
            !! "network"%string) with (Some (VNetwork ActorNetworkClass)).
  change (actor_params n_features input_shape mdp_info use_cuda
            !! "input_shape"%string) with (Some (VShape input_shape)).
  change (actor_params n_features input_shape mdp_info use_cuda
            !! "output_shape"%string)
    with (Some (VShape (action_space_shape mdp_info))).
  change (actor_params n_features input_shape mdp_info use_cuda
            !! "n_features"%string) with (Some (VNat n_features)).
  cbv iota. now rewrite (bind_ok _ _ _ _ _ E).
Qed.

Lemma instantiate_critic (n_features : nat) (input_shape : list nat)
    (use_cuda : bool) (n_in : nat) (g : Generator) :
  last input_shape = Some n_in ->
  0 < n_features ->
  exists net g',
    instantiate (critic_params n_features input_shape use_cuda) g
      = (Ok (NCritic net), g') /\
    CriticNetwork.widths net =
      [(n_in, n_features); (n_features, n_features); (n_features, 1)].
Proof.
  intros Hlast Hf.
  destruct (CriticNetwork_init_ok input_shape [1] n_in n_features 1 g
              Hlast eq_refl Hf) as (net & g' & E & W).
  exists net, g'. split; [|exact W].
  unfold instantiate.
  change (critic_params n_features input_shape use_cuda
            !! "network"%string) with (Some (VNetwork CriticNetworkClass)).
  change (critic_params n_features input_shape use_cuda
            !! "input_shape"%string) with (Some (VShape input_shape)).
  change (critic_params n_features input_shape use_cuda
            !! "output_shape"%string) with (Some (VShape [1])).
  change (critic_params n_features input_shape use_cuda
            !! "n_features"%string) with (Some (VNat n_features)).
  cbv iota. now rewrite (bind_ok _ _ _ _ _ E).
Qed.

Lemma alg_new_run (alg : Alg) (args : AlgArgs) (w : World)
    (critic mu sigma : Net) (g1 g2 g3 : Generator) :
  instantiate (arg_critic_params args) (generator w) = (Ok critic, g1) ->
  instantiate (arg_actor_mu_params args) g1 = (Ok mu, g2) ->
  instantiate (arg_actor_sigma_params args) g2 = (Ok sigma, g3) ->
  alg_new alg args w =
    (Ok (mkAgent args critic mu sigma (init_weights g3 [critic; mu; sigma])
           (ReplayMemory_new (arg_initial_replay_size args)
              (arg_max_replay_size args))),
     mkWorld (trace w ++ [Ev_alg alg args]) (files w) (cuda w) g3).
Proof.
  intros E1 E2 E3. unfold alg_new. rewrite bind_emit.
  unfold bind, torch, get, ret. cbn [generator trace files cuda].
  rewrite E1. cbn [generator trace files cuda]. rewrite E2.
  cbn [generator trace files cuda]. rewrite E3. reflexivity.
Qed.

(** What lines 70 to 136 do for a recognised environment whose declared
    shapes are not empty. *)
Lemma experiment_setup_spec (alg : Alg) (env_type : string) (kind : EnvKind)
    (agent_path : option string) (n_obs n_act : nat) (w : World) :
  recognised env_type kind ->
  observation_shape kind !! 0 = Some n_obs ->
  action_shape kind !! 0 = Some n_act ->
  let mdp_info :=
    mkMDPInfo (observation_shape kind) (action_shape kind) (99 # 100) 120 in
  let mdp := mkMdp kind mdp_info (sim_reset kind) in
  let args :=
    mkAlgArgs mdp_info
      (actor_params 128 (observation_shape kind) mdp_info (cuda w))
      (actor_params 128 (observation_shape kind) mdp_info (cuda w))
      actor_optimizer
      (critic_params 128 [n_obs + n_act] (cuda w))
      64 5000 200000 10000 (1 # 1000) (3 # 10000) None in
  let pre :=
    [Ev_seed; Ev_Logger (__name__ alg); Ev_strong_line;
     Ev_info ("Experiment Algorithm: " +:+ __name__ alg);
     Ev_mdp kind 4 (99 # 100) 120; Ev_cuda; Ev_alg alg args] in
  exists fresh g',
    agent_args fresh = args /\
    replay_memory fresh = ReplayMemory_new 5000 200000 /\
    (forall n_in, last (observation_shape kind) = Some n_in ->
                  sized_for fresh n_in n_obs n_act 128) /\
    experiment_setup alg env_type agent_path w =
      match agent_path with
      | None =>
          (Ok (mkCore fresh mdp),
           mkWorld (trace w ++ pre ++ [Ev_Core]) (files w) (cuda w) g')
      | Some path =>
          match files w !! path with
          | Some agent =>
              (Ok (mkCore agent mdp),
               mkWorld (trace w ++ pre ++ [Ev_load path; Ev_Core]) (files w)
                 (cuda w) g')
          | None =>
              (Raise ValueError,
               mkWorld (trace w ++ pre ++ [Ev_load path]) (files w) (cuda w)
                 g')
          end
      end.
Proof.
  intros Hrec Hobs Hact mdp_info mdp args pre.
  destruct (last_of_nonempty _ _ Hobs) as (n_in & Hlast).
  destruct (instantiate_critic 128 [n_obs + n_act] (cuda w) (n_obs + n_act)
              (generator w) eq_refl ltac:(lia)) as (critic & g1 & E1 & W1).
  destruct (instantiate_actor 128 (observation_shape kind) mdp_info (cuda w)
              n_in n_act g1 Hlast Hact ltac:(lia)) as (mu & g2 & E2 & W2).
  destruct (instantiate_actor 128 (observation_shape kind) mdp_info (cuda w)
              n_in n_act g2 Hlast Hact ltac:(lia)) as (sigma & g3 & E3 & W3).
  eexists _, g3. split; [|split; [|split]]; cycle 3.
  - unfold experiment_setup, np_random_seed, Logger, logger_strong_line,
      logger_info, torch_cuda_is_available.
    repeat (rewrite bind_emit; cbv beta).
    assert (Hmdp : forall w0 : World,
      (if decide (env_type = "hit"%string)
       then AirHockey AirHockeyHit 4 (99 # 100) 120
       else if decide (env_type = "defend"%string)
            then AirHockey AirHockeyDefend 4 (99 # 100) 120
            else raise NotImplementedError) w0
      = (Ok mdp, mkWorld (trace w0 ++ [Ev_mdp kind 4 (99 # 100) 120])
                   (files w0) (cuda w0) (generator w0))).
    { intros w0. destruct Hrec as [[-> ->]|[-> ->]].
      - rewrite decide_True by reflexivity. reflexivity.
      - rewrite decide_False by discriminate.
        rewrite decide_True by reflexivity. reflexivity. }
    rewrite (bind_ok _ _ _ _ _ (Hmdp _)).
    rewrite bind_assoc, bind_emit. cbv beta.
    unfold get at 1. rewrite bind_assoc. unfold bind at 1. cbv beta iota.
    rewrite bind_ret.
    cbn [info observation_space_shape action_space_shape cuda mdp mdp_info].
    unfold getitem_0. rewrite Hobs, Hact. rewrite !bind_lift_ok.
    erewrite bind_ok; cycle 1.
    { eapply alg_new_run; cbn [arg_critic_params arg_actor_mu_params
        arg_actor_sigma_params generator]; eassumption. }
    cbn [arg_initial_replay_size arg_max_replay_size].
    destruct agent_path as [path|].
    + unfold Agent_load. rewrite bind_assoc, bind_emit. cbv beta.
      unfold get at 1. rewrite bind_assoc. unfold bind at 1. cbv beta iota.
      cbn [files]. destruct (files w !! path) as [agent|].
      * rewrite bind_ret. unfold Core_new. rewrite bind_emit.
        unfold ret. cbn [trace files cuda generator].
        rewrite <- ?app_assoc. reflexivity.
      * unfold bind, raise. cbn [trace files cuda generator].
        rewrite <- ?app_assoc. reflexivity.
    + rewrite bind_ret. unfold Core_new. rewrite bind_emit.
      unfold ret. cbn [trace files cuda generator].
      rewrite <- ?app_assoc. reflexivity.
  - reflexivity.
  - reflexivity.
  - intros n_in' Hn. assert (n_in' = n_in) as -> by congruence.
    exists critic, mu, sigma. repeat split; assumption.
Qed.

(** *** The trainer and the replay buffer *)

(** A batch of one observation reaches the first layer with the last
    declared dimension as its last. *)
Lemma squeeze_batch_of_one {F} (sh : list nat) (n_in : nat) (x : list F) :
  last sh = Some n_in ->
  exists s,
    squeeze_dim (mkTensor (1 :: sh) x) 1 = Ok s /\
    last (shape s) = Some n_in.
Proof.
  intros Hlast. destruct sh as [|a rest]; [discriminate|].
  destruct (decide (a = 1)) as [->|Ha].
  - exists (mkTensor (1 :: rest) x). split; [|exact Hlast].
    now rewrite squeeze_dim_drop.
  - exists (mkTensor (1 :: a :: rest) x). split; [|exact Hlast].
    now apply squeeze_dim_keep with (n := a).
Qed.

(** An agent whose networks are sized for the environment accepts its
    observations. *)
Lemma sized_for_ready (agent : Agent) (mdp : Mdp)
    (n_in n_obs n_act n_features : nat) :
  sized_for agent n_in n_obs n_act n_features ->
  last (observation_space_shape (info mdp)) = Some n_in ->
  ready (mkCore agent mdp).
Proof.
  intros (critic & mu & sigma & _ & Hmu & Hsigma & _ & Wmu & Wsigma) Hlast g.
  unfold draw_action, policy_forward. cbn [core_agent core_mdp].
  rewrite Hmu, Hsigma. unfold of_shape.
  destruct (squeeze_batch_of_one (observation_space_shape (info mdp)) n_in
              (replicate (numel (1 :: observation_space_shape (info mdp))) tt)
              Hlast) as (s & Es & Hs).
  destruct (actor_forward_shape (ActorNetwork_of_shape mu) _ s n_in n_features
              n_act g Wmu Es Hs) as (o1 & E1 & _).
  destruct (actor_forward_shape (ActorNetwork_of_shape sigma) _ s n_in
              n_features n_act g Wsigma Es Hs) as (o2 & E2 & _).
  rewrite bind_assoc, (bind_ok _ _ _ _ _ E1), bind_ret.
  rewrite (bind_ok _ _ _ _ _ E2). reflexivity.
Qed.

Lemma sized_for_ext (agent agent' : Agent) (n_in n_obs n_act n_features : nat) :
  approximators agent' = approximators agent ->
  sized_for agent n_in n_obs n_act n_features ->
  sized_for agent' n_in n_obs n_act n_features.
Proof.
  unfold approximators, sized_for. intros [= -> -> ->] Hs. exact Hs.
Qed.

Lemma ready_ext (core core' : Core) :
  approximators (core_agent core') = approximators (core_agent core) ->
  info (core_mdp core') = info (core_mdp core) ->
  ready core -> ready core'.
Proof.
  unfold ready, draw_action, approximators. intros [= _ -> ->] -> Hr g.
  apply Hr.
Qed.

Lemma first_action_ready (core : Core) (b : Budget) (w : World) :
  ready core -> first_action core b w = (Ok tt, w).
Proof.
  intros Hr. unfold first_action, torch.
  destruct (has_step b); [|reflexivity]. rewrite Hr. now destruct w.
Qed.

Lemma evaluate_steps_agent (n : N) (r : Run) :
  core_agent (run_core (N.iter n evaluate_step r)) = core_agent (run_core r) /\
  info (core_mdp (run_core (N.iter n evaluate_step r)))
    = info (core_mdp (run_core r)) /\
  length (run_dataset (N.iter n evaluate_step r))
    = length (run_dataset r) + N.to_nat n.
Proof.
  induction n as [|n IH] using N.peano_ind; [cbn; repeat split; lia|].
  rewrite N.iter_succ. destruct IH as (Ha & Hi & Hl).
  set (r' := N.iter n evaluate_step r) in *. unfold evaluate_step.
  destruct (step _ _) as [sample s'].
  cbn [run_core run_dataset core_agent core_mdp info with_sim].
  rewrite length_app, Hl. cbn [length]. repeat split; [assumption..|lia].
Qed.

(** An evaluation by an agent that accepts the observations returns, and
    leaves the agent as it is; a budget of steps gives a dataset of that
    many transitions. *)
Lemma Core_evaluate_run (core : Core) (b : Budget) (render quiet_flag : bool)
    (w : World) :
  ready core ->
  exists dataset core',
    Core_evaluate core b render quiet_flag w =
      (Ok (dataset, core'),
       mkWorld (trace w ++ [Ev_evaluate b render quiet_flag]) (files w)
         (cuda w) (generator w)) /\
    core_agent core' = core_agent core /\
    info (core_mdp core') = info (core_mdp core) /\
    (forall n, b = Steps n -> length dataset = N.to_nat n).
Proof.
  intros Hr. unfold Core_evaluate. rewrite bind_emit. cbv beta.
  rewrite (bind_ok _ _ _ _ _ (first_action_ready core b _ Hr)).
  destruct b as [n|n].
  - destruct (evaluate_steps_agent n (mkRun core [] 0)) as (Ha & Hi & Hl).
    eexists _, _. split; [reflexivity|].
    split; [exact Ha|]. split; [exact Hi|]. intros m [= <-]. exact Hl.
  - destruct (episodes _ _ _) as [dataset s'].
    eexists _, _. split; [reflexivity|]. split; [reflexivity|].
    split; [reflexivity|]. discriminate.
Qed.

(** Without a step nothing is asked of the agent, and nothing is
    collected. *)
Lemma Core_evaluate_none (core : Core) (render quiet_flag : bool) (w : World) :
  Core_evaluate core (Steps 0) render quiet_flag w =
    (Ok ([], core),
     mkWorld (trace w ++ [Ev_evaluate (Steps 0) render quiet_flag]) (files w)
       (cuda w) (generator w)).
Proof. reflexivity. Qed.

Lemma bind_torch_ok {A B} (m : Torch A) (k : A -> Driver B) (w : World)
    (a : A) :
  m (generator w) = (Ok a, generator w) -> bind (torch m) k w = k a w.
Proof. intros E. unfold bind, torch. rewrite E. now destruct w. Qed.

Lemma iterate_succ {St A} (n : N) (body : A -> M St A) (a : A) (s : St) :
  iterate (N.succ n) body a s = bind (iterate n body a) body s.
Proof. unfold iterate. now rewrite N.iter_succ. Qed.

(** Networks sized for an environment with one-entry shapes and more
    than one observation feature accept the batches of an update. *)
Lemma sized_for_fit_ready (agent : Agent) (n_obs n_act n_features : nat) :
  sized_for agent n_obs n_obs n_act n_features ->
  observation_space_shape (arg_mdp_info (agent_args agent)) = [n_obs] ->
  action_space_shape (arg_mdp_info (agent_args agent)) = [n_act] ->
  n_obs <> 1 ->
  fit_ready agent.
Proof.
  intros (critic & mu & sigma & Hc & Hmu & Hsigma & Wc & Wmu & Wsigma)
    Hobs Hact Hne g.
  unfold fit_forward, policy_forward, critic_forward, of_shape.
  rewrite Hc, Hmu, Hsigma, Hobs, Hact.
  set (b := N.to_nat (arg_batch_size (agent_args agent))).
  set (state := mkTensor [b; n_obs] (replicate (numel [b; n_obs]) tt)).
  assert (Hsq : squeeze_dim state 1 = Ok state)
    by now apply squeeze_dim_keep with (n := n_obs).
  destruct (actor_forward_shape (ActorNetwork_of_shape mu) state state n_obs
              n_features n_act g Wmu Hsq eq_refl) as (o1 & E1 & _).
  destruct (actor_forward_shape (ActorNetwork_of_shape sigma) state state
              n_obs n_features n_act g Wsigma Hsq eq_refl) as (o2 & E2 & _).
  destruct (critic_forward_shape (CriticNetwork_of_shape critic) b n_obs
              n_features n_act (replicate (numel [b; n_obs]) tt)
              (replicate (numel [b; n_act]) tt) g Wc) as (o3 & E3 & _).
  fold state in E3.
  rewrite bind_assoc, (bind_ok _ _ _ _ _ E1), bind_ret.
  rewrite bind_assoc, (bind_ok _ _ _ _ _ E2), bind_ret.
  rewrite (bind_ok _ _ _ _ _ E3). reflexivity.
Qed.

Lemma fit_ready_ext (agent agent' : Agent) :
  approximators agent' = approximators agent ->
  agent_args agent' = agent_args agent ->
  fit_ready agent -> fit_ready agent'.
Proof.
  unfold fit_ready, fit_forward, approximators. intros [= -> -> ->] -> Hr g.
  apply Hr.
Qed.

(** A fit that leaves the buffer at or below its threshold runs no
    network and updates nothing. *)
Lemma SAC_fit_collects (agent : Agent) (dataset : list Sample)
    (g : Generator) :
  ReplayMemory_initialized (ReplayMemory_add (replay_memory agent) dataset)
    = false ->
  exists agent',
    SAC_fit agent dataset g = (Ok agent', g) /\
    weights agent' = weights agent /\
    replay_memory agent' = ReplayMemory_add (replay_memory agent) dataset /\
    approximators agent' = approximators agent /\
    agent_args agent' = agent_args agent.
Proof.
  intros Hn. unfold SAC_fit. rewrite Hn. eexists. split; [reflexivity|].
  now repeat split.
Qed.

(** A fit of networks that accept the batches returns, with the same
    networks. *)
Lemma SAC_fit_updates (agent : Agent) (dataset : list Sample)
    (g : Generator) :
  fit_ready agent ->
  exists agent',
    SAC_fit agent dataset g = (Ok agent', g) /\
    approximators agent' = approximators agent /\
    agent_args agent' = agent_args agent.
Proof.
  intros Hr. unfold SAC_fit. destruct (ReplayMemory_initialized _).
  - rewrite (bind_ok _ _ _ _ _ (Hr g)). eexists. split; [reflexivity|].
    now split.
  - eexists. split; [reflexivity|]. now split.
Qed.

(** Learning with networks that accept the batches returns, and changes
    neither the agent's networks and arguments nor the declared
    shapes. *)
Lemma learn_steps_run (n_steps_per_fit n : N) (r : Run) (g : Generator) :
  fit_ready (core_agent (run_core r)) ->
  exists r',
    iterate n (learn_step n_steps_per_fit) r g = (Ok r', g) /\
    approximators (core_agent (run_core r'))
      = approximators (core_agent (run_core r)) /\
    agent_args (core_agent (run_core r')) = agent_args (core_agent (run_core r)) /\
    info (core_mdp (run_core r')) = info (core_mdp (run_core r)).
Proof.
  intros Hr. induction n as [|n IH] using N.peano_ind.
  - exists r. now repeat split.
  - destruct IH as (r1 & E1 & Ha1 & Hg1 & Hi1).
    rewrite iterate_succ, (bind_ok _ _ _ _ _ E1).
    unfold learn_step. destruct (step _ _) as [sample s'].
    destruct (n_steps_per_fit <=? run_counter r1 + 1)%N.
    + destruct (SAC_fit_updates (core_agent (run_core r1))
                  (run_dataset r1 ++ [sample]) g)
        as (agent' & E & Ha & Hg); [eapply fit_ready_ext; eassumption|].
      rewrite (bind_ok _ _ _ _ _ E). eexists. split; [reflexivity|].
      cbn [run_core core_agent core_mdp info with_sim].
      repeat split; congruence.
    + eexists. split; [reflexivity|].
      cbn [run_core core_agent core_mdp info with_sim].
      repeat split; assumption.
Qed.

Lemma Core_learn_run (core : Core) (n_steps n_steps_per_fit : N)
    (quiet_flag : bool) (w : World) :
  ready core -> fit_ready (core_agent core) ->
  exists core',
    Core_learn core n_steps n_steps_per_fit quiet_flag w =
      (Ok core',
       mkWorld (trace w ++ [Ev_learn n_steps n_steps_per_fit quiet_flag])
         (files w) (cuda w) (generator w)) /\
    approximators (core_agent core') = approximators (core_agent core) /\
    agent_args (core_agent core') = agent_args (core_agent core) /\
    info (core_mdp core') = info (core_mdp core).
Proof.
  intros Hr Hf. unfold Core_learn. rewrite bind_emit. cbv beta.
  rewrite (bind_ok _ _ _ _ _ (first_action_ready core _ _ Hr)).
  destruct (learn_steps_run n_steps_per_fit n_steps (mkRun core [] 0)
              (generator w) Hf) as (r' & E & Ha & Hg & Hi).
  rewrite (bind_torch_ok _ _ _ r') by exact E.
  exists (run_core r'). split; [reflexivity|]. now repeat split.
Qed.

Lemma ReplayMemory_add_below (dataset : list Sample) (rm : ReplayMemory) :
  (idx rm + N.of_nat (length dataset) < max_size rm)%N ->
  idx (ReplayMemory_add rm dataset) = (idx rm + N.of_nat (length dataset))%N /\
  full (ReplayMemory_add rm dataset) = full rm /\
  initial_size (ReplayMemory_add rm dataset) = initial_size rm /\
  max_size (ReplayMemory_add rm dataset) = max_size rm.
Proof.
  unfold ReplayMemory_add. revert rm.
  induction dataset as [|s dataset IH]; intros rm Hlt.
  - simpl. rewrite N.add_0_r. now repeat split.
  - cbn [foldl length] in *.
    assert (Hne : (idx rm + 1 =? max_size rm)%N = false)
      by (apply N.eqb_neq; lia).
    destruct (IH (ReplayMemory_add1 rm s)) as (Hi & Hfl & Hin & Hm);
      unfold ReplayMemory_add1 in *; rewrite Hne in *; cbn [idx max_size] in *.
    + lia.
    + rewrite Hi, Hfl, Hin, Hm. cbn. repeat split. lia.
Qed.

(** Below the fit period the trainer only collects. *)
Lemma learn_steps_below (n_steps_per_fit k : N) (r : Run) (g : Generator) :
  (run_counter r + k < n_steps_per_fit)%N ->
  exists r',
    iterate k (learn_step n_steps_per_fit) r g = (Ok r', g) /\
    core_agent (run_core r') = core_agent (run_core r) /\
    info (core_mdp (run_core r')) = info (core_mdp (run_core r)) /\
    run_counter r' = (run_counter r + k)%N /\
    length (run_dataset r') = length (run_dataset r) + N.to_nat k.
Proof.
  induction k as [|k IH] using N.peano_ind; intros Hlt.
  - exists r. cbn. rewrite N.add_0_r. repeat split; lia.
  - destruct IH as (r1 & E1 & Ha & Hi & Hc & Hl); [lia|].
    rewrite iterate_succ, (bind_ok _ _ _ _ _ E1).
    unfold learn_step. destruct (step _ _) as [sample s'].
    rewrite Hc.
    assert (Hle : (n_steps_per_fit <=? run_counter r + k + 1)%N = false)
      by (apply N.leb_gt; lia).
    rewrite Hle. eexists. split; [reflexivity|].
    cbn [run_core run_counter run_dataset core_agent core_mdp info with_sim].
    rewrite length_app, Hl. cbn [length].
    repeat split; [assumption | assumption | lia | lia].
Qed.

(** A learn call of [n] steps with one fit at its end hands the agent a
    dataset of [n] transitions. *)
Lemma learn_one_fit_succ (k : N) (core : Core) (g : Generator) :
  exists dataset mdp',
    length dataset = N.to_nat (N.succ k) /\
    info mdp' = info (core_mdp core) /\
    iterate (N.succ k) (learn_step (N.succ k)) (mkRun core [] 0) g =
      (do agent <- SAC_fit (core_agent core) dataset;
       ret (mkRun (mkCore agent mdp') [] 0)) g.
Proof.
  destruct (learn_steps_below (N.succ k) k (mkRun core [] 0) g)
    as (r1 & E1 & Ha & Hi & Hc & Hl); [cbn; lia|].
  cbn [run_core run_counter run_dataset length] in Ha, Hi, Hc, Hl.
  rewrite iterate_succ, (bind_ok _ _ _ _ _ E1).
  unfold learn_step. destruct (step _ _) as [sample s'].
  rewrite Hc.
  assert (Hle : (N.succ k <=? 0 + k + 1)%N = true) by (apply N.leb_le; lia).
  rewrite Hle, Ha.
  exists (run_dataset r1 ++ [sample]), (with_sim (core_mdp (run_core r1)) s').
  split; [rewrite length_app, Hl; cbn [length]; lia|].
  split; [exact Hi|]. reflexivity.
Qed.

Lemma learn_one_fit (n : N) (core : Core) (g : Generator) :
  (0 < n)%N ->
  exists dataset mdp',
    length dataset = N.to_nat n /\
    info mdp' = info (core_mdp core) /\
    iterate n (learn_step n) (mkRun core [] 0) g =
      (do agent <- SAC_fit (core_agent core) dataset;
       ret (mkRun (mkCore agent mdp') [] 0)) g.
Proof.
  intros Hn. rewrite <- (N.succ_pred_pos n Hn). apply learn_one_fit_succ.
Qed.

(** Fitting an agent whose buffer is empty on a dataset no longer than
    the buffer's minimum stores the dataset, runs no network and updates
    nothing. *)
Lemma SAC_fit_below_minimum (agent : Agent) (dataset : list Sample)
    (initial maximum : N) (g : Generator) :
  replay_memory agent = ReplayMemory_new initial maximum ->
  (N.of_nat (length dataset) <= initial)%N ->
  (N.of_nat (length dataset) < maximum)%N ->
  exists agent',
    SAC_fit agent dataset g = (Ok agent', g) /\
    weights agent' = weights agent /\
    ReplayMemory_size (replay_memory agent') = N.of_nat (length dataset) /\
    approximators agent' = approximators agent /\
    agent_args agent' = agent_args agent.
Proof.
  intros Hrm Hle Hlt.
  destruct (ReplayMemory_add_below dataset (ReplayMemory_new initial maximum))
    as (Hi & Hf & Hin & Hm); [cbn; lia|].
  cbn [idx full initial_size max_size ReplayMemory_new] in Hi, Hf, Hin, Hm.
  assert (Hno : ReplayMemory_initialized
                  (ReplayMemory_add (replay_memory agent) dataset) = false).
  { rewrite Hrm. unfold ReplayMemory_initialized, ReplayMemory_size.
    rewrite Hf, Hi, Hin. apply N.ltb_ge. lia. }
  destruct (SAC_fit_collects agent dataset g Hno)
    as (agent' & E & Hw & Hr & Ha & Hg).
  exists agent'. split; [exact E|]. split; [exact Hw|].
  split; [|now split].
  rewrite Hr, Hrm. unfold ReplayMemory_size. rewrite Hf, Hi. lia.
Qed.

(** The warm-up of a trainer whose agent has an empty buffer with the
    driver's sizes: 5000 transitions are stored, nothing is updated. *)
Lemma warmup_run (core : Core) (w : World) :
  ready core ->
  replay_memory (core_agent core) = ReplayMemory_new 5000 200000 ->
  exists core1,
    Core_learn core 5000 5000 true w =
      (Ok core1,
       mkWorld (trace w ++ [Ev_learn 5000 5000 true]) (files w) (cuda w)
         (generator w)) /\
    weights (core_agent core1) = weights (core_agent core) /\
    ReplayMemory_size (replay_memory (core_agent core1)) = 5000%N /\
    approximators (core_agent core1) = approximators (core_agent core) /\
    agent_args (core_agent core1) = agent_args (core_agent core) /\
    info (core_mdp core1) = info (core_mdp core).
Proof.
  intros Hr Hrm. unfold Core_learn. rewrite bind_emit. cbv beta.
  rewrite (bind_ok _ _ _ _ _ (first_action_ready core _ _ Hr)).
  destruct (learn_one_fit 5000 core (generator w) ltac:(lia))
    as (dataset & mdp' & Hlen & Hi & E).
  destruct (SAC_fit_below_minimum (core_agent core) dataset 5000 200000
              (generator w) Hrm)
    as (agent' & Efit & Hw & Hsize & Ha & Hg);
    [rewrite Hlen; lia | rewrite Hlen; lia |].
  rewrite (bind_ok _ _ _ _ _ Efit) in E.
  rewrite (bind_torch_ok _ _ _ (mkRun (mkCore agent' mdp') [] 0))
    by exact E.
  exists (mkCore agent' mdp'). split; [reflexivity|].
  cbn [core_agent core_mdp]. rewrite Hsize, Hlen.
  repeat split; assumption.
Qed.

(** *** The training run *)

(** A dataset of a positive number of transitions is parsed. *)
Lemma parse_dataset_ok (dataset : list Sample) (n : N) :
  length dataset = N.to_nat n -> (0 < n)%N ->
  parse_dataset dataset = Ok (states dataset).
Proof.
  intros Hl Hn. destruct dataset as [|x dataset]; [cbn in Hl; lia|].
  reflexivity.
Qed.

Lemma epoch_run (n_steps n_steps_test : N) (n : nat) (core : Core)
    (w : World) :
  ready core -> fit_ready (core_agent core) -> (0 < n_steps_test)%N ->
  exists core' J R E,
    epoch n_steps n_steps_test n core w =
      (Ok core',
       mkWorld (trace w ++ [Ev_learn n_steps 1 true;
                            Ev_evaluate (Steps n_steps_test) false true;
                            Ev_epoch_info (n + 1) J R E])
         (files w) (cuda w) (generator w)) /\
    approximators (core_agent core') = approximators (core_agent core) /\
    agent_args (core_agent core') = agent_args (core_agent core) /\
    info (core_mdp core') = info (core_mdp core).
Proof.
  intros Hr Hf Hpos. unfold epoch.
  destruct (Core_learn_run core n_steps 1 true w Hr Hf)
    as (core1 & E1 & Ha1 & Hg1 & Hi1).
  rewrite (bind_ok _ _ _ _ _ E1).
  assert (Hr1 : ready core1) by (eapply ready_ext; eassumption).
  match goal with |- context [bind (Core_evaluate core1 ?b ?r ?q) _ ?w1] =>
    destruct (Core_evaluate_run core1 b r q w1 Hr1)
      as (dataset & core' & E & Ha & Hi & Hl)
  end.
  rewrite (bind_ok _ _ _ _ _ E). cbv beta zeta. cbn [fst snd].
  rewrite (parse_dataset_ok dataset n_steps_test (Hl _ eq_refl) Hpos).
  rewrite bind_lift_ok. unfold logger_epoch_info.
  rewrite bind_emit. unfold ret. cbn [trace files cuda generator].
  rewrite <- ?app_assoc. eexists _, _, _, _. split; [reflexivity|].
  repeat split; congruence.
Qed.

Lemma epochs_run (n_steps n_steps_test : N) (count : nat) :
  (0 < n_steps_test)%N ->
  forall (start : nat) (core : Core) (w : World),
  ready core ->
  count = 0 \/ fit_ready (core_agent core) ->
  exists core' evs,
    for_range start count (epoch n_steps n_steps_test) core w =
      (Ok core',
       mkWorld (trace w ++ evs) (files w) (cuda w) (generator w)) /\
    learns_and_saves evs = replicate count (Ev_learn n_steps 1 true) /\
    omap epoch_index evs = seq (start + 1) count /\
    List.filter is_evaluate evs =
      replicate count (Ev_evaluate (Steps n_steps_test) false true) /\
    Forall (fun e => loop_event e = true) evs /\
    approximators (core_agent core') = approximators (core_agent core) /\
    info (core_mdp core') = info (core_mdp core) /\
    (count = 0 -> core' = core /\ evs = []).
Proof.
  intros Hpos. induction count as [|count IH]; intros start core w Hr Hf.
  - exists core, []. cbn. rewrite app_nil_r. destruct w. now repeat split.
  - destruct Hf as [Hf|Hf]; [discriminate|]. cbn [for_range].
    destruct (epoch_run n_steps n_steps_test start core w Hr Hf Hpos)
      as (core1 & J & R & E & E1 & Ha1 & Hg1 & Hi1).
    rewrite (bind_ok _ _ _ _ _ E1).
    assert (Hr1 : ready core1) by (eapply ready_ext; eassumption).
    assert (Hf1 : fit_ready (core_agent core1))
      by (eapply fit_ready_ext; eassumption).
    destruct (IH (S start) core1
                (mkWorld (trace w ++ [Ev_learn n_steps 1 true;
                            Ev_evaluate (Steps n_steps_test) false true;
                            Ev_epoch_info (start + 1) J R E])
                   (files w) (cuda w) (generator w)) Hr1 (or_intror Hf1))
      as (core' & evs & E2 & Hl & Hx & He & Hall & Ha & Hi & _).
    rewrite E2. cbn [trace files cuda generator].
    eexists core', (_ ++ evs). rewrite app_assoc. split; [reflexivity|].
    repeat split; try discriminate.
    + unfold learns_and_saves in *. rewrite List.filter_app, Hl. reflexivity.
    + cbn. now rewrite Hx.
    + rewrite List.filter_app, He. reflexivity.
    + apply Forall_app. split; [|exact Hall]. repeat constructor.
    + congruence.
    + congruence.
Qed.

(** What lines 143 to 172 do for a fresh agent that accepts the
    observations, when the evaluations have steps to make and the
    networks accept the batches of the updates, if there are epochs. *)
Lemma experiment_run_spec (core : Core) (env_type : string) (n_epochs : nat)
    (n_steps n_steps_test : N) (w : World) :
  ready core ->
  replay_memory (core_agent core) = ReplayMemory_new 5000 200000 ->
  (0 < n_steps_test)%N ->
  n_epochs = 0 \/ fit_ready (core_agent core) ->
  exists core2 J R E loop,
    approximators (core_agent core2) = approximators (core_agent core) /\
    (n_epochs = 0 ->
     loop = [] /\
     weights (core_agent core2) = weights (core_agent core) /\
     ReplayMemory_size (replay_memory (core_agent core2)) = 5000%N) /\
    learns_and_saves loop = replicate n_epochs (Ev_learn n_steps 1 true) /\
    omap epoch_index loop = seq 1 n_epochs /\
    List.filter is_evaluate loop =
      replicate n_epochs (Ev_evaluate (Steps n_steps_test) false true) /\
    Forall (fun e => loop_event e = true) loop /\
    experiment_run core env_type n_epochs n_steps n_steps_test w =
      (Ok tt,
       mkWorld
         (trace w ++
            [Ev_evaluate (Steps n_steps_test) true false;
             Ev_epoch_info 0 J R E;
             Ev_save (checkpoint_initial env_type) true;
             Ev_learn 5000 5000 true] ++ loop ++
            [Ev_save (checkpoint_final env_type) true;
             Ev_info "Press a button to visualize"; Ev_input;
             Ev_evaluate (Episodes 5) true false])
         (<[checkpoint_final env_type := core_agent core2]>
            (<[checkpoint_initial env_type := core_agent core]> (files w)))
         (cuda w) (generator w)).
Proof.
  intros Hr Hrm Hpos Hf. unfold experiment_run.
  destruct (Core_evaluate_run core (Steps n_steps_test) true false w Hr)
    as (dataset & core0 & E0 & Ha0 & Hi0 & Hl0).
  rewrite (bind_ok _ _ _ _ _ E0). cbv beta zeta. cbn [fst snd].
  rewrite (parse_dataset_ok dataset n_steps_test (Hl0 _ eq_refl) Hpos).
  rewrite bind_lift_ok.
  assert (Hr0 : ready core0)
    by (eapply ready_ext; [unfold approximators; now rewrite Ha0 | | ];
        eassumption).
  unfold logger_epoch_info, Agent_save at 1. drive.
  match goal with |- context [bind (Core_learn core0 _ _ _) _ ?w1] =>
    destruct (warmup_run core0 w1 Hr0)
      as (core1 & E1 & Hw1 & Hs1 & Ha1 & Hg1 & Hi1); [now rewrite Ha0|]
  end.
  rewrite (bind_ok _ _ _ _ _ E1).
  assert (Hr1 : ready core1) by (eapply ready_ext; eassumption).
  assert (Hf1 : n_epochs = 0 \/ fit_ready (core_agent core1)).
  { destruct Hf as [Hf|Hf]; [now left|right].
    eapply fit_ready_ext; [exact Ha1 | exact Hg1 |]. now rewrite Ha0. }
  cbn [trace files cuda generator].
  match goal with |- context [bind (for_range 0 n_epochs _ core1) _ ?w1] =>
    destruct (epochs_run n_steps n_steps_test n_epochs Hpos 0 core1 w1 Hr1
                Hf1)
      as (core2 & loop & E2 & Hloop & Hx & He & Hall & Ha2 & Hi2 & Hzero)
  end.
  rewrite (bind_ok _ _ _ _ _ E2).
  assert (Hr2 : ready core2) by (eapply ready_ext; eassumption).
  unfold Agent_save, logger_info, input. drive.
  match goal with |- context [bind (Core_evaluate core2 ?b ?r ?q) _ ?w3] =>
    destruct (Core_evaluate_run core2 b r q w3 Hr2) as (ds & core3 & E3 & _)
  end.
  rewrite (bind_ok _ _ _ _ _ E3). unfold ret.
  cbn [trace files cuda generator].
  exists core2. eexists _, _, _, loop.
  split; [rewrite Ha2, Ha1; unfold approximators; now rewrite Ha0|].
  split.
  { intros Hn. destruct (Hzero Hn) as [-> ->]. split; [reflexivity|].
    rewrite Hw1, Hs1, Ha0. now split. }
  split; [exact Hloop|]. split; [exact Hx|].
  split; [exact He|]. split; [exact Hall|].
  rewrite Ha0, <- ?app_assoc. reflexivity.
Qed.

(** With no step to make, the baseline evaluation hands an empty dataset
    to [parse_dataset], and lines 143 to 172 end there. *)
Lemma experiment_run_empty (core : Core) (env_type : string) (n_epochs : nat)
    (n_steps : N) (w : World) :
  experiment_run core env_type n_epochs n_steps 0 w =
    (Raise AssertionError,
     mkWorld (trace w ++ [Ev_evaluate (Steps 0) true false]) (files w)
       (cuda w) (generator w)).
Proof.
  unfold experiment_run.
  now rewrite (bind_ok _ _ _ _ _ (Core_evaluate_none core true false w)).
Qed.

(** With a checkpoint path the driver never trains. *)
Lemma quiet_experiment_with_path alg env_type n_epochs n_steps n_steps_test
    path :
  quiet (experiment alg env_type n_epochs n_steps n_steps_test (Some path)).
Proof.
  unfold quiet, experiment. apply silent_bind; [apply quiet_experiment_setup|].
  intros core. silent_tac.
Qed.

(** *** The driver from end to end *)

Lemma select_env (env_type : string) (kind : EnvKind) (w : World) :
  recognised env_type kind ->
  (if decide (env_type = "hit"%string)
   then AirHockey AirHockeyHit 4 (99 # 100) 120
   else if decide (env_type = "defend"%string)
        then AirHockey AirHockeyDefend 4 (99 # 100) 120
        else raise NotImplementedError) w
  = (Ok (mkMdp kind
           (mkMDPInfo (observation_shape kind) (action_shape kind)
              (99 # 100) 120) (sim_reset kind)),
     mkWorld (trace w ++ [Ev_mdp kind 4 (99 # 100) 120]) (files w) (cuda w)
       (generator w)).
Proof.
  intros [[-> ->]|[-> ->]].
  - rewrite decide_True by reflexivity. reflexivity.
  - rewrite decide_False by discriminate.
    rewrite decide_True by reflexivity. reflexivity.
Qed.

(** The environment is the first thing constructed, and the only
    environment. *)
Lemma experiment_setup_env (alg : Alg) (env_type : string) (kind : EnvKind)
    (agent_path : option string) (w : World) :
  recognised env_type kind ->
  exists post,
    trace (experiment_setup alg env_type agent_path w).2 =
      trace w ++
        [Ev_seed; Ev_Logger (__name__ alg); Ev_strong_line;
         Ev_info ("Experiment Algorithm: " +:+ __name__ alg)] ++
        [Ev_mdp kind 4 (99 # 100) 120] ++ post /\
    Forall (fun e => is_mdp e = false) post.
Proof.
  intros Hrec.
  unfold experiment_setup, np_random_seed, Logger, logger_strong_line,
    logger_info.
  repeat (rewrite bind_emit; cbv beta).
  rewrite (bind_ok _ _ _ _ _ (select_env _ _ _ Hrec)).
  cbn [trace files cuda generator].
  match goal with |- context [trace (?m ?w5).2] =>
    assert (Hs : silent is_mdp m) by silent_tac;
    destruct (Hs w5) as (_ & post & Ht & Hall)
  end.
  exists post. split; [|exact Hall].
  rewrite Ht. cbn [trace]. rewrite <- ?app_assoc. reflexivity.
Qed.

Lemma loop_event_constructs (e : Event) :
  loop_event e = true -> constructs e = false.
Proof. destruct e; cbn; congruence. Qed.

Lemma constructs_is_mdp (e : Event) : constructs e = false -> is_mdp e = false.
Proof. destruct e; cbn; congruence. Qed.

(** After lines 70 to 136 nothing more is constructed. *)
Lemma experiment_after_setup (alg : Alg) (env_type : string) (n_epochs : nat)
    (n_steps n_steps_test : N) (agent_path : option string) (w : World) :
  exists evs,
    trace (experiment alg env_type n_epochs n_steps n_steps_test agent_path
             w).2 =
      trace (experiment_setup alg env_type agent_path w).2 ++ evs /\
    Forall (fun e => constructs e = false) evs.
Proof.
  unfold experiment, bind.
  destruct (experiment_setup alg env_type agent_path w) as [[core|e] w1];
    cbn [snd]; [|exists []; now rewrite app_nil_r].
  destruct agent_path as [path|].
  - assert (Hs : silent constructs
                   (do _ <- Core_evaluate core (Episodes 20) true false;
                    ret tt)) by silent_tac.
    destruct (Hs w1) as (_ & evs & Ht & Hall). now exists evs.
  - assert (Hs : unseen constructs
                   (experiment_run core env_type n_epochs n_steps
                      n_steps_test))
      by (unfold experiment_run; unseen_tac).
    apply Hs.
Qed.

(** The whole of a training run whose evaluations have steps to make
    and, if there are epochs, whose environment declares one-entry shapes
    with more than one observation feature: the events in order, the
    files, and the two agents saved. *)
Lemma training_run_full (alg : Alg) (env_type : string) (kind : EnvKind)
    (n_epochs : nat) (n_steps n_steps_test : N) (n_obs n_act : nat)
    (w : World) :
  recognised env_type kind ->
  observation_shape kind !! 0 = Some n_obs ->
  action_shape kind !! 0 = Some n_act ->
  (0 < n_steps_test)%N ->
  n_epochs = 0 \/
    (observation_shape kind = [n_obs] /\ action_shape kind = [n_act] /\
     n_obs <> 1) ->
  exists args g' J R E loop initial final,
    experiment alg env_type n_epochs n_steps n_steps_test None w =
      (Ok tt,
       mkWorld
         (trace w ++
            [Ev_seed; Ev_Logger (__name__ alg); Ev_strong_line;
             Ev_info ("Experiment Algorithm: " +:+ __name__ alg);
             Ev_mdp kind 4 (99 # 100) 120; Ev_cuda; Ev_alg alg args;
             Ev_Core;
             Ev_evaluate (Steps n_steps_test) true false;
             Ev_epoch_info 0 J R E;
             Ev_save (checkpoint_initial env_type) true;
             Ev_learn 5000 5000 true] ++ loop ++
            [Ev_save (checkpoint_final env_type) true;
             Ev_info "Press a button to visualize"; Ev_input;
             Ev_evaluate (Episodes 5) true false])
         (<[checkpoint_final env_type := final]>
            (<[checkpoint_initial env_type := initial]> (files w)))
         (cuda w) g') /\
    learns_and_saves loop = replicate n_epochs (Ev_learn n_steps 1 true) /\
    omap epoch_index loop = seq 1 n_epochs /\
    List.filter is_evaluate loop =
      replicate n_epochs (Ev_evaluate (Steps n_steps_test) false true) /\
    Forall (fun e => loop_event e = true) loop /\
    replay_memory initial = ReplayMemory_new 5000 200000 /\
    (forall n_in, last (observation_shape kind) = Some n_in ->
                  sized_for initial n_in n_obs n_act 128 /\
                  sized_for final n_in n_obs n_act 128) /\
    (n_epochs = 0 ->
     loop = [] /\
     weights final = weights initial /\
     ReplayMemory_size (replay_memory final) = 5000%N).
Proof.
  intros Hrec Hobs Hact Hpos Hfit.
  destruct (experiment_setup_spec alg env_type kind None n_obs n_act w
              Hrec Hobs Hact) as (fresh & g' & Hargs & Hrm & Hsized & Esetup).
  destruct (last_of_nonempty _ _ Hobs) as (n_in & Hlast).
  assert (Hready : n_epochs = 0 \/ fit_ready fresh).
  { destruct Hfit as [Hn|(Ho & Hc & Hne)]; [now left|right].
    apply (sized_for_fit_ready fresh n_obs n_act 128).
    - apply Hsized. now rewrite Ho.
    - rewrite Hargs. exact Ho.
    - rewrite Hargs. exact Hc.
    - exact Hne. }
  unfold experiment. rewrite (bind_ok _ _ _ _ _ Esetup).
  match goal with |- context [experiment_run ?c _ _ _ _ ?w1] =>
    destruct (experiment_run_spec c env_type n_epochs n_steps n_steps_test w1)
      as (core2 & J & R & E & loop & Ha2 & Hzero & Hloop & Hx & He & Hall
          & ->);
      [eapply sized_for_ready; [apply Hsized; exact Hlast | exact Hlast]
      | exact Hrm | exact Hpos | exact Hready |]
  end.
  cbn [core_agent trace files cuda generator] in *.
  eexists _, g', J, R, E, loop, fresh, (core_agent core2).
  split; [rewrite <- !app_assoc; reflexivity|].
  split; [exact Hloop|]. split; [exact Hx|]. split; [exact He|].
  split; [exact Hall|]. split; [exact Hrm|]. split; [|exact Hzero].
  intros n_in' Hn. split; [now apply Hsized|].
  eapply sized_for_ext; [exact Ha2|]. now apply Hsized.
Qed.

(** C5.  For the name ["hit"] the driver constructs the AirHockeyHit
    environment and for ["defend"] AirHockeyDefend, directly after the
    opening console lines, and no other environment; for every other
    name it raises NotImplementedError with nothing but those console
    lines done: no environment, no network configuration, no agent, no
    file written, no random number drawn. *)
Theorem environment_selection (alg : Alg) (env_type : string)
    (n_epochs : nat) (n_steps n_steps_test : N) (agent_path : option string)
    (w : World) :
  let console :=
    [Ev_seed; Ev_Logger (__name__ alg); Ev_strong_line;
     Ev_info ("Experiment Algorithm: " +:+ __name__ alg)] in
  let run := experiment alg env_type n_epochs n_steps n_steps_test agent_path
  in
  (forall kind, recognised env_type kind ->
     exists post,
       trace (run w).2 =
         trace w ++ console ++ [Ev_mdp kind 4 (99 # 100) 120] ++ post /\
       Forall (fun e => is_mdp e = false) post) /\
  (env_type <> "hit"%string -> env_type <> "defend"%string ->
   run w =
     (Raise NotImplementedError,
      mkWorld (trace w ++ console) (files w) (cuda w) (generator w))).
Proof.
  intros console run. split.
  - intros kind Hrec.
    destruct (experiment_setup_env alg env_type kind agent_path w Hrec)
      as (post & Ht & Hall).
    destruct (experiment_after_setup alg env_type n_epochs n_steps
                n_steps_test agent_path w) as (evs & Ht' & Hall').
    exists (post ++ evs). split.
    + subst run. rewrite Ht', Ht. rewrite <- ?app_assoc. reflexivity.
    + apply Forall_app. split; [exact Hall|].
      eapply Forall_impl; [exact Hall'|]. apply constructs_is_mdp.
  - intros Hhit Hdefend. subst run.
    unfold experiment, experiment_setup, np_random_seed, Logger,
      logger_strong_line, logger_info.
    drive.
    rewrite decide_False by exact Hhit.
    rewrite decide_False by exact Hdefend.
    unfold bind, raise. cbn [trace files cuda generator].
    rewrite <- ?app_assoc. reflexivity.
Qed.

Lemma checkpoints_differ (env_type : string) (kind : EnvKind) :
  recognised env_type kind ->
  checkpoint_final env_type <> checkpoint_initial env_type.
Proof.
  intros [[-> _]|[-> _]]; intros H; apply (f_equal String.length) in H;
    vm_compute in H; discriminate.
Qed.


(** C4 (amended).  In a training run whose evaluation budget is not
    zero, for an environment that declares the shapes [(n_obs,)] and
    [(n_act,)] with [n_obs] not 1, the learn calls and checkpoint writes
    come in this order: the initial checkpoint, then the warm-up, then one
    learn call per epoch, then the final checkpoint. *)
Theorem checkpoint_order (alg : Alg) (env_type : string) (kind : EnvKind)
    (n_epochs : nat) (n_steps n_steps_test : N) (n_obs n_act : nat)
    (w : World) :
  recognised env_type kind ->
  observation_shape kind = [n_obs] ->
  action_shape kind = [n_act] ->
  n_obs <> 1 ->
  (0 < n_steps_test)%N ->
  exists w' evs,
    experiment alg env_type n_epochs n_steps n_steps_test None w
      = (Ok tt, w') /\
    trace w' = trace w ++ evs /\
    learns_and_saves evs =
      [Ev_save (checkpoint_initial env_type) true; Ev_learn 5000 5000 true] ++
      replicate n_epochs (Ev_learn n_steps 1 true) ++
      [Ev_save (checkpoint_final env_type) true].
Proof.
  intros Hrec Hobs Hact Hne Hpos.
  assert (Hobs0 : observation_shape kind !! 0 = Some n_obs)
    by now rewrite Hobs.
  assert (Hact0 : action_shape kind !! 0 = Some n_act) by now rewrite Hact.
  destruct (training_run_full alg env_type kind n_epochs n_steps n_steps_test
              n_obs n_act w Hrec Hobs0 Hact0 Hpos
              (or_intror (conj Hobs (conj Hact Hne))))
    as (args & g' & J & R & E & loop & initial & final & -> & Hloop & _).
  eexists _, _. split; [reflexivity|]. split; [reflexivity|].
  unfold learns_and_saves in *. cbn [app List.filter is_save is_learn orb].
  rewrite List.filter_app, Hloop. reflexivity.
Qed.

(** C6 (amended).  A call with a checkpoint path never trains: whatever
    it returns or raises, it makes no learn call, logs no epoch metrics
    and writes no file.  When the environment name is recognised, the
    checkpoint exists and the networks stored in it are sized for the
    environment's observations and actions, the call loads the
    checkpoint, builds the trainer on the loaded agent, runs one rendered
    evaluation of 20 episodes with that trainer and returns; nothing
    before that is a load or an evaluation. *)
Theorem evaluation_only (alg : Alg) (env_type : string) (n_epochs : nat)
    (n_steps n_steps_test : N) (path : string) (w : World) :
  let run := experiment alg env_type n_epochs n_steps n_steps_test (Some path)
  in
  quiet run /\
  (forall kind n_in n_obs n_act n_features agent,
     recognised env_type kind ->
     last (observation_shape kind) = Some n_in ->
     observation_shape kind !! 0 = Some n_obs ->
     action_shape kind !! 0 = Some n_act ->
     files w !! path = Some agent ->
     sized_for agent n_in n_obs n_act n_features ->
     exists mdp w1 w' pre,
       experiment_setup alg env_type (Some path) w
         = (Ok (mkCore agent mdp), w1) /\
       mdp_kind mdp = kind /\
       run w =
         (do _ <- Core_evaluate (mkCore agent mdp) (Episodes 20) true false;
          ret tt) w1 /\
       run w = (Ok tt, w') /\
       trace w' =
         trace w ++ pre ++
           [Ev_load path; Ev_Core; Ev_evaluate (Episodes 20) true false] /\
       Forall (fun e => is_load e || is_evaluate e = false) pre).
Proof.
  intros run. split; [apply quiet_experiment_with_path|].
  intros kind n_in n_obs n_act n_features agent Hrec Hlast Hobs Hact Hfile
    Hsized.
  destruct (experiment_setup_spec alg env_type kind (Some path) n_obs n_act w
              Hrec Hobs Hact) as (fresh & g' & _ & _ & _ & Esetup).
  rewrite Hfile in Esetup.
  match type of Esetup with
  | context [trace w ++ ?p ++ [Ev_load path; Ev_Core]] => set (pre := p) in *
  end.
  match type of Esetup with
  | _ = (Ok (mkCore agent ?m), ?x) => set (mdp := m) in *; set (w1 := x) in *
  end.
  assert (Hr : ready (mkCore agent mdp))
    by (eapply sized_for_ready; [exact Hsized | exact Hlast]).
  assert (Erun : run w =
            (do _ <- Core_evaluate (mkCore agent mdp) (Episodes 20) true false;
             ret tt) w1)
    by (subst run; unfold experiment; now rewrite (bind_ok _ _ _ _ _ Esetup)).
  destruct (Core_evaluate_run (mkCore agent mdp) (Episodes 20) true false w1
              Hr) as (ds & core' & E & _).
  exists mdp, w1. eexists _, pre.
  split; [exact Esetup|]. split; [reflexivity|]. split; [exact Erun|].
  split; [rewrite Erun, (bind_ok _ _ _ _ _ E); reflexivity|].
  split; [cbn [trace w1]; rewrite <- !app_assoc; reflexivity|].
  subst pre. repeat constructor.
Qed.

(** C7.  For a recognised environment whose spaces declare the shapes
    [(obs_dim,)] and [(action_dim,)], the driver hands the algorithm actor
    configurations whose input and output shapes are those two shapes, and
    a critic configuration with input shape [(obs_dim + action_dim,)] and
    output shape [(1,)]; the networks instantiated from them have exactly
    these input and output widths. *)
Theorem network_shapes_match (alg : Alg) (env_type : string) (kind : EnvKind)
    (n_epochs : nat) (n_steps n_steps_test : N) (agent_path : option string)
    (obs_dim action_dim : nat) (w : World) :
  recognised env_type kind ->
  observation_shape kind = [obs_dim] ->
  action_shape kind = [action_dim] ->
  exists args pre post,
    trace (experiment alg env_type n_epochs n_steps n_steps_test agent_path
             w).2 = trace w ++ pre ++ [Ev_alg alg args] ++ post /\
    Forall (fun e => constructs e = false \/ is_mdp e = true \/ e = Ev_cuda)
      pre /\
    observation_space_shape (arg_mdp_info args) = [obs_dim] /\
    action_space_shape (arg_mdp_info args) = [action_dim] /\
    arg_actor_mu_params args !! "input_shape"%string
      = Some (VShape [obs_dim]) /\
    arg_actor_mu_params args !! "output_shape"%string
      = Some (VShape [action_dim]) /\
    arg_actor_sigma_params args !! "input_shape"%string
      = Some (VShape [obs_dim]) /\
    arg_actor_sigma_params args !! "output_shape"%string
      = Some (VShape [action_dim]) /\
    arg_critic_params args !! "input_shape"%string
      = Some (VShape [obs_dim + action_dim]) /\
    arg_critic_params args !! "output_shape"%string = Some (VShape [1]) /\
    (forall g, exists mu g',
       instantiate (arg_actor_mu_params args) g = (Ok (NActor mu), g') /\
       ActorNetwork.widths mu =
         [(obs_dim, 128); (128, 128); (128, action_dim)]) /\
    (forall g, exists sigma g',
       instantiate (arg_actor_sigma_params args) g = (Ok (NActor sigma), g') /\
       ActorNetwork.widths sigma =
         [(obs_dim, 128); (128, 128); (128, action_dim)]) /\
    (forall g, exists critic g',
       instantiate (arg_critic_params args) g = (Ok (NCritic critic), g') /\
       CriticNetwork.widths critic =
         [(obs_dim + action_dim, 128); (128, 128); (128, 1)]).
Proof.
  intros Hrec Hobs Hact.
  destruct (experiment_setup_spec alg env_type kind agent_path obs_dim
              action_dim w Hrec) as (fresh & g' & _ & _ & _ & Esetup);
    [now rewrite Hobs | now rewrite Hact |].
  destruct (experiment_after_setup alg env_type n_epochs n_steps n_steps_test
              agent_path w) as (evs & Ht & _).
  rewrite Hobs, Hact in Esetup.
  set (mdp_info := mkMDPInfo [obs_dim] [action_dim] (99 # 100) 120) in *.
  set (args :=
         mkAlgArgs mdp_info (actor_params 128 [obs_dim] mdp_info (cuda w))
           (actor_params 128 [obs_dim] mdp_info (cuda w)) actor_optimizer
           (critic_params 128 [obs_dim + action_dim] (cuda w))
           64 5000 200000 10000 (1 # 1000) (3 # 10000) None) in *.
  exists args,
    [Ev_seed; Ev_Logger (__name__ alg); Ev_strong_line;
     Ev_info ("Experiment Algorithm: " +:+ __name__ alg);
     Ev_mdp kind 4 (99 # 100) 120; Ev_cuda],
    (match agent_path with
     | None => [Ev_Core]
     | Some path =>
         match files w !! path with
         | Some _ => [Ev_load path; Ev_Core]
         | None => [Ev_load path]
         end
     end ++ evs).
  split.
  { rewrite Ht, Esetup.
    destruct agent_path as [path|]; [destruct (files w !! path)|];
      cbn [snd trace]; rewrite <- !app_assoc; reflexivity. }
  split.
  { repeat (apply Forall_cons; split;
              [cbn; first [left; reflexivity | right; left; reflexivity
                          | right; right; reflexivity]|]).
    constructor. }
  subst args mdp_info.
  repeat (split; [reflexivity|]).
  cbn [arg_actor_mu_params arg_actor_sigma_params arg_critic_params].
  split; [|split]; intros g.
  - apply instantiate_actor; [reflexivity|reflexivity|lia].
  - apply instantiate_actor; [reflexivity|reflexivity|lia].
  - apply instantiate_critic; [reflexivity|lia].
Qed.

(** C10.  The entry point passes a checkpoint path, so it is the
    evaluation-only computation whatever epoch count and step budgets go
    with it: after the setup, one evaluation of 20 episodes.  It never
    trains: whatever it returns or raises, it makes no learn call, logs no
    epoch metrics and writes no file. *)
Theorem main_evaluation_only :
  (forall n_epochs n_steps n_steps_test,
     main =
       experiment SAC "defend" n_epochs n_steps n_steps_test
         (Some "agents/air_hockey_defend.msh"%string)) /\
  main =
    (do core <- experiment_setup SAC "defend"
                  (Some "agents/air_hockey_defend.msh"%string);
     do _ <- Core_evaluate core (Episodes 20) true false;
     ret tt) /\
  quiet main.
Proof.
  split; [reflexivity|]. split; [reflexivity|].
  apply quiet_experiment_with_path.
Qed.

End DriverProperties.

(** ** The theorems on concrete inputs *)

(** Construction for three inputs, one output and width two. *)
Lemma init_laws_witness :
  exists critic actor g1 g2,
    CriticNetwork.__init__ [3] [1] 2 Examples.g0 = (Ok critic, g1) /\
    ActorNetwork.__init__ [3] [1] 2 Examples.g0 = (Ok actor, g2) /\
    Forall2 laws_are (CriticNetwork.laws critic)
      [((6 * 2 / Qnat (3 + 2))%Q, (1 / Qnat 3)%Q);
       ((6 * 2 / Qnat (2 + 2))%Q, (1 / Qnat 2)%Q);
       ((6 * 1 / Qnat (2 + 1))%Q, (1 / Qnat 2)%Q)] /\
    Forall2 laws_are (ActorNetwork.laws actor)
      [((6 * 2 / Qnat (3 + 2))%Q, (1 / Qnat 3)%Q);
       ((6 * 2 / Qnat (2 + 2))%Q, (1 / Qnat 2)%Q);
       ((6 * 1 / Qnat (2 + 1))%Q, (1 / Qnat 2)%Q)] /\
    Forall (fun l => ~ law_is l.2 0) (CriticNetwork.laws critic) /\
    Forall (fun l => ~ law_is l.2 0) (ActorNetwork.laws actor).
Proof.
  apply (init_laws [3] [1] 3 2 1 Examples.g0);
    [reflexivity | reflexivity | lia | lia | lia].
Defined.

(** C2 (as stated) fails on the biases: after construction the first
    layer's bias follows the uniform law with squared bound 1/3, which is
    not the zero law. *)
Lemma init_laws_counterexample :
  exists critic g1,
    CriticNetwork.__init__ [3] [1] 2 Examples.g0 = (Ok critic, g1) /\
    plaw (bias (CriticNetwork._h1 critic)) = Uniform (1 # 3) /\
    ~ law_is (plaw (bias (CriticNetwork._h1 critic))) 0.
Proof.
  eexists _, _. split; [reflexivity|]. split; [reflexivity|].
  cbn. discriminate.
Qed.


(** The order of learn calls and checkpoints on the small framework,
    two epochs. *)
Lemma checkpoint_order_witness :
  exists (w' : @World Examples.framework) evs,
    experiment SAC "defend" 2 7 3 None Examples.world = (Ok tt, w') /\
    trace w' = trace Examples.world ++ evs /\
    learns_and_saves evs =
      [Ev_save (checkpoint_initial "defend") true; Ev_learn 5000 5000 true] ++
      replicate 2 (Ev_learn 7 1 true) ++
      [Ev_save (checkpoint_final "defend") true].
Proof.
  apply (checkpoint_order (FW := Examples.framework) SAC "defend"
           AirHockeyDefend 2 7 3 6 3 Examples.world);
    [right; split; reflexivity | reflexivity | reflexivity | discriminate
    | reflexivity].
Defined.

(** C4 (as stated) fails: in a training run, here one with evaluations
    of three steps and no epochs, the initial checkpoint is written before
    the warm-up, not after it, and the buffer it stores is empty. *)
Lemma checkpoint_order_counterexample :
  Examples.training_run.1 = Ok tt /\
  before is_warmup (is_save_to (checkpoint_initial "hit"))
    (trace Examples.training_run.2) = false /\
  before (is_save_to (checkpoint_initial "hit")) is_warmup
    (trace Examples.training_run.2) = true /\
  (fun a : @Agent Examples.framework => ReplayMemory_size (replay_memory a))
    <$> files Examples.training_run.2 !! checkpoint_initial "hit"
    = Some 0%N.
Proof. vm_compute. repeat split. Qed.

(** The choice of environment on the small framework: a known and an
    unknown name. *)
Lemma environment_selection_witness :
  (exists post,
     trace (experiment SAC "hit" 0 7 3 None Examples.world).2 =
       trace Examples.world ++
         [Ev_seed; Ev_Logger "SAC"; Ev_strong_line;
          Ev_info "Experiment Algorithm: SAC"] ++
         [Ev_mdp AirHockeyHit 4 (99 # 100) 120] ++ post /\
     Forall (fun e => is_mdp e = false) post) /\
  experiment SAC "foo" 0 7 3 None Examples.world =
    (Raise NotImplementedError,
     mkWorld [Ev_seed; Ev_Logger "SAC"; Ev_strong_line;
              Ev_info "Experiment Algorithm: SAC"] ∅ false Examples.g0).
Proof.
  split.
  - apply (environment_selection (FW := Examples.framework) SAC "hit" 0 7 3
             None Examples.world).
    left. split; reflexivity.
  - apply (environment_selection (FW := Examples.framework) SAC "foo" 0 7 3
             None Examples.world); discriminate.
Defined.

(** A call with a checkpoint path on the small framework, the
    checkpoint present and holding networks for six observation and
    three action features. *)
Lemma evaluation_only_witness :
  exists (mdp : @Mdp Examples.framework) w1 w' pre,
    experiment_setup SAC "defend"
      (Some "agents/air_hockey_defend.msh"%string)
      Examples.world_with_checkpoint
      = (Ok (mkCore Examples.stored_agent mdp), w1) /\
    mdp_kind mdp = AirHockeyDefend /\
    experiment SAC "defend" 100 4000 3000
      (Some "agents/air_hockey_defend.msh"%string)
      Examples.world_with_checkpoint
      = (do _ <- Core_evaluate (mkCore Examples.stored_agent mdp)
                   (Episodes 20) true false;
         ret tt) w1 /\
    experiment SAC "defend" 100 4000 3000
      (Some "agents/air_hockey_defend.msh"%string)
      Examples.world_with_checkpoint = (Ok tt, w') /\
    trace w' =
      trace Examples.world_with_checkpoint ++ pre ++
        [Ev_load "agents/air_hockey_defend.msh"; Ev_Core;
         Ev_evaluate (Episodes 20) true false] /\
    Forall (fun e => is_load e || is_evaluate e = false) pre.
Proof.
  apply (proj2 (evaluation_only (FW := Examples.framework) SAC "defend" 100
                  4000 3000 "agents/air_hockey_defend.msh"
                  Examples.world_with_checkpoint)
           AirHockeyDefend 6 6 3 2 Examples.stored_agent);
    [right; split; reflexivity | reflexivity | reflexivity | reflexivity
    | reflexivity | ].
  eexists _, _, _. repeat split.
Defined.

(** C6 (as stated) fails for a name the driver does not know: the call
    raises before anything is loaded or evaluated, checkpoint path or
    not. *)
Lemma evaluation_only_counterexample :
  Examples.unknown_env_run.1 = Raise NotImplementedError /\
  List.filter (fun e => is_load e || is_evaluate e)
    (trace Examples.unknown_env_run.2) = [].
Proof. vm_compute. split; reflexivity. Qed.

(** The configured shapes on the small framework: six observation and
    three action features. *)
Lemma network_shapes_match_witness :
  exists (args : AlgArgs) pre post,
    trace (experiment SAC "hit" 0 7 3 None Examples.world).2 =
      trace Examples.world ++ pre ++ [Ev_alg SAC args] ++ post /\
    Forall (fun e => constructs e = false \/ is_mdp e = true \/ e = Ev_cuda)
      pre /\
    observation_space_shape (arg_mdp_info args) = [6] /\
    action_space_shape (arg_mdp_info args) = [3] /\
    arg_actor_mu_params args !! "input_shape"%string = Some (VShape [6]) /\
    arg_actor_mu_params args !! "output_shape"%string = Some (VShape [3]) /\
    arg_actor_sigma_params args !! "input_shape"%string
      = Some (VShape [6]) /\
    arg_actor_sigma_params args !! "output_shape"%string
      = Some (VShape [3]) /\
    arg_critic_params args !! "input_shape"%string
      = Some (VShape [6 + 3]) /\
    arg_critic_params args !! "output_shape"%string = Some (VShape [1]) /\
    (forall g, exists mu g',
       instantiate (arg_actor_mu_params args) g = (Ok (NActor mu), g') /\
       ActorNetwork.widths mu = [(6, 128); (128, 128); (128, 3)]) /\
    (forall g, exists sigma g',
       instantiate (arg_actor_sigma_params args) g = (Ok (NActor sigma), g') /\
       ActorNetwork.widths sigma = [(6, 128); (128, 128); (128, 3)]) /\
    (forall g, exists critic g',
       instantiate (arg_critic_params args) g = (Ok (NCritic critic), g') /\
       CriticNetwork.widths critic = [(6 + 3, 128); (128, 128); (128, 1)]).
Proof.
  apply (network_shapes_match (FW := Examples.framework) SAC "hit"
           AirHockeyHit 0 7 3 None 6 3 Examples.world);
    [left; split; reflexivity | reflexivity | reflexivity].
Defined.

(* ===================================================================== *)
(** * Further properties of the networks                                  *)
(* ===================================================================== *)

(** ** When the forward passes raise *)

Section ForwardCases.
Context {F : Type} `{Scalar F}.

Lemma Linear_call_mismatch (l : Linear (Tensor F)) (x : Tensor F) :
  last (shape x) <> Some (in_features l) ->
  Linear_call l x = Raise RuntimeError.
Proof.
  intros Hne. unfold Linear_call.
  destruct (last (shape x)) as [d|]; [|reflexivity].
  rewrite decide_False; [reflexivity|]. congruence.
Qed.

(** X1.  What [ActorNetwork.forward] does on every input: with fewer
    than two dimensions it raises IndexError; otherwise a singleton second
    dimension is dropped, and the call raises RuntimeError unless the last
    remaining dimension is the input width of the first layer; when it is,
    the result keeps all leading dimensions and ends in the output
    width. *)
Theorem actor_forward_cases (actor : ActorNetwork.t (Tensor F))
    (obs_dim feature_width action_dim : nat) (state : Tensor F)
    (g : Generator) :
  ActorNetwork.widths actor =
    [(obs_dim, feature_width); (feature_width, feature_width);
     (feature_width, action_dim)] ->
  match shape state with
  | [] | [_] => ActorNetwork.forward actor state g = (Raise IndexError, g)
  | n :: d :: rest =>
      let sh := if decide (d = 1) then n :: rest else n :: d :: rest in
      if decide (last sh = Some obs_dim)
      then exists out,
             ActorNetwork.forward actor state g = (Ok out, g) /\
             shape out = removelast sh ++ [action_dim]
      else ActorNetwork.forward actor state g = (Raise RuntimeError, g)
  end.
Proof.
  intros Hw. destruct state as [sh0 x]. cbn [shape].
  destruct sh0 as [|n [|d rest]]; [reflexivity | reflexivity |].
  assert (Hsq : squeeze_dim (mkTensor (n :: d :: rest) x) 1 =
                Ok (mkTensor (if decide (d = 1) then n :: rest
                              else n :: d :: rest) x)).
  { case_decide as Hd.
    - subst d. reflexivity.
    - now apply squeeze_dim_keep with (n := d). }
  cbv zeta. set (sh := if decide (d = 1) then n :: rest else n :: d :: rest)
    in *.
  case_decide as Hlast.
  - destruct (actor_forward_shape actor (mkTensor (n :: d :: rest) x)
                (mkTensor sh x) obs_dim feature_width action_dim g Hw Hsq
                Hlast) as (out & E & S).
    now exists out.
  - unfold ActorNetwork.forward. rewrite Hsq, bind_lift_ok.
    rewrite Linear_call_mismatch; [reflexivity|].
    injection Hw as Hi _. unfold float. cbn [shape]. congruence.
Qed.

(** X2.  What [CriticNetwork.forward] does on two-dimensional batches and
    on one-dimensional inputs, for layers of any widths whose first has
    an input.  Two batches of the same size whose feature counts add up
    to the input width of the first layer give a result of the shape
    [(batch_size, n_output)] with every singleton dimension removed;
    every other pair of two-dimensional batches raises RuntimeError.
    One-dimensional inputs raise IndexError, except two empty ones: their
    concatenation is empty, and the first layer rejects it with
    RuntimeError. *)
Theorem critic_forward_cases (critic : CriticNetwork.t (Tensor F))
    (n_input feature_width n_output : nat)
    (batch_size batch_size' obs_dim action_dim : nat) (ds da : list F)
    (g : Generator) :
  CriticNetwork.widths critic =
    [(n_input, feature_width); (feature_width, feature_width);
     (feature_width, n_output)] ->
  0 < n_input ->
  (if decide (batch_size = batch_size' /\ obs_dim + action_dim = n_input)
   then exists out,
          CriticNetwork.forward critic (mkTensor [batch_size; obs_dim] ds)
            (mkTensor [batch_size'; action_dim] da) g = (Ok out, g) /\
          shape out = filter (fun d => d <> 1) [batch_size; n_output]
   else CriticNetwork.forward critic (mkTensor [batch_size; obs_dim] ds)
          (mkTensor [batch_size'; action_dim] da) g
        = (Raise RuntimeError, g)) /\
  (if decide (obs_dim = 0 /\ action_dim = 0)
   then CriticNetwork.forward critic (mkTensor [obs_dim] ds)
          (mkTensor [action_dim] da) g = (Raise RuntimeError, g)
   else CriticNetwork.forward critic (mkTensor [obs_dim] ds)
          (mkTensor [action_dim] da) g = (Raise IndexError, g)).
Proof.
  intros Hw Hpos. injection Hw as Hi1 Ho1 Hi2 Ho2 Hi3 Ho3.
  assert (Hcat : cat1 (float (mkTensor [batch_size; obs_dim] ds))
                   (float (mkTensor [batch_size; action_dim] da)) =
                 Ok (mkTensor [batch_size; obs_dim + action_dim]
                       (concat (zip_with app
                          (rows (obs_dim * numel []) batch_size ds)
                          (rows (action_dim * numel []) batch_size da))))).
  { unfold cat1, float. cbn [shape data].
    destruct batch_size; rewrite decide_True by done; reflexivity. }
  split.
  - case_decide as Hc.
    + destruct Hc as [<- <-].
      destruct (perceptron_shape (CriticNetwork._h1 critic)
                  (CriticNetwork._h2 critic) (CriticNetwork._h3 critic)
                  (mkTensor [batch_size; obs_dim + action_dim]
                     (concat (zip_with app
                        (rows (obs_dim * numel []) batch_size ds)
                        (rows (action_dim * numel []) batch_size da))))
                  (obs_dim + action_dim) feature_width n_output g)
        as (q & E & S); [congruence | reflexivity |].
      exists (squeeze q). split; [|cbn [squeeze shape]; now rewrite S].
      unfold CriticNetwork.forward, bind, lift, ret in *. rewrite Hcat.
      destruct (Linear_call (CriticNetwork._h1 critic) _); [|discriminate].
      destruct (Linear_call (CriticNetwork._h2 critic) _); [|discriminate].
      destruct (Linear_call (CriticNetwork._h3 critic) _); congruence.
    + destruct (decide (batch_size = batch_size')) as [<-|Hne].
      * unfold CriticNetwork.forward. rewrite Hcat, bind_lift_ok.
        rewrite Linear_call_mismatch; [reflexivity|]. cbn [shape last].
        intros [= Hs]. apply Hc. split; [reflexivity|]. congruence.
      * unfold CriticNetwork.forward, cat1, float. cbn [shape data].
        destruct batch_size, batch_size';
          rewrite decide_False by (intros [? _]; congruence); reflexivity.
  - case_decide as Hz.
    + destruct Hz as [-> ->].
      unfold CriticNetwork.forward, cat1, float. cbn [shape data].
      rewrite bind_lift_ok.
      rewrite Linear_call_mismatch; [reflexivity|]. cbn [shape last].
      intros [= Hs]. lia.
    + unfold CriticNetwork.forward, cat1, float. cbn [shape data].
      destruct obs_dim, action_dim; try reflexivity. exfalso. now apply Hz.
Qed.

(** X3.  A batch with a singleton middle dimension and the same batch
    without it go through [ActorNetwork.forward] alike, provided the
    samples have more than one feature or none. *)
Theorem actor_forward_singleton_middle (actor : ActorNetwork.t (Tensor F))
    (batch_size obs_dim : nat) (ds : list F) (g : Generator) :
  obs_dim <> 1 ->
  ActorNetwork.forward actor (mkTensor [batch_size; 1; obs_dim] ds) g
  = ActorNetwork.forward actor (mkTensor [batch_size; obs_dim] ds) g.
Proof.
  intros Hobs. unfold ActorNetwork.forward.
  rewrite squeeze_dim_drop by reflexivity.
  now rewrite (squeeze_dim_keep (mkTensor [batch_size; obs_dim] ds) 1 obs_dim).
Qed.
End ForwardCases.

(** ** Samples of a batch do not influence each other *)

Section Rowwise.
Context {F : Type} `{Scalar F}.

Lemma rows_concat {A} (k : nat) (ls : list (list A)) :
  Forall (fun r => length r = k) ls -> rows k (length ls) (concat ls) = ls.
Proof.
  induction 1 as [|r ls Hr _ IH]; [reflexivity|].
  cbn [length concat rows].
  rewrite take_app_length', drop_app_length' by (symmetry; exact Hr).
  now rewrite IH.
Qed.

Lemma length_Linear_row (l : Linear (Tensor F)) (r : list F) :
  Linear_wf l -> length (Linear_row l r) = out_features l.
Proof.
  intros (_ & _ & Hbs & Hb). unfold Linear_row, affine, tensor_wf in *.
  rewrite length_zip_with, length_rows, Hb, Hbs. cbn. lia.
Qed.

Lemma Linear_call_batch (l : Linear (Tensor F)) (rws : list (list F)) :
  Forall (fun r => length r = in_features l) rws ->
  Linear_call l (mkTensor [length rws; in_features l] (concat rws)) =
    Ok (mkTensor [length rws; out_features l]
          (concat (Linear_row l <$> rws))).
Proof.
  intros Hrws. unfold Linear_call. cbn [shape last data].
  rewrite decide_True by reflexivity.
  cbn [removelast app numel foldr]. rewrite Nat.mul_1_r.
  now rewrite rows_concat.
Qed.

Lemma relu_batch (sh : list nat) (rws : list (list F)) :
  relu (mkTensor sh (concat rws)) =
    mkTensor sh (concat (fmap (M := list) (A := F) srelu <$> rws)).
Proof.
  unfold relu. cbn [shape data]. f_equal.
  induction rws as [|r rws IH]; [reflexivity|].
  cbn [concat fmap list_fmap]. now rewrite fmap_app, IH.
Qed.

(** The three layers on a batch are the three layers on each sample. *)
Lemma perceptron_batch (h1 h2 h3 : Linear (Tensor F))
    (rws : list (list F)) (g : Generator) :
  in_features h2 = out_features h1 ->
  in_features h3 = out_features h2 ->
  Linear_wf h1 -> Linear_wf h2 ->
  Forall (fun r => length r = in_features h1) rws ->
  (do a1 <- lift (Linear_call h1
                    (mkTensor [length rws; in_features h1] (concat rws)));
   do a2 <- lift (Linear_call h2 (relu a1));
   lift (Linear_call h3 (relu a2))) g
  = (Ok (mkTensor [length rws; out_features h3]
           (concat (perceptron_row h1 h2 h3 <$> rws))), g).
Proof.
  intros H12 H23 Hwf1 Hwf2 Hrws.
  set (f1 := fun r : list F => srelu <$> Linear_row h1 r).
  set (f2 := fun r : list F => srelu <$> Linear_row h2 r).
  assert (Hr1 : relu (mkTensor [length rws; out_features h1]
                        (concat (Linear_row h1 <$> rws)))
                = mkTensor [length (f1 <$> rws); in_features h2]
                    (concat (f1 <$> rws))).
  { rewrite relu_batch, <- list_fmap_compose, length_fmap, H12.
    reflexivity. }
  assert (Hr2 : relu (mkTensor [length (f1 <$> rws); out_features h2]
                        (concat (Linear_row h2 <$> (f1 <$> rws))))
                = mkTensor [length (f2 <$> (f1 <$> rws)); in_features h3]
                    (concat (f2 <$> (f1 <$> rws)))).
  { rewrite relu_batch, <- list_fmap_compose, !length_fmap, H23.
    reflexivity. }
  rewrite Linear_call_batch by exact Hrws. rewrite bind_lift_ok, Hr1.
  rewrite Linear_call_batch.
  2:{ apply Forall_fmap, Forall_forall. intros r _. unfold f1. cbn.
      rewrite length_fmap, length_Linear_row by exact Hwf1. congruence. }
  rewrite bind_lift_ok, Hr2.
  unfold lift. rewrite Linear_call_batch.
  2:{ apply Forall_fmap, Forall_forall. intros r _. unfold f2. cbn.
      rewrite length_fmap, length_Linear_row by exact Hwf2. congruence. }
  rewrite <- !list_fmap_compose, !length_fmap. reflexivity.
Qed.

Lemma single_row {A} (r : list A) : concat [r] = r.
Proof. cbn. apply app_nil_r. Qed.

(** X4.  [ActorNetwork.forward] treats the samples of a batch one by
    one: the result for a batch is the results for its samples, each
    passed alone as a batch of one, put together in order. *)
Theorem actor_forward_samplewise (actor : ActorNetwork.t (Tensor F))
    (obs_dim feature_width action_dim : nat) (rws : list (list F))
    (g : Generator) :
  ActorNetwork.widths actor =
    [(obs_dim, feature_width); (feature_width, feature_width);
     (feature_width, action_dim)] ->
  Linear_wf (ActorNetwork._h1 actor) ->
  Linear_wf (ActorNetwork._h2 actor) ->
  obs_dim <> 1 ->
  Forall (fun r => length r = obs_dim) rws ->
  exists outs,
    Forall2 (fun r o =>
               ActorNetwork.forward actor (mkTensor [1; obs_dim] r) g
               = (Ok (mkTensor [1; action_dim] o), g)) rws outs /\
    ActorNetwork.forward actor
      (mkTensor [length rws; obs_dim] (concat rws)) g
    = (Ok (mkTensor [length rws; action_dim] (concat outs)), g).
Proof.
  intros Hw Hwf1 Hwf2 Hobs Hrws.
  injection Hw as Hi1 Ho1 Hi2 Ho2 Hi3 Ho3.
  set (f := perceptron_row (ActorNetwork._h1 actor) (ActorNetwork._h2 actor)
              (ActorNetwork._h3 actor)).
  assert (Hbatch : forall rs : list (list F),
    Forall (fun r => length r = obs_dim) rs ->
    ActorNetwork.forward actor (mkTensor [length rs; obs_dim] (concat rs)) g
    = (Ok (mkTensor [length rs; action_dim] (concat (f <$> rs))), g)).
  { intros rs Hrs. unfold ActorNetwork.forward.
    rewrite (squeeze_dim_keep _ 1 obs_dim) by (reflexivity || exact Hobs).
    rewrite bind_lift_ok. unfold float.
    pose proof (perceptron_batch (ActorNetwork._h1 actor)
                  (ActorNetwork._h2 actor) (ActorNetwork._h3 actor) rs g)
      as Hp.
    rewrite Hi1, Ho3 in Hp.
    specialize (Hp ltac:(congruence) ltac:(congruence) Hwf1 Hwf2 Hrs).
    unfold bind, lift, ret in *.
    destruct (Linear_call (ActorNetwork._h1 actor) _); [|discriminate].
    destruct (Linear_call (ActorNetwork._h2 actor) _); [|discriminate].
    destruct (Linear_call (ActorNetwork._h3 actor) _);
      [exact Hp | discriminate]. }
  exists (f <$> rws). split; [|now apply Hbatch].
  apply Forall2_fmap_r, Forall_Forall2_diag.
  eapply Forall_impl; [exact Hrws|]. intros r Hr.
  specialize (Hbatch [r] ltac:(now constructor)).
  cbn [length fmap list_fmap] in Hbatch. now rewrite !single_row in Hbatch.
Qed.

Lemma cat1_batch (obs_dim action_dim : nat) (srows arows : list (list F)) :
  length arows = length srows ->
  Forall (fun r => length r = obs_dim) srows ->
  Forall (fun r => length r = action_dim) arows ->
  cat1 (mkTensor [length srows; obs_dim] (concat srows))
    (mkTensor [length srows; action_dim] (concat arows))
  = Ok (mkTensor [length srows; obs_dim + action_dim]
          (concat (zip_with app srows arows))).
Proof.
  intros Hlen Hs Ha. unfold cat1. cbn [shape data numel foldr].
  rewrite !Nat.mul_1_r.
  rewrite rows_concat by exact Hs.
  replace (rows action_dim (length srows) (concat arows)) with arows
    by (rewrite <- Hlen; symmetry; now apply rows_concat).
  destruct (length srows); rewrite decide_True by done; reflexivity.
Qed.

Lemma zip_with_app_lengths (obs_dim action_dim : nat)
    (srows arows : list (list F)) :
  Forall (fun r => length r = obs_dim) srows ->
  Forall (fun r => length r = action_dim) arows ->
  Forall (fun r => length r = obs_dim + action_dim)
    (zip_with app srows arows).
Proof.
  intros Hs. revert arows. induction Hs as [|s srows Hs _ IH];
    intros arows Ha; [constructor|].
  destruct Ha as [|a arows Ha Has]; [constructor|].
  cbn [zip_with]. constructor; [|now apply IH].
  rewrite length_app. congruence.
Qed.

(** X5.  [CriticNetwork.forward] treats the samples of a batch one by
    one: the entries of the result for a batch are the results for its
    state/action pairs, each passed alone as a batch of one, put together
    in order. *)
Theorem critic_forward_samplewise (critic : CriticNetwork.t (Tensor F))
    (obs_dim action_dim feature_width n_output : nat)
    (srows arows : list (list F)) (g : Generator) :
  CriticNetwork.widths critic =
    [(obs_dim + action_dim, feature_width); (feature_width, feature_width);
     (feature_width, n_output)] ->
  Linear_wf (CriticNetwork._h1 critic) ->
  Linear_wf (CriticNetwork._h2 critic) ->
  length arows = length srows ->
  Forall (fun r => length r = obs_dim) srows ->
  Forall (fun r => length r = action_dim) arows ->
  exists outs,
    Forall2 (fun sa o =>
               CriticNetwork.forward critic (mkTensor [1; obs_dim] sa.1)
                 (mkTensor [1; action_dim] sa.2) g
               = (Ok (squeeze (mkTensor [1; n_output] o)), g))
      (zip srows arows) outs /\
    CriticNetwork.forward critic
      (mkTensor [length srows; obs_dim] (concat srows))
      (mkTensor [length srows; action_dim] (concat arows)) g
    = (Ok (squeeze (mkTensor [length srows; n_output] (concat outs))), g).
Proof.
  intros Hw Hwf1 Hwf2 Hlen Hs Ha.
  injection Hw as Hi1 Ho1 Hi2 Ho2 Hi3 Ho3.
  set (f := perceptron_row (CriticNetwork._h1 critic)
              (CriticNetwork._h2 critic) (CriticNetwork._h3 critic)).
  assert (Hbatch : forall ss aa : list (list F),
    length aa = length ss ->
    Forall (fun r => length r = obs_dim) ss ->
    Forall (fun r => length r = action_dim) aa ->
    CriticNetwork.forward critic (mkTensor [length ss; obs_dim] (concat ss))
      (mkTensor [length ss; action_dim] (concat aa)) g
    = (Ok (squeeze (mkTensor [length ss; n_output]
                      (concat (f <$> zip_with app ss aa)))), g)).
  { intros ss aa Hl Hss Haa. unfold CriticNetwork.forward, float.
    rewrite cat1_batch by assumption. rewrite bind_lift_ok.
    pose proof (perceptron_batch (CriticNetwork._h1 critic)
                  (CriticNetwork._h2 critic) (CriticNetwork._h3 critic)
                  (zip_with app ss aa) g) as Hp.
    rewrite length_zip_with, Hl, Nat.min_id, Hi1, Ho3 in Hp.
    specialize (Hp ltac:(congruence) ltac:(congruence) Hwf1 Hwf2
                  (zip_with_app_lengths _ _ _ _ Hss Haa)).
    unfold bind, lift, ret in *.
    destruct (Linear_call (CriticNetwork._h1 critic) _); [|discriminate].
    destruct (Linear_call (CriticNetwork._h2 critic) _); [|discriminate].
    destruct (Linear_call (CriticNetwork._h3 critic) _);
      [|discriminate].
    injection Hp as ->. reflexivity. }
  exists (f <$> zip_with app srows arows). split; [|now apply Hbatch].
  clear Hlen. revert arows Ha.
  induction Hs as [|s srows Hs Hss IH]; intros arows Ha; [constructor|].
  destruct Ha as [|a arows Ha Has]; [constructor|].
  cbn [zip zip_with fmap list_fmap]. constructor; [|now apply IH].
  specialize (Hbatch [s] [a] eq_refl ltac:(now constructor)
                ltac:(now constructor)).
  cbn [length zip_with fmap list_fmap fst snd] in *.
  now rewrite !single_row in Hbatch.
Qed.
End Rowwise.

(** ** Construction: when it succeeds and how it fails *)

Lemma nn_Linear_shapes (n_in n_out : nat) (g : Generator) :
  exists l g',
    nn_Linear n_in n_out g = (Ok l, g') /\
    in_features l = n_in /\ out_features l = n_out /\
    pshape (weight l) = [n_out; n_in] /\ pshape (bias l) = [n_out].
Proof.
  unfold nn_Linear, kaiming_uniform_. cbn [pshape empty].
  unfold uniform_, bind, lift, modify, ret, _calculate_fan_in_and_fan_out.
  case_decide; cbn [pshape empty fst snd]; eexists _, _;
    (split; [reflexivity|]); repeat split.
Qed.

Lemma xavier_uniform__shape (p : Param) (n_in n_out : nat) (gain_sq : Q)
    (g : Generator) :
  pshape p = [n_out; n_in] -> 0 < n_in + n_out ->
  exists p' g',
    xavier_uniform_ p gain_sq g = (Ok p', g') /\ pshape p' = [n_out; n_in].
Proof.
  intros Hp Hpos.
  unfold xavier_uniform_, uniform_, bind, lift, modify, ret,
    _calculate_fan_in_and_fan_out.
  rewrite Hp. cbn [fst snd numel foldr].
  rewrite decide_False by lia. eexists _, _. split; reflexivity.
Qed.

Lemma xavier_uniform__zero (p : Param) (gain_sq : Q) (g : Generator) :
  pshape p = [0; 0] ->
  xavier_uniform_ p gain_sq g = (Raise ZeroDivisionError, g).
Proof.
  intros Hp.
  unfold xavier_uniform_, bind, lift, raise, _calculate_fan_in_and_fan_out.
  now rewrite Hp.
Qed.

Ltac init_zero_tac Hlast Hhead :=
  let g := match goal with g : Generator |- _ => g end in
  let n_input := match type of Hlast with _ = Some ?n => n end in
  let n_output := match type of Hhead with _ = Some ?n => n end in
  destruct (nn_Linear_shapes n_input 0 g)
    as (h1 & ga & Ea & _ & _ & Hs1 & _);
  destruct (nn_Linear_shapes 0 0 ga) as (h2 & gb & Eb & _ & _ & Hs2 & _);
  destruct (nn_Linear_shapes 0 n_output gb) as (h3 & gc & Ec & _);
  rewrite Hlast, Hhead; run_init;
  destruct n_input as [|n_input];
  [ exists gc; unfold bind;
    now rewrite (xavier_uniform__zero (weight h1) 2 gc Hs1)
  | destruct (xavier_uniform__shape (weight h1) (S n_input) 0 2 gc Hs1)
      as (w1 & gd & Ed & _); [lia|];
    run_init;
    exists gd; unfold bind;
    now rewrite (xavier_uniform__zero (weight h2) 2 gd Hs2) ].

Ltac init_shapes_tac Hlast Hhead Hf :=
  let g := match goal with g : Generator |- _ => g end in
  let n_input := match type of Hlast with _ = Some ?n => n end in
  let n_output := match type of Hhead with _ = Some ?n => n end in
  let n_features := match type of Hf with 0 < ?n => n end in
  destruct (nn_Linear_shapes n_input n_features g)
    as (h1 & ga & Ea & Hi1 & Ho1 & Hs1 & Hb1);
  destruct (nn_Linear_shapes n_features n_features ga)
    as (h2 & gb & Eb & Hi2 & Ho2 & Hs2 & Hb2);
  destruct (nn_Linear_shapes n_features n_output gb)
    as (h3 & gc & Ec & Hi3 & Ho3 & Hs3 & Hb3);
  destruct (xavier_uniform__shape (weight h1) n_input n_features 2 gc Hs1)
    as (w1 & gd & Ed & Hw1); [lia|];
  destruct (xavier_uniform__shape (weight h2) n_features n_features 2 gd Hs2)
    as (w2 & ge & Ee & Hw2); [lia|];
  destruct (xavier_uniform__shape (weight h3) n_features n_output 1 ge Hs3)
    as (w3 & gf & Ef & Hw3); [lia|];
  eexists _, gf;
  rewrite Hlast, Hhead;
  split; [run_init; reflexivity|].

(** X6.  Constructing either network: an empty input shape or an empty
    output shape raises IndexError before any parameter is drawn; a
    feature width of zero raises ZeroDivisionError in the Xavier
    initialisation; in every other case construction succeeds, the input
    width being the last entry of the input shape and the output width
    the first entry of the output shape, with weights of shape
    [(out, in)] and biases of shape [(out,)]. *)
Theorem init_cases (input_shape output_shape : list nat) (n_features : nat)
    (g : Generator) :
  (input_shape = [] \/ output_shape = [] ->
   CriticNetwork.__init__ input_shape output_shape n_features g
     = (Raise IndexError, g) /\
   ActorNetwork.__init__ input_shape output_shape n_features g
     = (Raise IndexError, g)) /\
  (forall n_input n_output,
     last input_shape = Some n_input ->
     output_shape !! 0 = Some n_output ->
     n_features = 0 ->
     (exists g',
        CriticNetwork.__init__ input_shape output_shape n_features g
          = (Raise ZeroDivisionError, g')) /\
     (exists g',
        ActorNetwork.__init__ input_shape output_shape n_features g
          = (Raise ZeroDivisionError, g'))) /\
  (forall n_input n_output,
     last input_shape = Some n_input ->
     output_shape !! 0 = Some n_output ->
     0 < n_features ->
     let shapes :=
       [([n_features; n_input], [n_features]);
        ([n_features; n_features], [n_features]);
        ([n_output; n_features], [n_output])] in
     (exists critic g',
        CriticNetwork.__init__ input_shape output_shape n_features g
          = (Ok critic, g') /\
        (fun l => (pshape (weight l), pshape (bias l))) <$>
          [CriticNetwork._h1 critic; CriticNetwork._h2 critic;
           CriticNetwork._h3 critic] = shapes) /\
     (exists actor g',
        ActorNetwork.__init__ input_shape output_shape n_features g
          = (Ok actor, g') /\
        (fun l => (pshape (weight l), pshape (bias l))) <$>
          [ActorNetwork._h1 actor; ActorNetwork._h2 actor;
           ActorNetwork._h3 actor] = shapes)).
Proof.
  split; [|split].
  - intros Hempty.
    unfold CriticNetwork.__init__, ActorNetwork.__init__, getitem_last,
      getitem_0.
    destruct Hempty as [->| ->]; [split; reflexivity|].
    destruct (last input_shape); split; reflexivity.
  - intros n_input n_output Hlast Hhead ->.
    unfold CriticNetwork.__init__, ActorNetwork.__init__, getitem_last,
      getitem_0.
    split; init_zero_tac Hlast Hhead.
  - intros n_input n_output Hlast Hhead Hf shapes.
    unfold CriticNetwork.__init__, ActorNetwork.__init__, getitem_last,
      getitem_0.
    split; init_shapes_tac Hlast Hhead Hf;
      cbn; unfold set_weight; cbn; subst shapes; congruence.
Qed.

(* ===================================================================== *)
(** * Further properties of the driver                                    *)
(* ===================================================================== *)

Section DriverExtras.
Context `{FW : Framework}.

(** X7.  A training run whose evaluation budget is not zero, for an
    environment that declares the shapes [(n_obs,)] and [(n_act,)] with
    [n_obs] not 1, logs epoch metrics once before training and once after
    every epoch, numbered 0, 1, ..., [n_epochs] in this order. *)
Theorem training_run_metrics (alg : Alg) (env_type : string) (kind : EnvKind)
    (n_epochs : nat) (n_steps n_steps_test : N) (n_obs n_act : nat)
    (w : World) :
  recognised env_type kind ->
  observation_shape kind = [n_obs] ->
  action_shape kind = [n_act] ->
  n_obs <> 1 ->
  (0 < n_steps_test)%N ->
  exists w' evs,
    experiment alg env_type n_epochs n_steps n_steps_test None w
      = (Ok tt, w') /\
    trace w' = trace w ++ evs /\
    omap epoch_index evs = seq 0 (S n_epochs).
Proof.
  intros Hrec Hobs Hact Hne Hpos.
  assert (Hobs0 : observation_shape kind !! 0 = Some n_obs)
    by now rewrite Hobs.
  assert (Hact0 : action_shape kind !! 0 = Some n_act) by now rewrite Hact.
  destruct (training_run_full alg env_type kind n_epochs n_steps n_steps_test
              n_obs n_act w Hrec Hobs0 Hact0 Hpos
              (or_intror (conj Hobs (conj Hact Hne))))
    as (args & g' & J & R & E & loop & initial & final & -> & _ & Hi & _).
  eexists _, _. split; [reflexivity|]. split; [reflexivity|].
  cbn [app omap list_omap epoch_index]. rewrite omap_app, Hi.
  cbn. now rewrite app_nil_r.
Qed.

(** X8.  The evaluations of a training run whose evaluation budget is
    not zero, for an environment that declares the shapes [(n_obs,)] and
    [(n_act,)] with [n_obs] not 1: a rendered baseline of [n_steps_test]
    steps, then one unrendered, quiet evaluation of [n_steps_test] steps
    per epoch, then a rendered demonstration of five episodes, which comes
    after the prompt for input. *)
Theorem training_run_evaluations (alg : Alg) (env_type : string)
    (kind : EnvKind) (n_epochs : nat) (n_steps n_steps_test : N)
    (n_obs n_act : nat) (w : World) :
  recognised env_type kind ->
  observation_shape kind = [n_obs] ->
  action_shape kind = [n_act] ->
  n_obs <> 1 ->
  (0 < n_steps_test)%N ->
  exists w' evs,
    experiment alg env_type n_epochs n_steps n_steps_test None w
      = (Ok tt, w') /\
    trace w' = trace w ++ evs /\
    List.filter (fun e => is_evaluate e || is_input e) evs =
      [Ev_evaluate (Steps n_steps_test) true false] ++
      replicate n_epochs (Ev_evaluate (Steps n_steps_test) false true) ++
      [Ev_input; Ev_evaluate (Episodes 5) true false].
Proof.
  intros Hrec Hobs Hact Hne Hpos.
  assert (Hobs0 : observation_shape kind !! 0 = Some n_obs)
    by now rewrite Hobs.
  assert (Hact0 : action_shape kind !! 0 = Some n_act) by now rewrite Hact.
  destruct (training_run_full alg env_type kind n_epochs n_steps n_steps_test
              n_obs n_act w Hrec Hobs0 Hact0 Hpos
              (or_intror (conj Hobs (conj Hact Hne))))
    as (args & g' & J & R & E & loop & initial & final & -> & _ & _ & He & Hl
        & _).
  eexists _, _. split; [reflexivity|]. split; [reflexivity|].
  cbn [app List.filter is_evaluate is_input orb].
  rewrite List.filter_app. cbn [List.filter is_evaluate is_input orb].
  rewrite <- He. do 2 f_equal.
  apply List.filter_ext_in. intros e He'.
  apply list_elem_of_In in He'.
  rewrite Forall_forall in Hl. specialize (Hl e He').
  destruct e; cbn in *; congruence.
Qed.

(** X9.  A training run whose evaluation budget is not zero, for an
    environment that declares the shapes [(n_obs,)] and [(n_act,)] with
    [n_obs] not 1, writes the two checkpoint files of its environment and
    no other file: every other path holds afterwards what it held
    before. *)
Theorem training_run_files (alg : Alg) (env_type : string) (kind : EnvKind)
    (n_epochs : nat) (n_steps n_steps_test : N) (n_obs n_act : nat)
    (w : World) :
  recognised env_type kind ->
  observation_shape kind = [n_obs] ->
  action_shape kind = [n_act] ->
  n_obs <> 1 ->
  (0 < n_steps_test)%N ->
  exists w',
    experiment alg env_type n_epochs n_steps n_steps_test None w
      = (Ok tt, w') /\
    is_Some (files w' !! checkpoint_initial env_type) /\
    is_Some (files w' !! checkpoint_final env_type) /\
    forall path,
      path <> checkpoint_initial env_type ->
      path <> checkpoint_final env_type ->
      files w' !! path = files w !! path.
Proof.
  intros Hrec Hobs Hact Hne Hpos.
  assert (Hobs0 : observation_shape kind !! 0 = Some n_obs)
    by now rewrite Hobs.
  assert (Hact0 : action_shape kind !! 0 = Some n_act) by now rewrite Hact.
  destruct (training_run_full alg env_type kind n_epochs n_steps n_steps_test
              n_obs n_act w Hrec Hobs0 Hact0 Hpos
              (or_intror (conj Hobs (conj Hact Hne))))
    as (args & g' & J & R & E & loop & initial & final & -> & _).
  eexists. split; [reflexivity|]. cbn [files]. split; [|split].
  - rewrite lookup_insert_ne by (eapply checkpoints_differ; eassumption).
    rewrite lookup_insert_eq. eauto.
  - rewrite lookup_insert_eq. eauto.
  - intros path Hi Hf. now rewrite !lookup_insert_ne by congruence.
Qed.

(** X10.  A training run whose evaluation budget is not zero, for an
    environment that declares the shapes [(n_obs,)] and [(n_act,)] with
    [n_obs] not 1, builds one environment, asks once for an accelerator,
    builds one agent and one trainer, in this order, and never loads a
    checkpoint, whatever files there are. *)
Theorem training_run_constructs (alg : Alg) (env_type : string)
    (kind : EnvKind) (n_epochs : nat) (n_steps n_steps_test : N)
    (n_obs n_act : nat) (w : World) :
  recognised env_type kind ->
  observation_shape kind = [n_obs] ->
  action_shape kind = [n_act] ->
  n_obs <> 1 ->
  (0 < n_steps_test)%N ->
  exists w' evs args,
    experiment alg env_type n_epochs n_steps n_steps_test None w
      = (Ok tt, w') /\
    trace w' = trace w ++ evs /\
    List.filter constructs evs =
      [Ev_mdp kind 4 (99 # 100) 120; Ev_cuda; Ev_alg alg args; Ev_Core].
Proof.
  intros Hrec Hobs Hact Hne Hpos.
  assert (Hobs0 : observation_shape kind !! 0 = Some n_obs)
    by now rewrite Hobs.
  assert (Hact0 : action_shape kind !! 0 = Some n_act) by now rewrite Hact.
  destruct (training_run_full alg env_type kind n_epochs n_steps n_steps_test
              n_obs n_act w Hrec Hobs0 Hact0 Hpos
              (or_intror (conj Hobs (conj Hact Hne))))
    as (args & g' & J & R & E & loop & initial & final & -> & _ & _ & _ & Hl
        & _).
  eexists _, _, args. split; [reflexivity|]. split; [reflexivity|].
  cbn [app List.filter constructs]. rewrite List.filter_app.
  cbn [List.filter constructs].
  replace (List.filter constructs loop) with (@nil Event); [reflexivity|].
  symmetry. induction Hl as [|e loop He _ IH]; [reflexivity|].
  cbn [List.filter]. now rewrite (loop_event_constructs e He).
Qed.

(** X11.  What a training run saves last is what a later call with that
    path evaluates: after a training run whose evaluation budget is not
    zero, for an environment that declares the shapes [(n_obs,)] and
    [(n_act,)] with [n_obs] not 1, a call for the same environment with
    the final checkpoint's path finds the file, hands the stored agent to
    the trainer, whose networks accept the environment's observations,
    returns normally and changes no file.  For ["defend"] this later call
    is the entry point as it stands. *)
Theorem train_then_evaluate (alg : Alg) (env_type : string) (kind : EnvKind)
    (n_epochs : nat) (n_steps n_steps_test : N) (n_obs n_act : nat)
    (w : World) :
  recognised env_type kind ->
  observation_shape kind = [n_obs] ->
  action_shape kind = [n_act] ->
  n_obs <> 1 ->
  (0 < n_steps_test)%N ->
  exists w1 final,
    experiment alg env_type n_epochs n_steps n_steps_test None w
      = (Ok tt, w1) /\
    files w1 !! checkpoint_final env_type = Some final /\
    (exists core w2,
       experiment_setup alg env_type (Some (checkpoint_final env_type)) w1
         = (Ok core, w2) /\
       core_agent core = final /\
       ready core) /\
    (forall n_epochs' n_steps' n_steps_test',
       exists w2,
         experiment alg env_type n_epochs' n_steps' n_steps_test'
           (Some (checkpoint_final env_type)) w1 = (Ok tt, w2) /\
         files w2 = files w1) /\
    (alg = SAC -> env_type = "defend"%string ->
     exists w2, main w1 = (Ok tt, w2)).
Proof.
  intros Hrec Hobs Hact Hne Hpos.
  assert (Hobs0 : observation_shape kind !! 0 = Some n_obs)
    by now rewrite Hobs.
  assert (Hact0 : action_shape kind !! 0 = Some n_act) by now rewrite Hact.
  destruct (training_run_full alg env_type kind n_epochs n_steps n_steps_test
              n_obs n_act w Hrec Hobs0 Hact0 Hpos
              (or_intror (conj Hobs (conj Hact Hne))))
    as (args & g' & J & R & E & loop & initial & final & Erun & _ & _ & _ & _
        & _ & Hsized & _).
  destruct (last_of_nonempty _ _ Hobs0) as (n_in & Hlast).
  destruct (Hsized n_in Hlast) as [_ Hfinal].
  eexists _, final. split; [exact Erun|].
  match type of Erun with _ = (_, ?x) => set (w1 := x) in * end.
  assert (Hfile : files w1 !! checkpoint_final env_type = Some final)
    by apply lookup_insert_eq.
  split; [exact Hfile|].
  destruct (experiment_setup_spec alg env_type kind
              (Some (checkpoint_final env_type)) n_obs n_act w1
              Hrec Hobs0 Hact0) as (fresh & g2 & _ & _ & _ & Esetup).
  rewrite Hfile in Esetup.
  match type of Esetup with
  | _ = (Ok ?c, _) =>
      assert (Hr : ready c)
        by (eapply sized_for_ready; [exact Hfinal | exact Hlast])
  end.
  assert (Hcall : forall n_epochs' n_steps' n_steps_test',
    exists w2,
      experiment alg env_type n_epochs' n_steps' n_steps_test'
        (Some (checkpoint_final env_type)) w1 = (Ok tt, w2) /\
      files w2 = files w1).
  { intros n_epochs' n_steps' n_steps_test'.
    unfold experiment. rewrite (bind_ok _ _ _ _ _ Esetup).
    match goal with |- context [bind (Core_evaluate ?c ?b ?r ?q) _ ?w3] =>
      destruct (Core_evaluate_run c b r q w3 Hr) as (ds & core' & E3 & _)
    end.
    rewrite (bind_ok _ _ _ _ _ E3). eexists. split; reflexivity. }
  split; [|split].
  - eexists _, _. split; [exact Esetup|]. split; [reflexivity|exact Hr].
  - exact Hcall.
  - intros -> ->. destruct (Hcall 100 4000%N 3000%N) as (w2 & E2 & _).
    exists w2. exact E2.
Qed.

(** X12.  A call with the path of a checkpoint that does not exist ends
    at the load with ValueError: the environment and a fresh agent have
    been built by then, the trainer has not, nothing is evaluated and no
    file is written. *)
Theorem missing_checkpoint (alg : Alg) (env_type : string) (kind : EnvKind)
    (n_epochs : nat) (n_steps n_steps_test : N) (path : string)
    (n_obs n_act : nat) (w : World) :
  recognised env_type kind ->
  observation_shape kind !! 0 = Some n_obs ->
  action_shape kind !! 0 = Some n_act ->
  files w !! path = None ->
  exists w' pre,
    experiment alg env_type n_epochs n_steps n_steps_test (Some path) w
      = (Raise ValueError, w') /\
    files w' = files w /\
    trace w' = trace w ++ pre ++ [Ev_load path] /\
    (exists args,
       List.filter constructs pre =
         [Ev_mdp kind 4 (99 # 100) 120; Ev_cuda; Ev_alg alg args]) /\
    Forall (fun e => is_evaluate e = false) pre.
Proof.
  intros Hrec Hobs Hact Hfile.
  destruct (experiment_setup_spec alg env_type kind (Some path) n_obs n_act w
              Hrec Hobs Hact) as (fresh & g' & _ & _ & _ & Esetup).
  rewrite Hfile in Esetup.
  unfold experiment, bind. rewrite Esetup.
  eexists _, _. split; [reflexivity|]. split; [reflexivity|].
  split; [reflexivity|]. split; [eexists; reflexivity|].
  repeat constructor.
Qed.

(** X13.  A training run with an evaluation budget of zero steps ends in
    its baseline evaluation: the dataset is empty, [parse_dataset] fails
    its assertion, and the run raises AssertionError with no metrics
    logged, no learn call made and no checkpoint written. *)
Theorem empty_evaluation_budget (alg : Alg) (env_type : string)
    (kind : EnvKind) (n_epochs : nat) (n_steps : N) (n_obs n_act : nat)
    (w : World) :
  recognised env_type kind ->
  observation_shape kind !! 0 = Some n_obs ->
  action_shape kind !! 0 = Some n_act ->
  exists w' pre,
    experiment alg env_type n_epochs n_steps 0 None w
      = (Raise AssertionError, w') /\
    files w' = files w /\
    trace w' = trace w ++ pre ++ [Ev_evaluate (Steps 0) true false] /\
    Forall (fun e => trains e || is_evaluate e = false) pre.
Proof.
  intros Hrec Hobs Hact.
  destruct (experiment_setup_spec alg env_type kind None n_obs n_act w
              Hrec Hobs Hact) as (fresh & g' & _ & _ & _ & Esetup).
  match type of Esetup with
  | context [trace w ++ ?p ++ [Ev_Core]] => set (pre := p) in *
  end.
  unfold experiment. rewrite (bind_ok _ _ _ _ _ Esetup). cbv beta iota.
  rewrite experiment_run_empty. cbn [trace files cuda generator].
  eexists _, (pre ++ [Ev_Core]). split; [reflexivity|].
  split; [reflexivity|].
  split; [rewrite <- !app_assoc; reflexivity|].
  subst pre. repeat constructor.
Qed.

(** X14.  A checkpoint whose mean network expects another number of
    observation features than the environment declares is loaded without
    complaint and fails in the evaluation: the first action drawn raises
    RuntimeError in the network's first layer, after the trainer has been
    built, and no file is written. *)
Theorem checkpoint_mismatch (alg : Alg) (env_type : string) (kind : EnvKind)
    (n_epochs : nat) (n_steps n_steps_test : N) (path : string)
    (n_in n_obs n_act : nat) (agent : Agent) (mu : ActorNetwork.t Param)
    (w : World) :
  recognised env_type kind ->
  last (observation_shape kind) = Some n_in ->
  observation_shape kind !! 0 = Some n_obs ->
  action_shape kind !! 0 = Some n_act ->
  files w !! path = Some agent ->
  mu_approximator agent = NActor mu ->
  in_features (ActorNetwork._h1 mu) <> n_in ->
  exists w' pre,
    experiment alg env_type n_epochs n_steps n_steps_test (Some path) w
      = (Raise RuntimeError, w') /\
    files w' = files w /\
    trace w' =
      trace w ++ pre ++
        [Ev_load path; Ev_Core; Ev_evaluate (Episodes 20) true false] /\
    Forall (fun e => is_load e || is_evaluate e = false) pre.
Proof.
  intros Hrec Hlast Hobs Hact Hfile Hmu Hne.
  destruct (experiment_setup_spec alg env_type kind (Some path) n_obs n_act w
              Hrec Hobs Hact) as (fresh & g' & _ & _ & _ & Esetup).
  rewrite Hfile in Esetup.
  match type of Esetup with
  | context [trace w ++ ?p ++ [Ev_load path; Ev_Core]] => set (pre := p) in *
  end.
  unfold experiment. rewrite (bind_ok _ _ _ _ _ Esetup).
  unfold Core_evaluate. rewrite bind_assoc, bind_emit. cbv beta.
  unfold first_action. cbn [has_step Nat.eqb negb].
  assert (Hdraw : forall g,
    draw_action agent
      (mkMDPInfo (observation_shape kind) (action_shape kind) (99 # 100) 120)
      g = (Raise RuntimeError, g)).
  { intros g. unfold draw_action, policy_forward.
    cbn [observation_space_shape]. rewrite Hmu. unfold of_shape.
    destruct (squeeze_batch_of_one (observation_shape kind) n_in
                (replicate (numel (1 :: observation_shape kind)) tt) Hlast)
      as (s & Es & Hs).
    unfold ActorNetwork.forward. rewrite Es, !bind_assoc, bind_lift_ok.
    rewrite Linear_call_mismatch; [reflexivity|].
    unfold float. rewrite Hs. cbn. congruence. }
  unfold bind at 1 2, torch.
  cbn [core_agent core_mdp info generator trace files cuda].
  rewrite Hdraw.
  eexists _, pre. split; [reflexivity|]. split; [reflexivity|].
  split; [cbn [trace]; rewrite <- !app_assoc; reflexivity|].
  subst pre. repeat constructor.
Qed.

End DriverExtras.

(* ===================================================================== *)
(** * The further properties on concrete inputs                           *)
(* ===================================================================== *)

(** The actor on a batch of two. *)
Lemma actor_forward_cases_witness :
  exists out,
    ActorNetwork.forward Examples.actor Examples.state Examples.g0
      = (Ok out, Examples.g0) /\
    shape out = [2; 2].
Proof.
  apply (actor_forward_cases Examples.actor 2 1 2 Examples.state Examples.g0).
  reflexivity.
Defined.

(** The critic on batches of two that fit, on batches of different
    sizes, on batches with a feature too many, on two vectors, and on two
    empty vectors. *)
Lemma critic_forward_cases_witness :
  (exists out,
     CriticNetwork.forward Examples.critic Examples.state Examples.action
       Examples.g0 = (Ok out, Examples.g0) /\
     shape out = [2]) /\
  CriticNetwork.forward Examples.critic Examples.state
    (mkTensor [3; 2] [0; 1; 0; 1; 0; 1]%Z) Examples.g0
    = (Raise RuntimeError, Examples.g0) /\
  CriticNetwork.forward Examples.critic Examples.state
    (mkTensor [2; 3] [0; 1; 0; 0; 1; 0]%Z) Examples.g0
    = (Raise RuntimeError, Examples.g0) /\
  CriticNetwork.forward Examples.critic (mkTensor [2] [1; 0]%Z)
    (mkTensor [2] [0; 1]%Z) Examples.g0
    = (Raise IndexError, Examples.g0) /\
  CriticNetwork.forward Examples.critic (mkTensor [0] []) (mkTensor [0] [])
    Examples.g0
    = (Raise RuntimeError, Examples.g0).
Proof.
  split; [|split; [|split; [|split]]].
  - exact (proj1 (critic_forward_cases Examples.critic 4 1 1 2 2 2 2
                    [1; 0; 1; 0]%Z [0; 1; 0; 1]%Z Examples.g0 eq_refl
                    ltac:(lia))).
  - exact (proj1 (critic_forward_cases Examples.critic 4 1 1 2 3 2 2
                    [1; 0; 1; 0]%Z [0; 1; 0; 1; 0; 1]%Z Examples.g0 eq_refl
                    ltac:(lia))).
  - exact (proj1 (critic_forward_cases Examples.critic 4 1 1 2 2 2 3
                    [1; 0; 1; 0]%Z [0; 1; 0; 0; 1; 0]%Z Examples.g0 eq_refl
                    ltac:(lia))).
  - exact (proj2 (critic_forward_cases Examples.critic 4 1 1 0 0 2 2
                    [1; 0]%Z [0; 1]%Z Examples.g0 eq_refl ltac:(lia))).
  - exact (proj2 (critic_forward_cases Examples.critic 4 1 1 0 0 0 0
                    [] [] Examples.g0 eq_refl ltac:(lia))).
Defined.

(** The same batch of two with and without a singleton middle
    dimension. *)
Lemma actor_forward_singleton_middle_witness :
  ActorNetwork.forward Examples.actor (mkTensor [2; 1; 2] [1; 0; 1; 0]%Z)
    Examples.g0
  = ActorNetwork.forward Examples.actor (mkTensor [2; 2] [1; 0; 1; 0]%Z)
      Examples.g0.
Proof.
  apply (actor_forward_singleton_middle Examples.actor 2 2 [1; 0; 1; 0]%Z
           Examples.g0).
  discriminate.
Defined.

(** Two samples through the actor, alone and as a batch. *)
Lemma actor_forward_samplewise_witness :
  exists outs,
    Forall2 (fun r o =>
               ActorNetwork.forward Examples.actor (mkTensor [1; 2] r)
                 Examples.g0
               = (Ok (mkTensor [1; 2] o), Examples.g0))
      [[1; 0]; [0; 1]]%Z outs /\
    ActorNetwork.forward Examples.actor
      (mkTensor [2; 2] (concat [[1; 0]; [0; 1]]%Z)) Examples.g0
    = (Ok (mkTensor [2; 2] (concat outs)), Examples.g0).
Proof.
  apply (actor_forward_samplewise Examples.actor 2 1 2 [[1; 0]; [0; 1]]%Z
           Examples.g0);
    [reflexivity | repeat split | repeat split | discriminate
    | repeat constructor].
Defined.

(** Two state/action pairs through the critic, alone and as a batch. *)
Lemma critic_forward_samplewise_witness :
  exists outs,
    Forall2 (fun sa o =>
               CriticNetwork.forward Examples.critic (mkTensor [1; 2] sa.1)
                 (mkTensor [1; 2] sa.2) Examples.g0
               = (Ok (squeeze (mkTensor [1; 1] o)), Examples.g0))
      (zip [[1; 0]; [0; 1]]%Z [[0; 1]; [1; 1]]%Z) outs /\
    CriticNetwork.forward Examples.critic
      (mkTensor [2; 2] (concat [[1; 0]; [0; 1]]%Z))
      (mkTensor [2; 2] (concat [[0; 1]; [1; 1]]%Z)) Examples.g0
    = (Ok (squeeze (mkTensor [2; 1] (concat outs))), Examples.g0).
Proof.
  apply (critic_forward_samplewise Examples.critic 2 2 1 1
           [[1; 0]; [0; 1]]%Z [[0; 1]; [1; 1]]%Z Examples.g0);
    [reflexivity | repeat split | repeat split | reflexivity
    | repeat constructor | repeat constructor].
Defined.

(** Construction from an empty input shape, and with no features. *)
Lemma init_cases_witness :
  (CriticNetwork.__init__ [] [1] 2 Examples.g0
     = (Raise IndexError, Examples.g0) /\
   ActorNetwork.__init__ [] [1] 2 Examples.g0
     = (Raise IndexError, Examples.g0)) /\
  ((exists g',
      CriticNetwork.__init__ [3] [1] 0 Examples.g0
        = (Raise ZeroDivisionError, g')) /\
   (exists g',
      ActorNetwork.__init__ [3] [1] 0 Examples.g0
        = (Raise ZeroDivisionError, g'))).
Proof.
  split.
  - apply (proj1 (init_cases [] [1] 2 Examples.g0)). left. reflexivity.
  - apply (proj1 (proj2 (init_cases [3] [1] 0 Examples.g0)) 3 1);
      reflexivity.
Defined.

(** Three epochs on the small framework, evaluations of two steps. *)
Lemma training_run_metrics_witness :
  exists (w' : @World Examples.framework) evs,
    experiment SAC "hit" 3 7 2 None Examples.world = (Ok tt, w') /\
    trace w' = trace Examples.world ++ evs /\
    omap epoch_index evs = seq 0 4.
Proof.
  apply (training_run_metrics (FW := Examples.framework) SAC "hit"
           AirHockeyHit 3 7 2 6 3 Examples.world);
    [left; split; reflexivity | reflexivity | reflexivity | discriminate
    | reflexivity].
Defined.

Lemma training_run_evaluations_witness :
  exists (w' : @World Examples.framework) evs,
    experiment SAC "hit" 3 7 2 None Examples.world = (Ok tt, w') /\
    trace w' = trace Examples.world ++ evs /\
    List.filter (fun e => is_evaluate e || is_input e) evs =
      [Ev_evaluate (Steps 2) true false] ++
      replicate 3 (Ev_evaluate (Steps 2) false true) ++
      [Ev_input; Ev_evaluate (Episodes 5) true false].
Proof.
  apply (training_run_evaluations (FW := Examples.framework) SAC "hit"
           AirHockeyHit 3 7 2 6 3 Examples.world);
    [left; split; reflexivity | reflexivity | reflexivity | discriminate
    | reflexivity].
Defined.

(** One epoch in a world that already holds a checkpoint. *)
Lemma training_run_files_witness :
  exists w' : @World Examples.framework,
    experiment SAC "defend" 1 7 2 None Examples.world_with_checkpoint
      = (Ok tt, w') /\
    is_Some (files w' !! checkpoint_initial "defend") /\
    is_Some (files w' !! checkpoint_final "defend") /\
    forall path,
      path <> checkpoint_initial "defend" ->
      path <> checkpoint_final "defend" ->
      files w' !! path = files Examples.world_with_checkpoint !! path.
Proof.
  apply (training_run_files (FW := Examples.framework) SAC "defend"
           AirHockeyDefend 1 7 2 6 3 Examples.world_with_checkpoint);
    [right; split; reflexivity | reflexivity | reflexivity | discriminate
    | reflexivity].
Defined.

Lemma training_run_constructs_witness :
  exists (w' : @World Examples.framework) evs args,
    experiment SAC "defend" 1 7 2 None Examples.world_with_checkpoint
      = (Ok tt, w') /\
    trace w' = trace Examples.world_with_checkpoint ++ evs /\
    List.filter constructs evs =
      [Ev_mdp AirHockeyDefend 4 (99 # 100) 120; Ev_cuda; Ev_alg SAC args;
       Ev_Core].
Proof.
  apply (training_run_constructs (FW := Examples.framework) SAC "defend"
           AirHockeyDefend 1 7 2 6 3 Examples.world_with_checkpoint);
    [right; split; reflexivity | reflexivity | reflexivity | discriminate
    | reflexivity].
Defined.

(** Training for ["defend"], then the entry point. *)
Lemma train_then_evaluate_witness :
  exists (w1 : @World Examples.framework) final,
    experiment SAC "defend" 1 7 2 None Examples.world = (Ok tt, w1) /\
    files w1 !! checkpoint_final "defend" = Some final /\
    (exists core w2,
       experiment_setup SAC "defend" (Some (checkpoint_final "defend")) w1
         = (Ok core, w2) /\
       core_agent core = final /\
       ready core) /\
    (forall n_epochs' n_steps' n_steps_test',
       exists w2,
         experiment SAC "defend" n_epochs' n_steps' n_steps_test'
           (Some (checkpoint_final "defend")) w1 = (Ok tt, w2) /\
         files w2 = files w1) /\
    (exists w2, main w1 = (Ok tt, w2)).
Proof.
  destruct (train_then_evaluate (FW := Examples.framework) SAC "defend"
              AirHockeyDefend 1 7 2 6 3 Examples.world)
    as (w1 & final & E & Hfile & Hsetup & Hcall & Hmain);
    [right; split; reflexivity | reflexivity | reflexivity | discriminate
    | reflexivity |].
  exists w1, final. split; [exact E|]. split; [exact Hfile|].
  split; [exact Hsetup|]. split; [exact Hcall|].
  apply Hmain; reflexivity.
Defined.

(** A path at which the empty world holds nothing. *)
Lemma missing_checkpoint_witness :
  exists (w' : @World Examples.framework) pre,
    experiment SAC "hit" 100 4000 3000 (Some "agents/none.msh"%string)
      Examples.world = (Raise ValueError, w') /\
    files w' = files Examples.world /\
    trace w' = trace Examples.world ++ pre ++ [Ev_load "agents/none.msh"] /\
    (exists args,
       List.filter constructs pre =
         [Ev_mdp AirHockeyHit 4 (99 # 100) 120; Ev_cuda; Ev_alg SAC args]) /\
    Forall (fun e => is_evaluate e = false) pre.
Proof.
  apply (missing_checkpoint (FW := Examples.framework) SAC "hit" AirHockeyHit
           100 4000 3000 "agents/none.msh" 6 3 Examples.world);
    [left; split; reflexivity | reflexivity | reflexivity | reflexivity].
Defined.

(** A training run that is given no step to evaluate with. *)
Lemma empty_evaluation_budget_witness :
  exists (w' : @World Examples.framework) pre,
    experiment SAC "hit" 100 4000 0 None Examples.world
      = (Raise AssertionError, w') /\
    files w' = files Examples.world /\
    trace w' =
      trace Examples.world ++ pre ++ [Ev_evaluate (Steps 0) true false] /\
    Forall (fun e => trains e || is_evaluate e = false) pre.
Proof.
  apply (empty_evaluation_budget (FW := Examples.framework) SAC "hit"
           AirHockeyHit 100 4000 6 3 Examples.world);
    [left; split; reflexivity | reflexivity | reflexivity].
Defined.

(** The entry point on a checkpoint made for four observation features,
    in an environment that declares six. *)
Lemma checkpoint_mismatch_witness :
  exists (w' : @World Examples.framework) pre,
    experiment SAC "defend" 100 4000 3000
      (Some "agents/air_hockey_defend.msh"%string)
      Examples.world_with_other_checkpoint = (Raise RuntimeError, w') /\
    files w' = files Examples.world_with_other_checkpoint /\
    trace w' =
      trace Examples.world_with_other_checkpoint ++ pre ++
        [Ev_load "agents/air_hockey_defend.msh"; Ev_Core;
         Ev_evaluate (Episodes 20) true false] /\
    Forall (fun e => is_load e || is_evaluate e = false) pre.
Proof.
  apply (checkpoint_mismatch (FW := Examples.framework) SAC "defend"
           AirHockeyDefend 100 4000 3000 "agents/air_hockey_defend.msh"
           6 6 3 (Examples.agent_for 4 3)
           (ActorNetwork.mk (Examples.layer 4 2) (Examples.layer 2 2)
              (Examples.layer 2 3)) Examples.world_with_other_checkpoint);
    [right; split; reflexivity | reflexivity | reflexivity | reflexivity
    | reflexivity | reflexivity | discriminate].
Defined.
